(** * cloudrun-action: the deployment core of the GitHub action

    A shallow embedding of the action that waits for a container image,
    creates or replaces a Cloud Run service, sets its IAM policy and
    polls it until ready, and the properties of the design document
    checked against it.

    The sources. [src/docker.ts] holds three files one after the other:
    an older [docker.ts] (lines 1-65), the current [docker.ts] (lines
    66-139) and [gcloud.ts] (lines 140-513), the module [main.ts]
    imports as [./gcloud]. Module [Docker] below follows lines 66-139,
    module [Gcloud] lines 140-513, module [Main] the file [src/main.ts].
    [src/github.ts] is not among the sources: its three functions are
    collaborators.

    Conventions of the embedding.
    - An [async] function is a computation [M A]: it threads the [World]
      (file system, process environment, the calls made so far) and ends
      in a value, a thrown exception or, for the one unbounded loop, in
      [OutOfFuel].
    - Everything outside [src/] (the googleapis client, the got client,
      the GitHub helper module, [URL], [unique-filename]) is a field of
      [Platform]: the answer it gives to the n-th call.
    - [core.debug] lines only write to the runner's log and are left out.
    - A JavaScript string is modelled by the [string] of its UTF-8
      bytes. The string operations the sources use cut and search at
      ASCII characters only, so they give the same text on both; white
      space is recognised in its UTF-8 form. *)

From Stdlib Require Import ZArith QArith Ascii String List Bool Lia.
From stdpp Require Import base option gmap strings list.

Local Open Scope string_scope.
Local Open Scope Z_scope.

(** ** JavaScript primitives the sources rely on *)

Module JS.

(** *** Strings *)

Definition chr_slash : ascii := Ascii.ascii_of_nat 47.
Definition chr_colon : ascii := Ascii.ascii_of_nat 58.
Definition chr_underscore : ascii := Ascii.ascii_of_nat 95.
Definition chr_hyphen : ascii := Ascii.ascii_of_nat 45.
Definition chr_equals : ascii := Ascii.ascii_of_nat 61.
Definition chr_comma : ascii := Ascii.ascii_of_nat 44.
Definition chr_newline : ascii := Ascii.ascii_of_nat 10.

(** [s.length] *)
Definition len (s : string) : Z := Z.of_nat (String.length s).

(** [s.lastIndexOf(c)] for a one-character needle: the greatest index
    holding [c], or [-1]. *)
Fixpoint lastIndexOf_from (c : ascii) (s : string) (i acc : Z) : Z :=
  match s with
  | EmptyString => acc
  | String a s' => lastIndexOf_from c s' (i + 1) (if Ascii.eqb a c then i else acc)
  end.

Definition lastIndexOf (s : string) (c : ascii) : Z := lastIndexOf_from c s 0 (-1).

(** [s.substring(start, end)]: both indices are clamped to [0, length]
    and swapped when [start > end]. *)
Definition clamp (n l : Z) : Z := Z.max 0 (Z.min n l).

Definition substring (s : string) (start end_ : Z) : string :=
  let a := clamp start (len s) in
  let b := clamp end_ (len s) in
  let lo := Z.min a b in
  let hi := Z.max a b in
  String.substring (Z.to_nat lo) (Z.to_nat (hi - lo)) s.

(** [s.substring(start)] *)
Definition substring_from (s : string) (start : Z) : string :=
  substring s start (len s).

(** [s.replace(/c/g, d)] for single characters. *)
Fixpoint replace_all_char (c d : ascii) (s : string) : string :=
  match s with
  | EmptyString => EmptyString
  | String a s' => String (if Ascii.eqb a c then d else a) (replace_all_char c d s')
  end.

(** [s.split(c)] for a one-character separator: never the empty list. *)
Fixpoint split_acc (c : ascii) (s : string) (cur : string) : list string :=
  match s with
  | EmptyString => [String.rev cur]
  | String a s' =>
      if Ascii.eqb a c then String.rev cur :: split_acc c s' EmptyString
      else split_acc c s' (String a cur)
  end.

Definition split (s : string) (c : ascii) : list string := split_acc c s EmptyString.

(** [s.replace(pat, by)] with a string pattern: the first occurrence only. *)
Fixpoint replace_first_fuel (n : nat) (pat by_ s : string) : string :=
  match n with
  | O => s
  | S n' =>
      if String.prefix pat s
      then by_ +:+ String.substring (String.length pat) (String.length s - String.length pat) s
      else match s with
           | EmptyString => EmptyString
           | String a s' => String a (replace_first_fuel n' pat by_ s')
           end
  end.

Definition replace_first (s pat by_ : string) : string :=
  replace_first_fuel (S (String.length s)) pat by_ s.

(** The string of the bytes [l]. *)
Definition bytes (l : list Z) : string :=
  fold_right (fun n s => String (Ascii.ascii_of_N (Z.to_N n)) s) EmptyString l.

(** The white space and line terminators [String.prototype.trim] and
    [parseInt] remove, in UTF-8: U+0009 to U+000D, U+0020, U+00A0,
    U+1680, U+2000 to U+200A, U+2028, U+2029, U+202F, U+205F, U+3000
    and U+FEFF. *)
Definition white_space : list string :=
  map bytes
    [ [9]; [10]; [11]; [12]; [13]; [32]; [194; 160]; [225; 154; 128];
      [226; 128; 128]; [226; 128; 129]; [226; 128; 130]; [226; 128; 131];
      [226; 128; 132]; [226; 128; 133]; [226; 128; 134]; [226; 128; 135];
      [226; 128; 136]; [226; 128; 137]; [226; 128; 138];
      [226; 128; 168]; [226; 128; 169]; [226; 128; 175]; [226; 129; 159];
      [227; 128; 128]; [239; 187; 191] ].

(** [s] without the [n] characters it starts with. *)
Definition skip (n : nat) (s : string) : string :=
  String.substring n (String.length s - n) s.

(** Removes from the front of [s] the members of [spaces], as long as
    there is one; [n] bounds the number of them. *)
Fixpoint strip (spaces : list string) (n : nat) (s : string) : string :=
  match n with
  | O => s
  | S n' =>
      match List.find (fun space => String.prefix space s) spaces with
      | Some space => strip spaces n' (skip (String.length space) s)
      | None => s
      end
  end.

Definition trim_start (s : string) : string :=
  strip white_space (String.length s) s.

Definition trim_end (s : string) : string :=
  String.rev (strip (map String.rev white_space) (String.length s) (String.rev s)).

(** [s.trim()] *)
Definition trim (s : string) : string := trim_end (trim_start s).

(** Truthiness of a string: only the empty string is falsy. *)
Definition truthy (s : string) : bool := negb (String.eqb s "").

(** Truthiness of a possibly undefined string. *)
Definition truthy_opt (o : option string) : bool :=
  match o with Some s => truthy s | None => false end.

(** A possibly undefined value inside a template literal. *)
Definition show_opt (o : option string) : string :=
  match o with Some s => s | None => "undefined" end.

(** *** Numbers

    A [Number] is kept as sign and magnitude, so that [-0] and the
    division by zero behave as in IEEE arithmetic. The magnitude is a
    rational, and products and quotients are exact: they are the
    doubles of JavaScript as long as the integers read from the inputs
    and their products with 60 and with 1000 stay below 2^53, where a
    product is not rounded and comparing a counter with the rounded
    quotient of two integers gives the same answer as comparing it with
    the exact quotient. The statements that name a product or a number
    of attempts carry that bound. *)

Inductive Number : Type :=
| NaN
| Infinity (neg : bool)
| Finite (neg : bool) (mag : Q).

Definition mag_is_zero (q : Q) : bool := Qeq_bool q 0.

Definition of_Z (z : Z) : Number := Finite (z <? 0) (inject_Z (Z.abs z)).

Definition mul (a b : Number) : Number :=
  match a, b with
  | NaN, _ | _, NaN => NaN
  | Infinity s, Infinity t => Infinity (xorb s t)
  | Infinity s, Finite t m | Finite t m, Infinity s =>
      if mag_is_zero m then NaN else Infinity (xorb s t)
  | Finite s m, Finite t n => Finite (xorb s t) (m * n)
  end.

Definition div (a b : Number) : Number :=
  match a, b with
  | NaN, _ | _, NaN => NaN
  | Infinity _, Infinity _ => NaN
  | Infinity s, Finite t _ => Infinity (xorb s t)
  | Finite s _, Infinity t => Finite (xorb s t) 0
  | Finite s m, Finite t n =>
      if mag_is_zero n
      then (if mag_is_zero m then NaN else Infinity (xorb s t))
      else Finite (xorb s t) (m / n)
  end.

(** The signed rational a finite number stands for. *)
Definition signed (neg : bool) (m : Q) : Q := if neg then Qopp m else m.

Definition Qltb (x y : Q) : bool := negb (Qle_bool y x).

(** [a < b]: false as soon as one side is [NaN]. *)
Definition lt (a b : Number) : bool :=
  match a, b with
  | NaN, _ | _, NaN => false
  | Infinity s, Infinity t => s && negb t
  | Infinity s, Finite _ _ => s
  | Finite _ _, Infinity t => negb t
  | Finite s m, Finite t n => Qltb (signed s m) (signed t n)
  end.

(** *** [Number.parseInt(s)] without a radix: leading white space, an
    optional sign, an optional [0x] prefix, then the longest run of
    digits; [NaN] when there is no digit. The integer read is turned
    into the nearest double, [Infinity] when it is too large for one. *)

(** The double nearest to the integer [n], ties to the even
    significand; [None] when [n] rounds to no finite double. *)
Definition nearest_double (n : N) : option N :=
  if (n <? 2 ^ 53)%N then Some n
  else
    let e := (N.log2 n - 52)%N in
    let q := N.shiftr n e in
    let r := (n - N.shiftl q e)%N in
    let half := N.shiftl 1 (e - 1) in
    let q := if ((half <? r) || ((r =? half) && N.odd q))%N then (q + 1)%N else q in
    let v := N.shiftl q e in
    if (2 ^ 1024 <=? v)%N then None else Some v.

Definition digit_value (radix : N) (a : ascii) : option N :=
  let n := N_of_ascii a in
  let d :=
    if (48 <=? n)%N && (n <=? 57)%N then Some (n - 48)%N
    else if (97 <=? n)%N && (n <=? 122)%N then Some (n - 87)%N
    else if (65 <=? n)%N && (n <=? 90)%N then Some (n - 55)%N
    else None in
  match d with
  | Some v => if (v <? radix)%N then Some v else None
  | None => None
  end.

Fixpoint parse_digits (radix : N) (s : string) (acc : option N) : option N :=
  match s with
  | EmptyString => acc
  | String a s' =>
      match digit_value radix a with
      | Some d => parse_digits radix s' (Some (radix * default 0%N acc + d)%N)
      | None => acc
      end
  end.

Definition parseInt (input : string) : Number :=
  let s := trim_start input in
  let '(neg, s) :=
    match s with
    | String "-" s' => (true, s')
    | String "+" s' => (false, s')
    | _ => (false, s)
    end in
  let '(radix, s) :=
    match s with
    | String "0" (String "x" s') | String "0" (String "X" s') => (16%N, s')
    | _ => (10%N, s)
    end in
  match parse_digits radix s None with
  | None => NaN
  | Some n =>
      match nearest_double n with
      | Some v => Finite neg (inject_Z (Z.of_N v))
      | None => Infinity neg
      end
  end.

End JS.


(** ** Exceptions, replies, the world and the computation monad *)

(** What a [catch] clause can receive. The sources tell three classes
    apart with [instanceof]: gaxios errors (with [error.response?.status]),
    got's request errors, and everything else ([Error], [TypeError]). *)
Inductive Exn : Type :=
| GaxiosError (message : string) (status : option Z)
| RequestError (message : string)
| JsError (name message : string).

(** [`${error}`] *)
Definition Exn_toString (e : Exn) : string :=
  match e with
  | GaxiosError m _ => "Error: " +:+ m
  | RequestError m => "RequestError: " +:+ m
  | JsError n m => n +:+ ": " +:+ m
  end.

(** [error instanceof GaxiosError] *)
Definition instanceof_GaxiosError (e : Exn) : bool :=
  match e with GaxiosError _ _ => true | _ => false end.

(** [error instanceof RequestError] *)
Definition instanceof_RequestError (e : Exn) : bool :=
  match e with RequestError _ => true | _ => false end.

(** [error.response?.status] of a gaxios error. *)
Definition response_status (e : Exn) : option Z :=
  match e with GaxiosError _ st => st | _ => None end.

(** The answer of a collaborator to one call. *)
Inductive Reply (A : Type) : Type :=
| Ok (a : A)
| Fail (e : Exn).
Arguments Ok {A} a.
Arguments Fail {A} e.

(** [ContainerConfiguration.ts] *)
Record EnvVar : Type := { ev_name : string; ev_value : option string }.

Record ContainerConfiguration : Type := {
  envVars : list EnvVar;
  arguments : list string
}.

Definition new_ContainerConfiguration : ContainerConfiguration :=
  {| envVars := []; arguments := [] |}.

(** The document [cloudRunCreateService] builds; an undefined field is
    [None] (and is dropped when the request is serialised). *)
Record ServiceDoc : Type := {
  apiVersion : string;
  kind : string;
  metadata_name : string;
  metadata_namespace : string;
  annotation_vpc_access_connector : option string;
  spec_serviceAccountName : option string;
  container_image : option string;
  container_env : option (list EnvVar);
  container_args : option (list string)
}.

(** One entry of [policy.bindings]. *)
Record Binding : Type := { members : list string; role : string }.

(** [res.data.status] of a service, as far as [getStatus] reads it. *)
Record Condition : Type := {
  c_status : option string;
  c_message : option string;
  c_lastTransitionTime : option string
}.

Record ServiceStatus : Type := {
  conditions : list Condition;
  url : option string
}.

(** The parts of a [URL] object the sources read. *)
Record URL : Type := { host : string; pathname : string }.

(** The [X-Registry-Auth] object sent to the docker daemon. *)
Record DockerAuth : Type := {
  da_username : string;
  da_password : string;
  da_serveraddress : string
}.

(** [response.Config] of an image inspection. *)
Record ImageConfig : Type := {
  Env : option (list string);
  Labels : option (gmap string string)
}.

(** The argument of [core.setFailed]. *)
Inductive Failure : Type :=
| FailText (s : string)
| FailJson (e : Exn)      (* JSON.stringify(error, null, 4) *)
| FailError (e : Exn).    (* the error object itself *)

(** Every call that leaves the process, in the order it was made. *)
Inductive Event : Type :=
| EvInfo (msg : string)
| EvSetFailed (f : Failure)
| EvSetOutput (name value : string)
| EvExportVariable (name value : string)
| EvWriteFile (path data : string)
| EvDelay (ms : JS.Number)
| EvGetClient (credentials : option string)
| EvGetProjectId (credentials : option string)
| EvAuthRequest (url method : string)
| EvServicesGet (name rootUrl : string)
| EvReplaceService (name : string) (requestBody : ServiceDoc) (rootUrl : string)
| EvServicesCreate (parent : string) (requestBody : ServiceDoc) (rootUrl : string)
| EvServicesDelete (name rootUrl : string)
| EvSetIamPolicy (resource : string) (bindings : list Binding)
| EvDockerPull (image : string) (auth : DockerAuth)
| EvDockerInspect (image : string)
| EvAddPullRequestComment (comment : string)
| EvUpdatePullRequestComment (comment_id : Z) (comment : string)
| EvGetContainerConfiguration (defaults : option ContainerConfiguration).

Definition is_AuthRequest (e : Event) : bool :=
  match e with EvAuthRequest _ _ => true | _ => false end.
Definition is_ServicesGet (e : Event) : bool :=
  match e with EvServicesGet _ _ => true | _ => false end.
Definition is_ReplaceService (e : Event) : bool :=
  match e with EvReplaceService _ _ _ => true | _ => false end.
Definition is_ServicesCreate (e : Event) : bool :=
  match e with EvServicesCreate _ _ _ => true | _ => false end.
Definition is_ServicesDelete (e : Event) : bool :=
  match e with EvServicesDelete _ _ => true | _ => false end.
Definition is_SetIamPolicy (e : Event) : bool :=
  match e with EvSetIamPolicy _ _ => true | _ => false end.
Definition is_Delay (e : Event) : bool :=
  match e with EvDelay _ => true | _ => false end.
Definition is_WriteFile (e : Event) : bool :=
  match e with EvWriteFile _ _ => true | _ => false end.
Definition is_UpdatePullRequestComment (e : Event) : bool :=
  match e with EvUpdatePullRequestComment _ _ => true | _ => false end.

(** How many events of one kind a trace holds. *)
Fixpoint count (k : Event -> bool) (t : list Event) : nat :=
  match t with
  | [] => O
  | e :: t' => if k e then S (count k t') else count k t'
  end.

(** The collaborators. Each remote operation answers its n-th call
    (counted from 0 among the calls of that operation); the answer may
    be any reply, so a theorem over all platforms covers every remote
    behaviour. *)
Record Platform : Type := {
  (** the step's inputs, by name: the [INPUT_<NAME>] variables *)
  INPUT : gmap string string;
  (** [uniqueFilename(os.tmpdir())] *)
  uniqueFilename : nat -> string;
  (** whether the n-th [fs.writeFile] reaches the disk *)
  writeFile_succeeds : nat -> bool;
  (** [new URL(href)] *)
  new_URL : string -> Reply URL;
  (** [auth.getClient()], given the credentials file the client finds *)
  auth_getClient : option string -> Reply unit;
  (** [auth.getProjectId()] *)
  auth_getProjectId : option string -> Reply string;
  (** [auth.request({url, method: 'HEAD'})] *)
  auth_request : nat -> Reply unit;
  (** [run.namespaces.services.*] and [setIamPolicy] *)
  services_get : nat -> Reply ServiceStatus;
  services_replaceService : nat -> Reply unit;
  services_create : nat -> Reply unit;
  services_delete : nat -> Reply unit;
  services_setIamPolicy : nat -> Reply unit;
  (** the docker daemon behind [got] *)
  docker_pull : Reply unit;
  docker_inspect : Reply ImageConfig;
  (** [src/github.ts] *)
  github_addPullRequestComment : Reply Z;
  github_updatePullRequestComment : nat -> Reply unit;
  github_getContainerConfiguration : option ContainerConfiguration -> Reply ContainerConfiguration
}.

(** The state an action run changes. *)
Record World : Type := {
  fs : gmap string string;       (* files: path to contents *)
  unreadable : gmap string Exn;  (* paths that exist and cannot be read as a
                                    file (a directory, a file without read
                                    permission): what [fs.readFileSync] throws *)
  penv : gmap string string;     (* process.env, the inputs apart *)
  trace : list Event
}.

Definition empty_World : World :=
  {| fs := ∅; unreadable := ∅; penv := ∅; trace := [] |}.

Inductive Res (A : Type) : Type :=
| Ret (a : A)
| Throw (e : Exn)
| OutOfFuel.
Arguments Ret {A} a.
Arguments Throw {A} e.
Arguments OutOfFuel {A}.

Definition M (A : Type) : Type := World -> Res A * World.

Definition ret {A} (a : A) : M A := fun w => (Ret a, w).

Definition throw {A} (e : Exn) : M A := fun w => (Throw e, w).

Definition out_of_fuel {A} : M A := fun w => (OutOfFuel, w).

Definition bind {A B} (m : M A) (k : A -> M B) : M B :=
  fun w =>
    match m w with
    | (Ret a, w') => k a w'
    | (Throw e, w') => (Throw e, w')
    | (OutOfFuel, w') => (OutOfFuel, w')
    end.

(** [try { m } catch (error) { h error }] *)
Definition try_catch {A} (m : M A) (h : Exn -> M A) : M A :=
  fun w =>
    match m w with
    | (Throw e, w') => h e w'
    | r => r
    end.

Declare Scope js_scope.
Delimit Scope js_scope with js.
Notation "'let!' x ':=' m 'in' k" := (bind m (fun x => k))
  (at level 10, x name, m at level 100, k at level 200) : js_scope.
Notation "'do!' m 'in' k" := (bind m (fun _ => k))
  (at level 10, m at level 100, k at level 200) : js_scope.
Local Open Scope js_scope.

Definition record (ev : Event) (w : World) : World :=
  {| fs := fs w; unreadable := unreadable w; penv := penv w; trace := trace w ++ [ev] |}.

(** A call whose result is not looked at. *)
Definition emit (ev : Event) : M unit := fun w => (Ret tt, record ev w).

Definition of_Reply {A} (r : Reply A) : Res A :=
  match r with Ok a => Ret a | Fail e => Throw e end.

(** An awaited call to a collaborator: the [answer] to the n-th call of
    that [kind] so far, recorded in the trace. *)
Definition call {A} (kind : Event -> bool) (ev : Event) (answer : nat -> Reply A) : M A :=
  fun w => (of_Reply (answer (count kind (trace w))), record ev w).

(** The same call, not awaited: a rejection is lost. *)
Definition call_detached (ev : Event) : M unit := emit ev.

Definition result {A} (r : Res A * World) : Res A := fst r.
Definition trace_of {A} (r : Res A * World) : list Event := trace (snd r).

(** ** [@actions/core] *)

Module Core.
Section WithPlatform.
Context (P : Platform).

(** [core.getInput(name)]: the trimmed input, [''] when it is not set. *)
Definition getInput (name : string) : string :=
  JS.trim (default "" (INPUT P !! name)).

(** [core.getInput(name, {required: true})] *)
Definition getInput_required (name : string) : M string :=
  if JS.truthy (default "" (INPUT P !! name))
  then ret (getInput name)
  else throw (JsError "Error" ("Input required and not supplied: " +:+ name)).

Definition info (msg : string) : M unit := emit (EvInfo msg).
Definition setFailed (f : Failure) : M unit := emit (EvSetFailed f).
Definition setOutput (name value : string) : M unit := emit (EvSetOutput name value).

(** [core.exportVariable(name, val)] also sets [process.env[name]]. *)
Definition exportVariable (name val : string) : M unit :=
  fun w => (Ret tt, record (EvExportVariable name val)
                      {| fs := fs w; unreadable := unreadable w;
                         penv := <[name := val]> (penv w); trace := trace w |}).

End WithPlatform.
End Core.

(** ** [gcloud.ts] ([src/docker.ts], lines 140-513) *)

Module Gcloud.

Record ServiceConfiguration : Type := {
  name : string;
  runRegion : string;
  serviceAccountKey : string;
  image : option string;
  serviceAccountName : option string;
  vpcConnectorName : option string;
  containerConfig : option ContainerConfiguration;
  project : string
}.

(** What [createOrUpdate] resolves to. *)
Record Deployment : Type := {
  d_url : string;
  d_logsUrl : string;
  d_deploymentDate : option string
}.

(** What [getStatus] resolves to. *)
Record Status : Type := {
  s_url : string;
  s_deploymentDate : option string
}.

(** [if (x) this.x = x]: an empty string leaves the field undefined. *)
Definition if_truthy (o : option string) : option string :=
  if JS.truthy_opt o then o else None.

Definition new_ServiceConfiguration (name runRegion serviceAccountKey : string)
    (image serviceAccountName vpcConnectorName : option string)
    (containerConfig : option ContainerConfiguration) : ServiceConfiguration :=
  {| name := name;
     runRegion := runRegion;
     serviceAccountKey := serviceAccountKey;
     image := if_truthy image;
     serviceAccountName := if_truthy serviceAccountName;
     vpcConnectorName := if_truthy vpcConnectorName;
     containerConfig := containerConfig;
     project := "" |}.

(** [this.project = ...] *)
Definition set_project (this : ServiceConfiguration) (p : string) : ServiceConfiguration :=
  {| name := name this;
     runRegion := runRegion this;
     serviceAccountKey := serviceAccountKey this;
     image := image this;
     serviceAccountName := serviceAccountName this;
     vpcConnectorName := vpcConnectorName this;
     containerConfig := containerConfig this;
     project := p |}.

(** Lines 177-179. *)
Definition serviceName (this : ServiceConfiguration) : string :=
  JS.replace_all_char JS.chr_underscore JS.chr_hyphen (name this).

Definition rootUrl (this : ServiceConfiguration) : string :=
  "https://" +:+ runRegion this +:+ "-run.googleapis.com".

(** [`namespaces/${this.project}/services/${serviceName}`] *)
Definition service_path (this : ServiceConfiguration) : string :=
  "namespaces/" +:+ project this +:+ "/services/" +:+ serviceName this.

(** Lines 268-298. *)
Definition cloudRunCreateService (this : ServiceConfiguration) : ServiceDoc :=
  {| apiVersion := "serving.knative.dev/v1";
     kind := "Service";
     metadata_name := serviceName this;
     metadata_namespace := project this;
     annotation_vpc_access_connector := vpcConnectorName this;
     spec_serviceAccountName := serviceAccountName this;
     container_image := image this;
     container_env := envVars <$> containerConfig this;
     container_args := arguments <$> containerConfig this |}.

Definition GOOGLE_APPLICATION_CREDENTIALS : string := "GOOGLE_APPLICATION_CREDENTIALS".

(** The credentials file the google client finds: the contents of the
    file [GOOGLE_APPLICATION_CREDENTIALS] names. *)
Definition credentials_seen (w : World) : option string :=
  match penv w !! GOOGLE_APPLICATION_CREDENTIALS with
  | Some path => fs w !! path
  | None => None
  end.

Section WithPlatform.
Context (P : Platform).

(** [fs.writeFile(path, data, callback)]: the callback only logs, so a
    failed write is silent. The write is taken to have landed when the
    call returns. *)
Definition writeFile (path data : string) : M unit :=
  fun w =>
    let landed := writeFile_succeeds P (count is_WriteFile (trace w)) in
    (Ret tt, record (EvWriteFile path data)
               {| fs := if landed then <[path := data]> (fs w) else fs w;
                  unreadable := unreadable w;
                  penv := penv w;
                  trace := trace w |}).

(** Lines 409-429. *)
Definition setGoogleApplicationCredentials (serviceAccountKey : string) : M unit :=
  fun w =>
    if negb (JS.truthy_opt (penv w !! GOOGLE_APPLICATION_CREDENTIALS))
    then
      let randomTmpFile := uniqueFilename P (count is_WriteFile (trace w)) in
      (do! writeFile randomTmpFile serviceAccountKey in
       Core.exportVariable GOOGLE_APPLICATION_CREDENTIALS randomTmpFile) w
    else (Ret tt, w).

(** [await auth.getClient()] *)
Definition getClient : M unit :=
  fun w => (of_Reply (auth_getClient P (credentials_seen w)),
            record (EvGetClient (credentials_seen w)) w).

(** [await auth.getProjectId()] *)
Definition getProjectId : M string :=
  fun w => (of_Reply (auth_getProjectId P (credentials_seen w)),
            record (EvGetProjectId (credentials_seen w)) w).

Definition delay (ms : JS.Number) : M unit := emit (EvDelay ms).

Definition allUsers_invoker : list Binding :=
  [ {| members := ["allUsers"]; role := "roles/run.invoker" |} ].

(** Lines 300-322. *)
Definition setCloudRunServiceIAMPolicy (this : ServiceConfiguration) : M unit :=
  if JS.truthy (Core.getInput P "allow_unauthenticated")
  then
    call is_SetIamPolicy
      (EvSetIamPolicy
         ("projects/" +:+ project this +:+ "/locations/" +:+ runRegion this
            +:+ "/services/" +:+ serviceName this)
         allUsers_invoker)
      (services_setIamPolicy P)
  else ret tt.

Definition timeout_message : string :=
  "Unable to retrieve service URL! Check the Cloud Run deployment for errors.".

Definition failed_message (this : ServiceConfiguration) (c : Condition) : string :=
  JS.show_opt (c_message c)
    +:+ String JS.chr_newline "View logs for this revision: https://console.cloud.google.com/run/detail/"
    +:+ runRegion this +:+ "/" +:+ serviceName this +:+ "/logs?project=" +:+ project this.

(** Lines 367-406. The body of [while (attempt < 100)]; [fuel] bounds
    the recursion and [getStatus] passes as much as the loop can use. *)
Fixpoint getStatus_loop (this : ServiceConfiguration) (fuel : nat) (attempt : Z) : M Status :=
  if attempt <? 100 then
    match fuel with
    | O => out_of_fuel
    | S fuel' =>
        let attempt := attempt + 1 in
        do! delay (JS.of_Z 500) in
        let! res := call is_ServicesGet
                      (EvServicesGet (service_path this) (rootUrl this))
                      (services_get P) in
        match conditions res with
        | [] => throw (JsError "TypeError" "Cannot read property 'status' of undefined")
        | c0 :: _ =>
            if negb (bool_decide (c_status c0 = Some "Unknown")) then
              if JS.truthy_opt (url res) then
                do! Core.setOutput "url" (default "" (url res)) in
                ret {| s_url := default "" (url res);
                       s_deploymentDate := c_lastTransitionTime c0 |}
              else throw (JsError "Error" (failed_message this c0))
            else getStatus_loop this fuel' attempt
        end
    end
  else throw (JsError "Error" timeout_message).

Definition getStatus (this : ServiceConfiguration) : M Status :=
  getStatus_loop this 100 0.

Definition logsUrl (this : ServiceConfiguration) : string :=
  "https://console.cloud.google.com/logs/viewer?advancedFilter=resource.type%20%3D%20%22cloud_run_revision%22%0Aresource.labels.service_name%20%3D%20%22"
    +:+ serviceName this
    +:+ "%22%0Aresource.labels.location%20%3D%20%22" +:+ runRegion this
    +:+ "%22%0A%20severity%3E%3DDEFAULT&project=" +:+ project this.

(** Lines 206-253, the inner [try]/[catch] of [createOrUpdate]:
    probe, replace, and create on a 404. *)
Definition probe_and_mutate (this : ServiceConfiguration) : M unit :=
  try_catch
    (let! _ := call is_ServicesGet (EvServicesGet (service_path this) (rootUrl this))
                 (services_get P) in
     do! call is_ReplaceService
           (EvReplaceService (service_path this) (cloudRunCreateService this) (rootUrl this))
           (services_replaceService P) in
     ret tt)
    (fun error =>
       if instanceof_GaxiosError error then
         if bool_decide (response_status error = Some 404) then
           try_catch
             (call is_ServicesCreate
                (EvServicesCreate ("namespaces/" +:+ project this)
                   (cloudRunCreateService this) (rootUrl this))
                (services_create P))
             (fun crError => ret tt)
         else ret tt
       else ret tt).

(** Lines 255-261, what follows the inner [try]/[catch]: the IAM
    policy, the status and the value returned. *)
Definition authorize_and_poll (this : ServiceConfiguration) : M Deployment :=
  do! setCloudRunServiceIAMPolicy this in
  let! st := getStatus this in
  ret {| d_url := s_url st;
         d_logsUrl := logsUrl this;
         d_deploymentDate := s_deploymentDate st |}.

(** The outer [catch] of [createOrUpdate] and of [delete]. *)
Definition report_and_rethrow {A} (error : Exn) : M A :=
  do! Core.setFailed (FailJson error) in
  throw error.

(** Lines 181-266. *)
Definition createOrUpdate (this : ServiceConfiguration) : M Deployment :=
  try_catch
    (do! setGoogleApplicationCredentials (serviceAccountKey this) in
     do! getClient in
     let! p := getProjectId in
     let this := set_project this p in
     do! probe_and_mutate this in
     authorize_and_poll this)
    report_and_rethrow.

(** Lines 324-365. *)
Definition delete (this : ServiceConfiguration) : M unit :=
  try_catch
    (do! setGoogleApplicationCredentials (serviceAccountKey this) in
     do! getClient in
     let! project := getProjectId in
     try_catch
       (do! call is_ServicesDelete
              (EvServicesDelete
                 ("namespaces/" +:+ project +:+ "/services/" +:+ serviceName this)
                 (rootUrl this))
              (services_delete P) in
        Core.info ("Service " +:+ serviceName this +:+ " deleted"))
       (fun error =>
          if instanceof_GaxiosError error
             && bool_decide (response_status error = Some 404)
          then Core.info ("Service " +:+ serviceName this +:+ " does not exist, unable to delete")
          else throw error))
    report_and_rethrow.

(** Lines 475-483: the values [waitForDockerImage] cuts out of the
    image string. *)
Definition imageName (imageUrl : URL) : string :=
  JS.substring (pathname imageUrl)
    (JS.lastIndexOf (pathname imageUrl) JS.chr_slash + 1)
    (JS.lastIndexOf (pathname imageUrl) JS.chr_colon).

Definition imageTag (imageUrl : URL) : string :=
  JS.substring_from (pathname imageUrl)
    (JS.lastIndexOf (pathname imageUrl) JS.chr_colon + 1).

Definition manifest_url (imageUrl : URL) (project : string) : string :=
  "https://" +:+ host imageUrl +:+ "/v2/" +:+ project +:+ "/" +:+ imageName imageUrl
    +:+ "/manifests/" +:+ imageTag imageUrl.

(** Lines 485-487. *)
Definition checkInterval : JS.Number :=
  JS.parseInt (Core.getInput P "image_check_interval").

Definition maxAttempts : JS.Number :=
  JS.div (JS.mul (JS.parseInt (Core.getInput P "image_check_timeout")) (JS.of_Z 60))
    checkInterval.

(** Lines 489-512, [while (attempt < maxAttempts)]: the loop has no
    bound of its own when [maxAttempts] is [Infinity], hence the fuel. *)
Fixpoint waitForDockerImage_loop (url : string) (fuel : nat) (attempt : Z) : M bool :=
  if JS.lt (JS.of_Z attempt) maxAttempts then
    match fuel with
    | O => out_of_fuel
    | S fuel' =>
        let attempt := attempt + 1 in
        let! found :=
          try_catch
            (do! call is_AuthRequest (EvAuthRequest url "HEAD") (auth_request P) in
             ret true)
            (fun error =>
               if instanceof_GaxiosError error then
                 if negb (bool_decide (response_status error = Some 404))
                 then throw error
                 else ret false
               else ret false) in
        if (found : bool) then ret true
        else
          do! delay (JS.mul checkInterval (JS.of_Z 1000)) in
          waitForDockerImage_loop url fuel' attempt
    end
  else ret false.

(** Lines 459-513. *)
Definition waitForDockerImage (fuel : nat) (image serviceAccountKey : string) : M bool :=
  do! setGoogleApplicationCredentials serviceAccountKey in
  do! getClient in
  let! project := getProjectId in
  match new_URL P ("https://" +:+ image) with
  | Fail e => throw e
  | Ok imageUrl =>
      waitForDockerImage_loop (manifest_url imageUrl project) fuel 0
  end.

End WithPlatform.

Definition CLOUDRUN_ACTION_ : string := "CLOUDRUN_ACTION_".

(** Lines 431-452. [env] is [process.env] as [for (const key in
    process.env)] walks it: the keys in order, each with its value. A
    value of [process.env] is never undefined, so every key that starts
    with the prefix gives an entry. *)
Definition getCloudRunEnvironmentVariables (env : list (string * string)) : list EnvVar :=
  fold_left
    (fun entries kv =>
       if String.prefix CLOUDRUN_ACTION_ (fst kv)
       then (entries ++ [ {| ev_name := JS.replace_first (fst kv) CLOUDRUN_ACTION_ "";
                             ev_value := Some (snd kv) |} ])%list
       else entries)
    env [].

End Gcloud.

(** ** [docker.ts] ([src/docker.ts], lines 66-139) *)

Module Docker.
Section WithPlatform.
Context (P : Platform).

(** Lines 82-86:
    [fs.existsSync(key) ? fs.readFileSync(key).toString() : key].
    [existsSync] is also true of a path that cannot be read as a file;
    [readFileSync] then throws. *)
Definition serviceAccountKeyContents (serviceAccountKey : string) : M string :=
  fun w =>
    match fs w !! serviceAccountKey with
    | Some contents => (Ret contents, w)
    | None =>
        match unreadable w !! serviceAccountKey with
        | Some error => (Throw error, w)
        | None => (Ret serviceAccountKey, w)
        end
    end.

(** [{name: envVar.split('=')[0], value: envVar.split('=')[1]}] *)
Definition env_entry (envVar : string) : EnvVar :=
  let parts := JS.split envVar JS.chr_equals in
  {| ev_name := default "" (parts !! 0%nat); ev_value := parts !! 1%nat |}.

(** The part of the [try] block after the inspection. Iterating an
    undefined [Env] and looking into undefined [Labels] throw a
    [TypeError], which the [catch] drops: the configuration filled so
    far is what is returned. *)
Definition fill (containerConfig : ContainerConfiguration) (config : ImageConfig)
    : ContainerConfiguration :=
  match Env config with
  | None => containerConfig
  | Some env =>
      let filled := {| envVars := envVars containerConfig ++ map env_entry env;
                       arguments := arguments containerConfig |} in
      match Labels config with
      | None => filled
      | Some labels =>
          match labels !! "IMAGE_ARGUMENTS" with
          | Some v => {| envVars := envVars filled; arguments := JS.split v JS.chr_comma |}
          | None => filled
          end
      end
  end.

(** Lines 73-139. *)
Definition getEnvVarsFromImage (name : string) : M ContainerConfiguration :=
  let! serviceAccountKey := Core.getInput_required P "service_account_key" in
  let containerConfig := new_ContainerConfiguration in
  match new_URL P ("https://" +:+ name) with
  | Fail e => throw e
  | Ok imageUrl =>
      let! contents := serviceAccountKeyContents serviceAccountKey in
      let auth := {| da_username := "_json_key";
                     da_password := contents;
                     da_serveraddress := host imageUrl |} in
      try_catch
        (do! call (fun _ => false) (EvDockerPull name auth) (fun _ => docker_pull P) in
         let! config := call (fun _ => false) (EvDockerInspect name)
                          (fun _ => docker_inspect P) in
         ret (fill containerConfig config))
        (fun error =>
           do! (if instanceof_RequestError error
                then Core.setFailed (FailError error)
                else ret tt) in
           ret containerConfig)
  end.

End WithPlatform.
End Docker.

(** ** The older [docker.ts] ([src/docker.ts], lines 1-65) *)

Module DockerOld.
Section WithPlatform.
Context (P : Platform).

(** Lines 7-65: the same inspection, signed in to the registry with an
    access token instead of the service account key. *)
Definition getEnvVarsFromImage (name : string) : M ContainerConfiguration :=
  let registry_access_token := Core.getInput P "registry_access_token" in
  let containerConfig := new_ContainerConfiguration in
  match new_URL P ("https://" +:+ name) with
  | Fail e => throw e
  | Ok imageUrl =>
      let auth := {| da_username := "oauth2accesstoken";
                     da_password := registry_access_token;
                     da_serveraddress := host imageUrl |} in
      try_catch
        (do! call (fun _ => false) (EvDockerPull name auth) (fun _ => docker_pull P) in
         let! config := call (fun _ => false) (EvDockerInspect name)
                          (fun _ => docker_inspect P) in
         ret (Docker.fill containerConfig config))
        (fun error =>
           do! (if instanceof_RequestError error
                then Core.setFailed (FailError error)
                else ret tt) in
           ret containerConfig)
  end.

End WithPlatform.
End DockerOld.

(** ** [src/main.ts] *)

Module Main.

Definition nl : string := String JS.chr_newline EmptyString.

Definition in_progress : string :=
  "### :construction: Cloud Run Deployment in progress :construction:".

(** The table rows of one list of variables. *)
Definition env_rows (vars : list EnvVar) : string :=
  fold_left (fun comment v =>
               comment +:+ ev_name v +:+ " | " +:+ JS.show_opt (ev_value v) +:+ nl)
    vars "".

(** The nested loops over [arguments]: every argument once per argument. *)
Definition argument_rows (args : list string) : string :=
  fold_left (fun comment _ =>
               fold_left (fun comment argument => comment +:+ "| " +:+ argument +:+ " |" +:+ nl)
                 args comment)
    args "".

Section WithPlatform.
Context (P : Platform).

Definition addPullRequestComment (comment : string) : M Z :=
  call (fun _ => false) (EvAddPullRequestComment comment)
    (fun _ => github_addPullRequestComment P).

Definition updatePullRequestComment (comment_id : Z) (comment : string) : M unit :=
  call is_UpdatePullRequestComment (EvUpdatePullRequestComment comment_id comment)
    (github_updatePullRequestComment P).

Definition getContainerConfiguration (defaults : ContainerConfiguration)
    : M ContainerConfiguration :=
  call (fun _ => false) (EvGetContainerConfiguration (Some defaults))
    (fun _ => github_getContainerConfiguration P (Some defaults)).

(** The [catch] clause at the end of [create], for the text [comment]
    has at the time of the exception. *)
Definition report_failure (comment_id : Z) (comment : string) (error : Exn) : M unit :=
  let comment := comment +:+ "- Deployment failed: " +:+ Exn_toString error +:+ "." +:+ nl in
  let comment := JS.replace_first comment in_progress
                   "### :heavy_exclamation_mark: Cloud Run Deployment failed :heavy_exclamation_mark:" in
  do! updatePullRequestComment comment_id comment in
  throw error.

(** The end of [create]: the deployment itself and its report. The
    [try] block changes [comment] only after [createOrUpdate] has
    returned, so the [catch] clause sees the old text when the
    deployment fails and the new one when the last update fails. *)
Definition deploy (comment_id : Z) (comment : string)
    (serviceConfig : Gcloud.ServiceConfiguration) : M unit :=
  let! outcome :=
    try_catch
      (let! d := Gcloud.createOrUpdate P serviceConfig in ret (inr d))
      (fun error => ret (inl error)) in
  match outcome with
  | inl error => report_failure comment_id comment error
  | inr d =>
      let comment := comment +:+ "- Deployment date: "
                       +:+ JS.show_opt (Gcloud.d_deploymentDate d) +:+ "." +:+ nl in
      let comment := comment +:+ "- URL: " +:+ Gcloud.d_url d +:+ nl in
      let comment := comment +:+ "- Logs: " +:+ Gcloud.d_logsUrl d +:+ nl in
      let comment := JS.replace_first comment "- [ ]" "- [x]" in
      let comment := JS.replace_first comment in_progress
                       "### :white_check_mark: Cloud Run Deployment successful :white_check_mark:" in
      try_catch (updatePullRequestComment comment_id comment)
        (report_failure comment_id comment)
  end.

(** [main.ts], lines 6-115. *)
Definition create (fuel : nat) : M unit :=
  let! name := Core.getInput_required P "name" in
  let! serviceAccountKey := Core.getInput_required P "service_account_key" in
  let! runRegion := Core.getInput_required P "run_region" in
  let! image := Core.getInput_required P "image" in
  let! serviceAccountName := Core.getInput_required P "service_account_name" in
  let vpcConnectorName := Core.getInput P "vpc_connector_name" in
  do! Core.info ("Deploying docker image " +:+ image +:+ "...") in
  let comment := in_progress +:+ nl in
  let! comment_id := addPullRequestComment comment in
  let comment := comment +:+ "<details><summary>Docker image</summary>Image: " +:+ image
                   +:+ "</details>" +:+ nl +:+ nl in
  let comment := comment
                   +:+ "- [ ] Waiting for the docker image to be available on Google Container Registry."
                   +:+ nl in
  do! updatePullRequestComment comment_id comment in
  let! found := Gcloud.waitForDockerImage P fuel image serviceAccountKey in
  if negb found then
    let comment := comment +:+ nl
                     +:+ ":exclamation: Timed out waiting for docker image, cannot continue with deployment."
                     +:+ nl in
    do! updatePullRequestComment comment_id comment in
    Core.setFailed (FailText "Docker image not found, stopping.")
  else
    let comment := JS.replace_first comment "- [ ]" "- [x]" in
    let comment := comment
                     +:+ "- [ ] Pulling and inspecting image to determine configurable environment variables."
                     +:+ nl in
    do! updatePullRequestComment comment_id comment in
    let! dockerContainerConfig := Docker.getEnvVarsFromImage P image in
    let comment := JS.replace_first comment "- [ ]" "- [x]" in
    let comment :=
      if (0 <? length (envVars dockerContainerConfig))%nat then
        comment +:+ "<details><summary>Configurable environment variables</summary>" +:+ nl
          +:+ "<ul>" +:+ nl
          +:+ nl +:+ "KEY | VALUE" +:+ nl +:+ "--- | ---" +:+ nl
          +:+ env_rows (envVars dockerContainerConfig)
          +:+ nl
          +:+ "Configure environment variables by adding labels to the pull request, the name of the label is the environment variable name, the 'description' field should be set to the value."
          +:+ nl +:+ "</details>" +:+ nl +:+ nl
      else comment in
    let comment :=
      if (0 <? length (arguments dockerContainerConfig))%nat then
        comment +:+ "<details><summary>Container command arguments</summary>" +:+ nl
          +:+ "<ul>" +:+ nl
          +:+ "This image supports setting an image argument. To configure it, add a label to this PR called 'IMAGE_ARGUMENT'. The description should be a value from the following list:"
          +:+ nl
          +:+ nl +:+ "| IMAGE_ARGUMENT |" +:+ nl +:+ "|---|" +:+ nl
          +:+ argument_rows (arguments dockerContainerConfig)
          +:+ nl +:+ "</details>" +:+ nl +:+ nl
      else comment in
    do! updatePullRequestComment comment_id comment in
    let! containerConfig := getContainerConfiguration dockerContainerConfig in
    let comment :=
      if (0 <? length (envVars containerConfig))%nat then
        comment +:+ "<details><summary>Configured environment variables / settings</summary>" +:+ nl
          +:+ "<ul>" +:+ nl
          +:+ nl +:+ "KEY | VALUE" +:+ nl +:+ "--- | ---" +:+ nl
          +:+ env_rows (envVars containerConfig)
          +:+ nl +:+ "</details>" +:+ nl +:+ nl
      else comment in
    let comment := comment +:+ "- [ ] Starting Cloud Run Service" +:+ nl in
    do! updatePullRequestComment comment_id comment in
    deploy comment_id comment
      (Gcloud.new_ServiceConfiguration name runRegion serviceAccountKey
         (Some image) (Some serviceAccountName) (Some vpcConnectorName)
         (Some containerConfig)).

(** [main.ts], lines 117-147. *)
Definition destroy : M unit :=
  try_catch
    (let! name := Core.getInput_required P "name" in
     let! serviceAccountKey := Core.getInput_required P "service_account_key" in
     let! runRegion := Core.getInput_required P "run_region" in
     do! Core.info ("Deleting Cloud Run deployment " +:+ name +:+ "...") in
     let comment := "🤖  Cloud Run Deployment: Deleting" +:+ nl in
     let! comment_id := addPullRequestComment comment in
     try_catch
       (let serviceConfig :=
          Gcloud.new_ServiceConfiguration name runRegion serviceAccountKey
            None None None None in
        do! Gcloud.delete P serviceConfig in
        let comment := comment
                         +:+ "🤖  Cloud Run Deployment: Deployment succesfully deleted." +:+ nl in
        call_detached (EvUpdatePullRequestComment comment_id comment))
       (fun error =>
          let comment := comment
                           +:+ "🤖  Cloud Run Deployment: Deployment deletion failed: "
                           +:+ Exn_toString error +:+ "." +:+ nl in
          do! call_detached (EvUpdatePullRequestComment comment_id comment) in
          throw error))
    (fun error => Core.setFailed (FailJson error)).

(** [main.ts], lines 149-159. *)
Definition main (fuel : nat) : M unit :=
  try_catch
    (if String.eqb (Core.getInput P "delete_service") "false"
     then create fuel
     else destroy)
    (fun error => Core.setFailed (FailJson error)).

End WithPlatform.
End Main.

(** ** Vocabulary of the statements *)

(** [s.includes(c)] *)
Fixpoint includes_char (s : string) (c : ascii) : bool :=
  match s with
  | EmptyString => false
  | String a s' => Ascii.eqb a c || includes_char s' c
  end.

(** The same platform with one input set. *)
Definition with_input (name value : string) (P : Platform) : Platform :=
  {| INPUT := <[name := value]> (INPUT P);
     uniqueFilename := uniqueFilename P;
     writeFile_succeeds := writeFile_succeeds P;
     new_URL := new_URL P;
     auth_getClient := auth_getClient P;
     auth_getProjectId := auth_getProjectId P;
     auth_request := auth_request P;
     services_get := services_get P;
     services_replaceService := services_replaceService P;
     services_create := services_create P;
     services_delete := services_delete P;
     services_setIamPolicy := services_setIamPolicy P;
     docker_pull := docker_pull P;
     docker_inspect := docker_inspect P;
     github_addPullRequestComment := github_addPullRequestComment P;
     github_updatePullRequestComment := github_updatePullRequestComment P;
     github_getContainerConfiguration := github_getContainerConfiguration P |}.

(** The world once the credentials step of a run has been taken. *)
Definition provisioned (P : Platform) (serviceAccountKey : string) (w : World) : World :=
  snd (Gcloud.setGoogleApplicationCredentials P serviceAccountKey w).

(** The google client accepts the credentials it finds and names
    project [p]. *)
Definition authenticated (P : Platform) (serviceAccountKey : string) (w : World)
    (p : string) : Prop :=
  auth_getClient P (Gcloud.credentials_seen (provisioned P serviceAccountKey w)) = Ok tt
  /\ auth_getProjectId P (Gcloud.credentials_seen (provisioned P serviceAccountKey w)) = Ok p.

(** The world after the credentials step and the two calls to the
    google client. *)
Definition signed_in (P : Platform) (serviceAccountKey : string) (w : World) : World :=
  let w1 := provisioned P serviceAccountKey w in
  record (EvGetProjectId (Gcloud.credentials_seen w1))
    (record (EvGetClient (Gcloud.credentials_seen w1)) w1).

(** How [waitForDockerImage] treats the reply to one existence check. *)
Inductive Verdict : Type :=
| Exists                 (* return true *)
| NotYet                 (* sleep and try again *)
| Fatal (e : Exn).       (* rethrow *)

Definition verdict (r : Reply unit) : Verdict :=
  match r with
  | Ok _ => Exists
  | Fail (GaxiosError m st) =>
      if bool_decide (st = Some 404) then NotYet else Fatal (GaxiosError m st)
  | Fail _ => NotYet
  end.

(** The remote "not found": a gaxios error with status 404. *)
Definition not_found {A} (r : Reply A) : bool :=
  match r with
  | Fail e => instanceof_GaxiosError e && bool_decide (response_status e = Some 404)
  | Ok _ => false
  end.

(** A poll of [getStatus] that leaves the service in progress. *)
Definition still_unknown (r : Reply ServiceStatus) : bool :=
  match r with
  | Ok st =>
      match conditions st with
      | c0 :: _ => bool_decide (c_status c0 = Some "Unknown")
      | [] => false
      end
  | Fail _ => false
  end.

(** [n] rounds of the same events. *)
Fixpoint rounds (n : nat) (evs : list Event) : list Event :=
  match n with
  | O => []
  | S n' => evs ++ rounds n' evs
  end.

(** One poll of [getStatus]. *)
Definition poll (this : Gcloud.ServiceConfiguration) : list Event :=
  [ EvDelay (JS.of_Z 500);
    EvServicesGet (Gcloud.service_path this) (Gcloud.rootUrl this) ].

(** The events of the inner [try]/[catch], by the replies to the probe,
    to the replacement and to the creation. *)
Definition mutation (P : Platform) (this : Gcloud.ServiceConfiguration) (w : World)
    : list Event :=
  let get := EvServicesGet (Gcloud.service_path this) (Gcloud.rootUrl this) in
  let replace := EvReplaceService (Gcloud.service_path this)
                   (Gcloud.cloudRunCreateService this) (Gcloud.rootUrl this) in
  let create := EvServicesCreate ("namespaces/" +:+ Gcloud.project this)
                  (Gcloud.cloudRunCreateService this) (Gcloud.rootUrl this) in
  match services_get P (count is_ServicesGet (trace w)) with
  | Ok _ =>
      if not_found (services_replaceService P (count is_ReplaceService (trace w)))
      then [get; replace; create]
      else [get; replace]
  | Fail _ =>
      if not_found (services_get P (count is_ServicesGet (trace w)))
      then [get; create]
      else [get]
  end.

(** The call that makes a service public. *)
Definition iam_event (this : Gcloud.ServiceConfiguration) : Event :=
  EvSetIamPolicy
    ("projects/" +:+ Gcloud.project this +:+ "/locations/" +:+ Gcloud.runRegion this
       +:+ "/services/" +:+ Gcloud.serviceName this)
    Gcloud.allUsers_invoker.

(** The world in which the polling starts, when it does. *)
Definition authorized (P : Platform) (this : Gcloud.ServiceConfiguration) (w : World) : World :=
  if JS.truthy (Core.getInput P "allow_unauthenticated") then record (iam_event this) w else w.

(** One existence check that finds nothing, and the sleep after it. *)
Definition head_request (url : string) : Event := EvAuthRequest url "HEAD".

Definition check (P : Platform) (url : string) : list Event :=
  [ head_request url; EvDelay (JS.mul (Gcloud.checkInterval P) (JS.of_Z 1000)) ].

(** The calls of the create-or-update path that reach the registry or
    the service. *)
Definition deploys (e : Event) : bool :=
  is_AuthRequest e || is_ServicesGet e || is_ReplaceService e
  || is_ServicesCreate e || is_SetIamPolicy e.

Definition is_SetFailed (e : Event) : bool :=
  match e with EvSetFailed _ => true | _ => false end.

Definition is_Docker (e : Event) : bool :=
  match e with EvDockerPull _ _ | EvDockerInspect _ => true | _ => false end.

(** The calls [create] makes only once the image is there: to the
    docker daemon and to the service. *)
Definition after_image (e : Event) : bool :=
  is_Docker e || is_ServicesGet e || is_ReplaceService e
  || is_ServicesCreate e || is_SetIamPolicy e.

(** The same platform with other replies to the Create calls. *)
Definition with_create (create : nat -> Reply unit) (P : Platform) : Platform :=
  {| INPUT := INPUT P;
     uniqueFilename := uniqueFilename P;
     writeFile_succeeds := writeFile_succeeds P;
     new_URL := new_URL P;
     auth_getClient := auth_getClient P;
     auth_getProjectId := auth_getProjectId P;
     auth_request := auth_request P;
     services_get := services_get P;
     services_replaceService := services_replaceService P;
     services_create := create;
     services_delete := services_delete P;
     services_setIamPolicy := services_setIamPolicy P;
     docker_pull := docker_pull P;
     docker_inspect := docker_inspect P;
     github_addPullRequestComment := github_addPullRequestComment P;
     github_updatePullRequestComment := github_updatePullRequestComment P;
     github_getContainerConfiguration := github_getContainerConfiguration P |}.

(** The same platform with other replies to the Replace calls. *)
Definition with_replace (replace : nat -> Reply unit) (P : Platform) : Platform :=
  {| INPUT := INPUT P;
     uniqueFilename := uniqueFilename P;
     writeFile_succeeds := writeFile_succeeds P;
     new_URL := new_URL P;
     auth_getClient := auth_getClient P;
     auth_getProjectId := auth_getProjectId P;
     auth_request := auth_request P;
     services_get := services_get P;
     services_replaceService := replace;
     services_create := services_create P;
     services_delete := services_delete P;
     services_setIamPolicy := services_setIamPolicy P;
     docker_pull := docker_pull P;
     docker_inspect := docker_inspect P;
     github_addPullRequestComment := github_addPullRequestComment P;
     github_updatePullRequestComment := github_updatePullRequestComment P;
     github_getContainerConfiguration := github_getContainerConfiguration P |}.

(** The same platform with other replies to the Delete calls. *)
Definition with_delete (delete : nat -> Reply unit) (P : Platform) : Platform :=
  {| INPUT := INPUT P;
     uniqueFilename := uniqueFilename P;
     writeFile_succeeds := writeFile_succeeds P;
     new_URL := new_URL P;
     auth_getClient := auth_getClient P;
     auth_getProjectId := auth_getProjectId P;
     auth_request := auth_request P;
     services_get := services_get P;
     services_replaceService := services_replaceService P;
     services_create := services_create P;
     services_delete := delete;
     services_setIamPolicy := services_setIamPolicy P;
     docker_pull := docker_pull P;
     docker_inspect := docker_inspect P;
     github_addPullRequestComment := github_addPullRequestComment P;
     github_updatePullRequestComment := github_updatePullRequestComment P;
     github_getContainerConfiguration := github_getContainerConfiguration P |}.

(** The same platform with another google client. *)
Definition with_auth (getClient : option string -> Reply unit)
    (getProjectId : option string -> Reply string) (P : Platform) : Platform :=
  {| INPUT := INPUT P;
     uniqueFilename := uniqueFilename P;
     writeFile_succeeds := writeFile_succeeds P;
     new_URL := new_URL P;
     auth_getClient := getClient;
     auth_getProjectId := getProjectId;
     auth_request := auth_request P;
     services_get := services_get P;
     services_replaceService := services_replaceService P;
     services_create := services_create P;
     services_delete := services_delete P;
     services_setIamPolicy := services_setIamPolicy P;
     docker_pull := docker_pull P;
     docker_inspect := docker_inspect P;
     github_addPullRequestComment := github_addPullRequestComment P;
     github_updatePullRequestComment := github_updatePullRequestComment P;
     github_getContainerConfiguration := github_getContainerConfiguration P |}.

(** The same platform with other replies to the IAM calls. *)
Definition with_iam (iam : nat -> Reply unit) (P : Platform) : Platform :=
  {| INPUT := INPUT P;
     uniqueFilename := uniqueFilename P;
     writeFile_succeeds := writeFile_succeeds P;
     new_URL := new_URL P;
     auth_getClient := auth_getClient P;
     auth_getProjectId := auth_getProjectId P;
     auth_request := auth_request P;
     services_get := services_get P;
     services_replaceService := services_replaceService P;
     services_create := services_create P;
     services_delete := services_delete P;
     services_setIamPolicy := iam;
     docker_pull := docker_pull P;
     docker_inspect := docker_inspect P;
     github_addPullRequestComment := github_addPullRequestComment P;
     github_updatePullRequestComment := github_updatePullRequestComment P;
     github_getContainerConfiguration := github_getContainerConfiguration P |}.

(** The same platform with another docker daemon. *)
Definition with_docker (pull : Reply unit) (inspect : Reply ImageConfig) (P : Platform)
    : Platform :=
  {| INPUT := INPUT P;
     uniqueFilename := uniqueFilename P;
     writeFile_succeeds := writeFile_succeeds P;
     new_URL := new_URL P;
     auth_getClient := auth_getClient P;
     auth_getProjectId := auth_getProjectId P;
     auth_request := auth_request P;
     services_get := services_get P;
     services_replaceService := services_replaceService P;
     services_create := services_create P;
     services_delete := services_delete P;
     services_setIamPolicy := services_setIamPolicy P;
     docker_pull := pull;
     docker_inspect := inspect;
     github_addPullRequestComment := github_addPullRequestComment P;
     github_updatePullRequestComment := github_updatePullRequestComment P;
     github_getContainerConfiguration := github_getContainerConfiguration P |}.

(** An input is supplied when its raw value is not empty. *)
Definition supplied (P : Platform) (name : string) : bool :=
  JS.truthy (default "" (INPUT P !! name)).

(** What [core.getInput] throws for a required input that is not
    supplied. *)
Definition not_supplied (name : string) : Exn :=
  JsError "Error" ("Input required and not supplied: " +:+ name).

(** The first of [names] that is not supplied. *)
Definition first_missing (P : Platform) (names : list string) : option string :=
  List.find (fun name => negb (supplied P name)) names.

(** A computation that never runs out of fuel. *)
Definition settles {A} (m : M A) : Prop :=
  forall w, fst (m w) <> OutOfFuel.

(** What the docker daemon sees of a run of [getEnvVarsFromImage], and
    whether the step is failed for it. *)
Definition docker_calls (P : Platform) (name : string) (auth : DockerAuth) : list Event :=
  match docker_pull P with
  | Fail e =>
      EvDockerPull name auth
        :: (if instanceof_RequestError e then [EvSetFailed (FailError e)] else [])
  | Ok _ =>
      EvDockerPull name auth :: EvDockerInspect name
        :: match docker_inspect P with
           | Fail e => if instanceof_RequestError e then [EvSetFailed (FailError e)] else []
           | Ok _ => []
           end
  end.

(** The configuration a run of [getEnvVarsFromImage] returns. *)
Definition docker_configuration (P : Platform) : ContainerConfiguration :=
  match docker_pull P, docker_inspect P with
  | Ok _, Ok config => Docker.fill new_ContainerConfiguration config
  | _, _ => new_ContainerConfiguration
  end.

(** The number of characters [c] in [s]. *)
Fixpoint count_char (c : ascii) (s : string) : nat :=
  match s with
  | EmptyString => 0
  | String a s' => (if Ascii.eqb a c then 1 else 0) + count_char c s'
  end.

(** The calls [createOrUpdate] may make once it is signed in to project
    [p]. Get, Replace and Create go to the endpoint of the region and
    name the service by its canonical name in that project; Replace and
    Create carry the document written out here. The policy call names
    project, region and canonical name in its resource. *)
Definition on_service (this : Gcloud.ServiceConfiguration) (p : string) (e : Event) : Prop :=
  let root := "https://" +:+ Gcloud.runRegion this +:+ "-run.googleapis.com" in
  let canonical := JS.replace_all_char JS.chr_underscore JS.chr_hyphen (Gcloud.name this) in
  let document :=
    {| apiVersion := "serving.knative.dev/v1";
       kind := "Service";
       metadata_name := canonical;
       metadata_namespace := p;
       annotation_vpc_access_connector := Gcloud.vpcConnectorName this;
       spec_serviceAccountName := Gcloud.serviceAccountName this;
       container_image := Gcloud.image this;
       container_env := envVars <$> Gcloud.containerConfig this;
       container_args := arguments <$> Gcloud.containerConfig this |} in
  match e with
  | EvServicesGet name rootUrl =>
      name = "namespaces/" +:+ p +:+ "/services/" +:+ canonical /\ rootUrl = root
  | EvReplaceService name body rootUrl =>
      name = "namespaces/" +:+ p +:+ "/services/" +:+ canonical
      /\ body = document /\ rootUrl = root
  | EvServicesCreate parent body rootUrl =>
      parent = "namespaces/" +:+ p /\ body = document /\ rootUrl = root
  | EvSetIamPolicy resource bindings =>
      resource = "projects/" +:+ p +:+ "/locations/" +:+ Gcloud.runRegion this
                   +:+ "/services/" +:+ canonical
      /\ bindings = [ {| members := ["allUsers"]; role := "roles/run.invoker" |} ]
  | EvDelay ms => ms = JS.of_Z 500
  | EvSetOutput name _ => name = "url"
  | EvSetFailed _ => True
  | _ => False
  end.

(** One pass of the inner loop over the arguments of an image. *)
Definition argument_block (args : list string) : string :=
  fold_left (fun comment argument => comment +:+ "| " +:+ argument +:+ " |" +:+ Main.nl)
    args "".

(** [n] copies of [s]. *)
Fixpoint copies (n : nat) (s : string) : string :=
  match n with
  | O => ""
  | S n' => s +:+ copies n' s
  end.

(** The outer [catch] of [main]. *)
Definition main_catch (error : Exn) : M unit := Core.setFailed (FailJson error).

(** The world after some more calls. *)
Definition extend (evs : list Event) (w : World) : World :=
  {| fs := fs w; unreadable := unreadable w; penv := penv w; trace := trace w ++ evs |}.

(** The same platform with other replies to the comment calls. *)
Definition with_comments (add : Reply Z) (update : nat -> Reply unit) (P : Platform)
    : Platform :=
  {| INPUT := INPUT P;
     uniqueFilename := uniqueFilename P;
     writeFile_succeeds := writeFile_succeeds P;
     new_URL := new_URL P;
     auth_getClient := auth_getClient P;
     auth_getProjectId := auth_getProjectId P;
     auth_request := auth_request P;
     services_get := services_get P;
     services_replaceService := services_replaceService P;
     services_create := services_create P;
     services_delete := services_delete P;
     services_setIamPolicy := services_setIamPolicy P;
     docker_pull := docker_pull P;
     docker_inspect := docker_inspect P;
     github_addPullRequestComment := add;
     github_updatePullRequestComment := update;
     github_getContainerConfiguration := github_getContainerConfiguration P |}.

(** The inputs [create] requires, in the order it reads them, and those
    [destroy] requires. *)
Definition create_inputs : list string :=
  ["name"; "service_account_key"; "run_region"; "image"; "service_account_name"].

Definition destroy_inputs : list string :=
  ["name"; "service_account_key"; "run_region"].

(** The first calls of [create]: the log line and the new comment. *)
Definition announced (P : Platform) : list Event :=
  [ EvInfo ("Deploying docker image " +:+ Core.getInput P "image" +:+ "...");
    EvAddPullRequestComment (Main.in_progress +:+ Main.nl) ].



(** The first calls of [destroy]. *)
Definition deleting : string := "🤖  Cloud Run Deployment: Deleting" +:+ Main.nl.

Definition announced_deletion (P : Platform) : list Event :=
  [ EvInfo ("Deleting Cloud Run deployment " +:+ Core.getInput P "name" +:+ "...");
    EvAddPullRequestComment deleting ].

(** The configuration [destroy] deletes. *)
Definition to_delete (P : Platform) : Gcloud.ServiceConfiguration :=
  Gcloud.new_ServiceConfiguration (Core.getInput P "name") (Core.getInput P "run_region")
    (Core.getInput P "service_account_key") None None None None.

(** The comment after a failed deployment, from the text it had. *)
Definition failure_comment (comment : string) (error : Exn) : string :=
  JS.replace_first
    (comment +:+ "- Deployment failed: " +:+ Exn_toString error +:+ "." +:+ Main.nl)
    Main.in_progress
    "### :heavy_exclamation_mark: Cloud Run Deployment failed :heavy_exclamation_mark:".

(** The comment after a deployment. *)
Definition success_comment (comment : string) (d : Gcloud.Deployment) : string :=
  JS.replace_first
    (JS.replace_first
       (((comment +:+ "- Deployment date: " +:+ JS.show_opt (Gcloud.d_deploymentDate d)
            +:+ "." +:+ Main.nl)
           +:+ "- URL: " +:+ Gcloud.d_url d +:+ Main.nl)
          +:+ "- Logs: " +:+ Gcloud.d_logsUrl d +:+ Main.nl)
       "- [ ]" "- [x]")
    Main.in_progress
    "### :white_check_mark: Cloud Run Deployment successful :white_check_mark:".

(** The first call of a run after the world [w0] is [ev]. *)
Definition asks_first {A} (run : Res A * World) (w0 : World) (ev : Event) : Prop :=
  exists rest, trace_of run = (trace w0 ++ ev :: rest)%list.

(** A computation only makes calls that satisfy [Q]. *)
Definition emits {A} (Q : Event -> Prop) (m : M A) : Prop :=
  forall w, exists evs, trace (snd (m w)) = (trace w ++ evs)%list /\ Forall Q evs.

(** ** Platforms for the examples *)

Module Example.

Definition https : string := "https://".

(** [new URL] on plain references [https://host/path]: the host runs to
    the first slash, the rest is the path. *)
Fixpoint split_host (s : string) (acc : string) : string * string :=
  match s with
  | EmptyString => (String.rev acc, "/")
  | String a s' =>
      if Ascii.eqb a JS.chr_slash then (String.rev acc, s)
      else split_host s' (String a acc)
  end.

Definition plain_URL (href : string) : Reply URL :=
  if String.prefix https href then
    let '(h, p) := split_host (String.substring 8 (String.length href - 8) href) "" in
    if String.eqb h "" then Fail (JsError "TypeError" "Invalid URL")
    else Ok {| host := h; pathname := p |}
  else Fail (JsError "TypeError" "Invalid URL").

Definition not_found_error : Exn := GaxiosError "Not Found" (Some 404).
Definition server_error : Exn := GaxiosError "Internal Server Error" (Some 500).
Definition network_error : Exn := JsError "FetchError" "socket hang up".

Definition ready : ServiceStatus :=
  {| conditions := [ {| c_status := Some "True";
                        c_message := None;
                        c_lastTransitionTime := Some "2020-05-01T10:00:00Z" |} ];
     url := Some "https://my-svc-xyz.a.run.app" |}.

Definition in_progress : ServiceStatus :=
  {| conditions := [ {| c_status := Some "Unknown";
                        c_message := Some "Deploying Revision.";
                        c_lastTransitionTime := Some "2020-05-01T09:59:58Z" |} ];
     url := None |}.

Definition failed : ServiceStatus :=
  {| conditions := [ {| c_status := Some "False";
                        c_message := Some "Image not found.";
                        c_lastTransitionTime := Some "2020-05-01T10:00:00Z" |} ];
     url := None |}.

(** A platform on which every collaborator succeeds, given the inputs
    and the replies of the registry and of the service endpoint. *)
Definition platform (inputs : list (string * string))
    (head : nat -> Reply unit) (get : nat -> Reply ServiceStatus)
    (replace create : Reply unit) : Platform :=
  {| INPUT := list_to_map inputs;
     uniqueFilename := fun _ => "/tmp/8f3a2c1d";
     writeFile_succeeds := fun _ => true;
     new_URL := plain_URL;
     auth_getClient := fun _ => Ok tt;
     auth_getProjectId := fun _ => Ok "p";
     auth_request := head;
     services_get := get;
     services_replaceService := fun _ => replace;
     services_create := fun _ => create;
     services_delete := fun _ => Ok tt;
     services_setIamPolicy := fun _ => Ok tt;
     docker_pull := Ok tt;
     docker_inspect := Ok {| Env := Some []; Labels := Some ∅ |};
     github_addPullRequestComment := Ok 1;
     github_updatePullRequestComment := fun _ => Ok tt;
     github_getContainerConfiguration :=
       fun d => Ok (default new_ContainerConfiguration d) |}.

Definition inputs (allow_unauthenticated timeout interval delete_service : string)
    : list (string * string) :=
  [ ("name", "my_svc"); ("image", "gcr.io/p/x:v1");
    ("service_account_key", "{}"); ("service_account_name", "sa@p.iam");
    ("run_region", "europe-west1");
    ("allow_unauthenticated", allow_unauthenticated);
    ("image_check_timeout", timeout); ("image_check_interval", interval);
    ("delete_service", delete_service) ].

Definition defaults : list (string * string) := inputs "false" "30" "5" "false".

Definition service : Gcloud.ServiceConfiguration :=
  Gcloud.new_ServiceConfiguration "my_svc" "europe-west1" "{}"
    (Some "gcr.io/p/x:v1") (Some "sa@p.iam") None (Some new_ContainerConfiguration).

Definition always {A} (r : Reply A) : nat -> Reply A := fun _ => r.

(** The n-th reply is [r], all others are [other]. *)
Definition at_ {A} (n : nat) (r other : Reply A) : nat -> Reply A :=
  fun k => if Nat.eqb k n then r else other.

(** The first [n] replies are [early], the later ones [late]. *)
Definition first_ {A} (n : nat) (early late : Reply A) : nat -> Reply A :=
  fun k => if Nat.ltb k n then early else late.

(** The service is absent: the probe answers 404, later polls find it ready. *)
Definition absent : Platform :=
  platform defaults (always (Ok tt))
    (at_ 0 (Fail not_found_error) (Ok ready)) (Ok tt) (Ok tt).

(** The service is there at the probe and gone at the replacement. *)
Definition vanishing : Platform :=
  platform defaults (always (Ok tt)) (always (Ok ready))
    (Fail not_found_error) (Ok tt).

(** The probe fails with a server error, later polls find the service ready. *)
Definition probe_fails : Platform :=
  platform defaults (always (Ok tt))
    (at_ 0 (Fail server_error) (Ok ready)) (Ok tt) (Ok tt).

(** The registry answers 404 to the first check and finds the image
    at the second. *)
Definition late_image : Platform :=
  platform defaults (at_ 0 (Fail not_found_error) (Ok tt)) (always (Ok ready))
    (Ok tt) (Ok tt).

(** The first check dies on the network, the second finds the image. *)
Definition flaky_network : Platform :=
  platform defaults (at_ 0 (Fail network_error) (Ok tt)) (always (Ok ready))
    (Ok tt) (Ok tt).

(** The image never appears; the registry is asked for [timeout]
    minutes every [interval] seconds. *)
Definition never_there (timeout interval : string) : Platform :=
  platform (inputs "false" timeout interval "false")
    (always (Fail not_found_error)) (always (Ok ready)) (Ok tt) (Ok tt).

(** A key file on the disk of the runner. *)
Definition key_on_disk : World :=
  {| fs := {[ "/secrets/key.json" := "{type: service_account, project_id: p}" ]};
     unreadable := ∅;
     penv := ∅;
     trace := [] |}.

(** The service to delete is not there. *)
Definition nothing_to_delete : Platform :=
  with_delete (always (Fail not_found_error)) absent.

(** The google client refuses the credentials. *)
Definition bad_credentials : Platform :=
  with_auth (fun _ => Fail (JsError "Error" "invalid_grant")) (fun _ => Ok "p") absent.

(** The service account may not change the IAM policy. *)
Definition iam_denied : Platform :=
  with_iam (always (Fail (GaxiosError "Forbidden" (Some 403)))) absent.

(** The docker daemon cannot be reached. *)
Definition daemon_down : Platform :=
  with_docker (Fail (RequestError "connect ENOENT /var/run/docker.sock"))
    (Fail (RequestError "connect ENOENT /var/run/docker.sock")) absent.

(** The image has environment variables and no labels. *)
Definition no_labels : Platform :=
  with_docker (Ok tt) (Ok {| Env := Some ["PORT=8080"]; Labels := None |}) absent.

(** The service account name is left out. *)
Definition no_service_account : Platform :=
  platform [ ("name", "my_svc"); ("image", "gcr.io/p/x:v1");
             ("service_account_key", "{}"); ("run_region", "europe-west1");
             ("delete_service", "false") ]
    (always (Ok tt)) (always (Ok ready)) (Ok tt) (Ok tt).

(** The run is not in the context of a pull request: no comment can
    be added. *)
Definition no_pull_request : Platform :=
  with_comments (Fail (JsError "Error" "No pull request found.")) (always (Ok tt)) absent.

(** The service cannot be deleted. *)
Definition delete_denied : Platform :=
  with_delete (always (Fail (GaxiosError "Forbidden" (Some 403)))) absent.

(** The revision fails to start: the first poll reports it. *)
Definition broken_revision : Platform :=
  platform defaults (always (Ok tt)) (always (Ok failed)) (Ok tt) (Ok tt).

(** The key input names a directory of the runner. *)
Definition key_is_a_directory : World :=
  {| fs := ∅;
     unreadable := {[ "/secrets" := JsError "Error"
                                      "EISDIR: illegal operation on a directory, read" ]};
     penv := ∅;
     trace := [] |}.

(** The IAM call is refused after a probe that failed on the server. *)
Definition denied_after_probe_error : Platform :=
  with_iam (always (Fail (GaxiosError "Forbidden" (Some 403)))) probe_fails.

(** Two polls in progress, then ready. *)
Definition slow_start : Platform :=
  platform defaults (always (Ok tt)) (first_ 2 (Ok in_progress) (Ok ready)) (Ok tt) (Ok tt).

End Example.


(** * Properties *)

(** ** Traces *)

Lemma count_app (k : Event -> bool) (t u : list Event) :
  count k (t ++ u) = (count k t + count k u)%nat.
Proof.
  induction t as [|e t IH]; simpl; [reflexivity|].
  destruct (k e); simpl; rewrite IH; reflexivity.
Qed.

Lemma count_none (k : Event -> bool) (t : list Event) :
  Forall (fun e => k e = false) t -> count k t = O.
Proof.
  induction 1 as [|e t He _ IH]; simpl; [reflexivity|].
  rewrite He. exact IH.
Qed.

Lemma count_rounds (k : Event -> bool) (n : nat) (evs : list Event) :
  count k (rounds n evs) = (n * count k evs)%nat.
Proof.
  induction n as [|n IH]; simpl; [reflexivity|].
  rewrite count_app, IH. reflexivity.
Qed.

Lemma rounds_snoc (n : nat) (evs : list Event) :
  (rounds n evs ++ evs)%list = rounds (S n) evs.
Proof.
  induction n as [|n IH]; simpl.
  - rewrite app_nil_r. reflexivity.
  - rewrite <- app_assoc. f_equal. exact IH.
Qed.

Lemma trace_record (ev : Event) (w : World) :
  trace (record ev w) = (trace w ++ [ev])%list.
Proof. reflexivity. Qed.

Lemma count_record (k : Event -> bool) (ev : Event) (w : World) :
  count k (trace (record ev w)) = (count k (trace w) + (if k ev then 1 else 0))%nat.
Proof.
  rewrite trace_record, count_app. simpl. destruct (k ev); reflexivity.
Qed.

(** ** Computations that only make calls of some kinds *)

Section Emits.
Context {A B : Type} (Q : Event -> Prop).

Lemma emits_ret (a : A) : emits Q (ret a).
Proof. intros w. exists []. simpl. rewrite app_nil_r. auto. Qed.

Lemma emits_throw (e : Exn) : emits Q (@throw A e).
Proof. intros w. exists []. simpl. rewrite app_nil_r. auto. Qed.

Lemma emits_out_of_fuel : emits Q (@out_of_fuel A).
Proof. intros w. exists []. simpl. rewrite app_nil_r. auto. Qed.

Lemma emits_bind (m : M A) (k : A -> M B) :
  emits Q m -> (forall a, emits Q (k a)) -> emits Q (bind m k).
Proof.
  intros Hm Hk w. unfold bind.
  destruct (Hm w) as (evs & Ht & Hq).
  destruct (m w) as [[a| e |] w1]; simpl in *; eauto.
  destruct (Hk a w1) as (evs' & Ht' & Hq').
  exists (evs ++ evs')%list. split.
  - rewrite Ht', Ht, app_assoc. reflexivity.
  - apply Forall_app; auto.
Qed.

Lemma emits_try_catch (m : M A) (h : Exn -> M A) :
  emits Q m -> (forall e, emits Q (h e)) -> emits Q (try_catch m h).
Proof.
  intros Hm Hh w. unfold try_catch.
  destruct (Hm w) as (evs & Ht & Hq).
  destruct (m w) as [[a| e |] w1]; simpl in *; eauto.
  destruct (Hh e w1) as (evs' & Ht' & Hq').
  exists (evs ++ evs')%list. split.
  - rewrite Ht', Ht, app_assoc. reflexivity.
  - apply Forall_app; auto.
Qed.

Lemma emits_emit (ev : Event) : Q ev -> emits Q (emit ev).
Proof. intros H w. exists [ev]. split; [reflexivity | auto]. Qed.

Lemma emits_call (kind : Event -> bool) (ev : Event) (answer : nat -> Reply A) :
  Q ev -> emits Q (call kind ev answer).
Proof. intros H w. exists [ev]. split; [reflexivity | auto]. Qed.

End Emits.

Lemma emits_count {A} (k : Event -> bool) (m : M A) (w : World) :
  emits (fun e => k e = false) m ->
  count k (trace (snd (m w))) = count k (trace w).
Proof.
  intros H. destruct (H w) as (evs & -> & Hq).
  rewrite count_app, (count_none k evs Hq). lia.
Qed.

Lemma emits_weaken {A} (Q R : Event -> Prop) (m : M A) :
  (forall e, Q e -> R e) -> emits Q m -> emits R m.
Proof.
  intros HQR H w. destruct (H w) as (evs & Ht & Hq).
  exists evs. split; [exact Ht|]. eapply Forall_impl; eauto.
Qed.

Create HintDb emits.
#[local] Hint Resolve emits_ret emits_throw emits_out_of_fuel emits_emit emits_call : emits.

(** Splits a computation along its binds, handlers and branches. *)
Ltac emits_step :=
  match goal with
  | |- emits _ (bind _ _) => apply emits_bind; [| intros ?]
  | |- emits _ (try_catch _ _) => apply emits_try_catch; [| intros ?]
  | |- emits _ (if ?b then _ else _) => destruct b
  | |- emits _ (match ?x with _ => _ end) => destruct x
  | |- emits _ (ret _) => apply emits_ret
  | |- emits _ (throw _) => apply emits_throw
  | |- emits _ out_of_fuel => apply emits_out_of_fuel
  | |- emits _ (emit _) => apply emits_emit
  | |- emits _ (call _ _ _) => apply emits_call
  | |- emits _ (call_detached _) => apply emits_emit
  end.

Ltac emits_auto := repeat (emits_step; simpl; auto with emits).

(** ** Worlds that differ by the calls made *)

Lemma extend_nil (w : World) : extend [] w = w.
Proof. destruct w as [f e t]. unfold extend. simpl. rewrite app_nil_r. reflexivity. Qed.

Lemma extend_extend (a b : list Event) (w : World) :
  extend b (extend a w) = extend (a ++ b) w.
Proof. unfold extend. simpl. rewrite app_assoc. reflexivity. Qed.

Lemma record_extend (ev : Event) (w : World) : record ev w = extend [ev] w.
Proof. reflexivity. Qed.

Lemma trace_extend (evs : list Event) (w : World) :
  trace (extend evs w) = (trace w ++ evs)%list.
Proof. reflexivity. Qed.

Lemma truthy_nonempty (s : string) : s <> "" -> JS.truthy s = true.
Proof.
  intros H. unfold JS.truthy. rewrite (proj2 (String.eqb_neq s "") H). reflexivity.
Qed.

(** ** One step of a computation *)

Lemma bind_emit {B} (ev : Event) (k : unit -> M B) (w : World) :
  bind (emit ev) k w = k tt (record ev w).
Proof. reflexivity. Qed.

Lemma bind_call {A B} (kind : Event -> bool) (ev : Event) (answer : nat -> Reply A)
    (k : A -> M B) (w : World) :
  bind (call kind ev answer) k w
  = match answer (count kind (trace w)) with
    | Ok a => k a (record ev w)
    | Fail e => (Throw e, record ev w)
    end.
Proof.
  unfold bind, call. destruct (answer (count kind (trace w))); reflexivity.
Qed.

Lemma try_catch_bind_call {A B} (kind : Event -> bool) (ev : Event)
    (answer : nat -> Reply A) (k : A -> M B) (h : Exn -> M B) (w : World) :
  try_catch (bind (call kind ev answer) k) h w
  = match answer (count kind (trace w)) with
    | Ok a => try_catch (k a) h (record ev w)
    | Fail e => h e (record ev w)
    end.
Proof.
  unfold try_catch. rewrite bind_call.
  destruct (answer (count kind (trace w))); reflexivity.
Qed.

(** ** The readiness poller *)

Section GetStatus.
Context (P : Platform) (this : Gcloud.ServiceConfiguration).

Lemma count_get_poll : count is_ServicesGet (poll this) = 1%nat.
Proof. reflexivity. Qed.

(** One round that finds the service still in progress. *)
Lemma getStatus_loop_unknown (fuel : nat) (attempt : Z) (w : World) :
  attempt < 100 ->
  still_unknown (services_get P (count is_ServicesGet (trace w))) = true ->
  Gcloud.getStatus_loop P this (S fuel) attempt w
  = Gcloud.getStatus_loop P this fuel (attempt + 1) (extend (poll this) w).
Proof.
  intros Hlt Hu. simpl.
  destruct (Z.ltb_spec attempt 100) as [_|]; [|lia].
  unfold Gcloud.delay. rewrite bind_emit, bind_call.
  rewrite count_record. simpl. rewrite Nat.add_0_r.
  unfold still_unknown in Hu.
  destruct (services_get P (count is_ServicesGet (trace w))) as [st|e]; [|discriminate].
  destruct (conditions st) as [|c0 rest]; [discriminate|].
  rewrite Hu. simpl.
  rewrite !record_extend, extend_extend. reflexivity.
Qed.

Lemma getStatus_loop_unknowns (n fuel : nat) (attempt : Z) (w : World) :
  attempt + Z.of_nat n <= 100 ->
  (forall k, (k < n)%nat ->
     still_unknown (services_get P (count is_ServicesGet (trace w) + k)) = true) ->
  Gcloud.getStatus_loop P this (n + fuel) attempt w
  = Gcloud.getStatus_loop P this fuel (attempt + Z.of_nat n)
      (extend (rounds n (poll this)) w).
Proof.
  revert attempt w. induction n as [|n IH]; intros attempt w Hle Hu.
  - simpl rounds. rewrite extend_nil, Z.add_0_r. reflexivity.
  - change (S n + fuel)%nat with (S (n + fuel)).
    rewrite getStatus_loop_unknown; [|lia|].
    + rewrite IH.
      * rewrite extend_extend. simpl rounds.
        replace (attempt + 1 + Z.of_nat n) with (attempt + Z.of_nat (S n)) by lia.
        reflexivity.
      * lia.
      * intros k Hk. rewrite trace_extend, count_app, count_get_poll.
        replace (count is_ServicesGet (trace w) + 1 + k)%nat
          with (count is_ServicesGet (trace w) + S k)%nat by lia.
        apply Hu. lia.
    + specialize (Hu O). rewrite Nat.add_0_r in Hu. apply Hu. lia.
Qed.

(** The round that finds a condition other than [Unknown]. *)
Lemma getStatus_loop_terminal (fuel : nat) (attempt : Z) (w : World)
    (st : ServiceStatus) (c0 : Condition) (rest : list Condition) :
  attempt < 100 ->
  services_get P (count is_ServicesGet (trace w)) = Ok st ->
  conditions st = c0 :: rest ->
  c_status c0 <> Some "Unknown" ->
  Gcloud.getStatus_loop P this (S fuel) attempt w
  = if JS.truthy_opt (url st)
    then (Ret {| Gcloud.s_url := default "" (url st);
                 Gcloud.s_deploymentDate := c_lastTransitionTime c0 |},
          extend (poll this ++ [EvSetOutput "url" (default "" (url st))]) w)
    else (Throw (JsError "Error" (Gcloud.failed_message this c0)),
          extend (poll this) w).
Proof.
  intros Hlt Hget Hc Hs. simpl.
  destruct (Z.ltb_spec attempt 100) as [_|]; [|lia].
  unfold Gcloud.delay. rewrite bind_emit, bind_call.
  rewrite count_record. simpl. rewrite Nat.add_0_r, Hget.
  rewrite Hc. rewrite bool_decide_eq_false_2 by exact Hs. simpl.
  destruct (JS.truthy_opt (url st)).
  - unfold Core.setOutput. rewrite bind_emit. unfold ret.
    rewrite !record_extend, !extend_extend. reflexivity.
  - unfold throw. rewrite !record_extend, !extend_extend. reflexivity.
Qed.

Lemma getStatus_loop_exhausted (fuel : nat) (attempt : Z) (w : World) :
  100 <= attempt ->
  Gcloud.getStatus_loop P this fuel attempt w
  = (Throw (JsError "Error" Gcloud.timeout_message), w).
Proof.
  intros Hge. destruct fuel; simpl;
    destruct (Z.ltb_spec attempt 100); try lia; reflexivity.
Qed.

(** The fuel [getStatus] passes is never used up. *)
Lemma getStatus_loop_total (fuel : nat) (attempt : Z) (w : World) :
  100 - attempt <= Z.of_nat fuel ->
  fst (Gcloud.getStatus_loop P this fuel attempt w) <> OutOfFuel.
Proof.
  revert attempt w. induction fuel as [|fuel IH]; intros attempt w Hf.
  - rewrite getStatus_loop_exhausted by lia. discriminate.
  - destruct (Z.ltb_spec attempt 100) as [Hlt|Hge];
      [|rewrite getStatus_loop_exhausted by lia; discriminate].
    simpl. destruct (Z.ltb_spec attempt 100) as [_|]; [|lia].
    unfold Gcloud.delay. rewrite bind_emit, bind_call.
    destruct (services_get P _) as [st|e]; [|discriminate].
    destruct (conditions st) as [|c0 rest]; [discriminate|].
    destruct (negb _).
    + destruct (JS.truthy_opt _); discriminate.
    + apply IH. lia.
Qed.

Lemma getStatus_total (w : World) : fst (Gcloud.getStatus P this w) <> OutOfFuel.
Proof. apply getStatus_loop_total. simpl. lia. Qed.

End GetStatus.

Lemma includes_char_app (a b : string) (c : ascii) :
  includes_char (a +:+ b) c = includes_char a c || includes_char b c.
Proof.
  induction a as [|x a IH]; simpl; [reflexivity|].
  rewrite IH. apply orb_assoc.
Qed.

(** [getStatus] when the poll numbered [n] is the first that is not
    in progress. *)
Lemma getStatus_terminal_at (P : Platform) (this : Gcloud.ServiceConfiguration) (w : World)
    (n : nat) (st : ServiceStatus) (c0 : Condition) (rest : list Condition) :
  (n < 100)%nat ->
  (forall k, (k < n)%nat ->
     still_unknown (services_get P (count is_ServicesGet (trace w) + k)) = true) ->
  services_get P (count is_ServicesGet (trace w) + n) = Ok st ->
  conditions st = c0 :: rest ->
  c_status c0 <> Some "Unknown" ->
  Gcloud.getStatus P this w
  = if JS.truthy_opt (url st)
    then (Ret {| Gcloud.s_url := default "" (url st);
                 Gcloud.s_deploymentDate := c_lastTransitionTime c0 |},
          extend (rounds (S n) (poll this) ++ [EvSetOutput "url" (default "" (url st))]) w)
    else (Throw (JsError "Error" (Gcloud.failed_message this c0)),
          extend (rounds (S n) (poll this)) w).
Proof.
  intros Hn Hu Hget Hc Hs. unfold Gcloud.getStatus.
  replace 100%nat with (n + S (99 - n))%nat by lia.
  rewrite getStatus_loop_unknowns by (try lia; assumption).
  rewrite (getStatus_loop_terminal P this _ _ _ st c0 rest); try assumption; try lia.
  - rewrite !extend_extend, app_assoc, rounds_snoc. reflexivity.
  - rewrite trace_extend, count_app, count_rounds, count_get_poll.
    rewrite Nat.mul_1_r. assumption.
Qed.

Lemma getStatus_timeout (P : Platform) (this : Gcloud.ServiceConfiguration) (w : World) :
  (forall k, (k < 100)%nat ->
     still_unknown (services_get P (count is_ServicesGet (trace w) + k)) = true) ->
  Gcloud.getStatus P this w
  = (Throw (JsError "Error" Gcloud.timeout_message), extend (rounds 100 (poll this)) w).
Proof.
  intros Hu. unfold Gcloud.getStatus.
  change 100%nat with (100 + 0)%nat at 1.
  rewrite getStatus_loop_unknowns by (try (simpl; lia); assumption).
  rewrite getStatus_loop_exhausted by (simpl; lia). reflexivity.
Qed.

(** C3. Each poll of the readiness poller waits 500ms and looks at the
    first condition of the service. While that condition is [Unknown]
    it polls again, at most 100 times. At the first other condition it
    returns the URL with that condition's last transition time when the
    service has a URL. When it has none, or an empty one, it throws an
    error whose message is the message of the condition (the word
    [undefined] when the condition has none), a line break and the link
    to the logs of the service. When all 100 polls are [Unknown] it
    throws the timeout error, whose message differs from every failure
    message. *)
Theorem getStatus_outcomes (P : Platform) (this : Gcloud.ServiceConfiguration) (w : World) :
  let g0 := count is_ServicesGet (trace w) in
  let run := Gcloud.getStatus P this w in
  let log_link :=
    String JS.chr_newline
      "View logs for this revision: https://console.cloud.google.com/run/detail/"
      +:+ Gcloud.runRegion this +:+ "/" +:+ Gcloud.serviceName this
      +:+ "/logs?project=" +:+ Gcloud.project this in
  (forall (n : nat) (st : ServiceStatus) (c0 : Condition) (rest : list Condition),
      (n < 100)%nat ->
      (forall k, (k < n)%nat -> still_unknown (services_get P (g0 + k)) = true) ->
      services_get P (g0 + n) = Ok st ->
      conditions st = c0 :: rest ->
      c_status c0 <> Some "Unknown" ->
      (forall u, url st = Some u -> u <> "" ->
         result run = Ret {| Gcloud.s_url := u;
                             Gcloud.s_deploymentDate := c_lastTransitionTime c0 |}
         /\ trace_of run
            = (trace w ++ rounds (S n) (poll this) ++ [EvSetOutput "url" u])%list)
      /\ (url st = None \/ url st = Some "" ->
         (forall m, c_message c0 = Some m ->
            result run = Throw (JsError "Error" (m +:+ log_link)))
         /\ (c_message c0 = None ->
            result run = Throw (JsError "Error" ("undefined" +:+ log_link)))
         /\ trace_of run = (trace w ++ rounds (S n) (poll this))%list))
  /\ ((forall k, (k < 100)%nat -> still_unknown (services_get P (g0 + k)) = true) ->
      result run
      = Throw (JsError "Error"
                 "Unable to retrieve service URL! Check the Cloud Run deployment for errors.")
      /\ trace_of run = (trace w ++ rounds 100 (poll this))%list)
  /\ (forall m, m +:+ log_link
                <> "Unable to retrieve service URL! Check the Cloud Run deployment for errors.").
Proof.
  intros g0 run log_link. split; [|split].
  - intros n st c0 rest Hn Hu Hget Hc Hs.
    pose proof (getStatus_terminal_at P this w n st c0 rest Hn Hu Hget Hc Hs) as E.
    fold run in E. split.
    + intros u Hurl Hne. rewrite Hurl in E.
      unfold JS.truthy_opt in E. rewrite (truthy_nonempty u Hne) in E.
      rewrite E. split; reflexivity.
    + intros Hf.
      assert (Hfalse : JS.truthy_opt (url st) = false)
        by (destruct Hf as [-> | ->]; reflexivity).
      rewrite Hfalse in E. rewrite E. unfold Gcloud.failed_message. split; [|split].
      * intros m ->. reflexivity.
      * intros ->. reflexivity.
      * reflexivity.
  - intros Hu. subst run. rewrite getStatus_timeout by assumption.
    split; reflexivity.
  - intros m Heq.
    assert (Hn : includes_char (m +:+ log_link) JS.chr_newline = true).
    { subst log_link. rewrite !includes_char_app. simpl. apply orb_true_r. }
    rewrite Heq in Hn. discriminate Hn.
Qed.

Lemma getStatus_outcomes_witness :
  (result (Gcloud.getStatus Example.slow_start Example.service empty_World)
   = Ret {| Gcloud.s_url := "https://my-svc-xyz.a.run.app";
            Gcloud.s_deploymentDate := Some "2020-05-01T10:00:00Z" |}
   /\ trace_of (Gcloud.getStatus Example.slow_start Example.service empty_World)
      = (rounds 3 (poll Example.service)
           ++ [EvSetOutput "url" "https://my-svc-xyz.a.run.app"])%list)
  /\ result (Gcloud.getStatus Example.broken_revision Example.service empty_World)
     = Throw (JsError "Error"
                ("Image not found."
                   +:+ String JS.chr_newline
                         "View logs for this revision: https://console.cloud.google.com/run/detail/europe-west1/my-svc/logs?project=")).
Proof.
  split.
  - destruct (getStatus_outcomes Example.slow_start Example.service empty_World) as [H _].
    destruct (H 2%nat Example.ready
                {| c_status := Some "True"; c_message := None;
                   c_lastTransitionTime := Some "2020-05-01T10:00:00Z" |} [])
      as [Hready _].
    + lia.
    + intros k Hk. destruct k as [|[|k]]; [reflexivity | reflexivity | lia].
    + reflexivity.
    + reflexivity.
    + discriminate.
    + apply (Hready "https://my-svc-xyz.a.run.app"); [reflexivity | discriminate].
  - destruct (getStatus_outcomes Example.broken_revision Example.service empty_World)
      as [H _].
    destruct (H 0%nat Example.failed
                {| c_status := Some "False"; c_message := Some "Image not found.";
                   c_lastTransitionTime := Some "2020-05-01T10:00:00Z" |} [])
      as [_ Hfailed].
    + lia.
    + intros k Hk. lia.
    + reflexivity.
    + reflexivity.
    + discriminate.
    + destruct Hfailed as [Hm _]; [left; reflexivity|].
      exact (Hm "Image not found." eq_refl).
Defined.

(** ** The credentials step and the google client *)

Section SignIn.
Context (P : Platform).

Lemma setGoogleApplicationCredentials_returns (key : string) (w : World) :
  Gcloud.setGoogleApplicationCredentials P key w = (Ret tt, provisioned P key w).
Proof.
  unfold provisioned, Gcloud.setGoogleApplicationCredentials.
  destruct (negb (JS.truthy_opt (penv w !! Gcloud.GOOGLE_APPLICATION_CREDENTIALS)));
    reflexivity.
Qed.

(** The calls of the credentials step. *)
Lemma provisioned_trace (key : string) (w : World) :
  exists evs, trace (provisioned P key w) = (trace w ++ evs)%list
              /\ Forall (fun e => match e with
                                  | EvWriteFile _ _ | EvExportVariable _ _ => True
                                  | _ => False
                                  end) evs.
Proof.
  unfold provisioned, Gcloud.setGoogleApplicationCredentials.
  destruct (negb (JS.truthy_opt (penv w !! Gcloud.GOOGLE_APPLICATION_CREDENTIALS))).
  - eexists. split; [simpl; rewrite <- app_assoc; reflexivity|].
    repeat constructor.
  - exists []. simpl. rewrite app_nil_r. auto.
Qed.

Lemma sign_in {B} (key p : string) (k : string -> M B) (w : World) :
  authenticated P key w p ->
  (do! Gcloud.setGoogleApplicationCredentials P key in
   do! Gcloud.getClient P in
   let! project := Gcloud.getProjectId P in
   k project) w
  = k p (signed_in P key w).
Proof.
  intros [Hc Hp]. unfold bind at 1.
  rewrite setGoogleApplicationCredentials_returns.
  unfold bind at 1, Gcloud.getClient at 1. rewrite Hc. simpl.
  unfold bind at 1, Gcloud.getProjectId at 1. simpl.
  change (Gcloud.credentials_seen (record _ (provisioned P key w)))
    with (Gcloud.credentials_seen (provisioned P key w)).
  rewrite Hp. reflexivity.
Qed.

(** Signing in makes no call counted by [k], as soon as [k] ignores
    the file, the environment and the google client. *)
Lemma count_signed_in (k : Event -> bool) (key : string) (w : World) :
  (forall a b, k (EvWriteFile a b) = false) ->
  (forall a b, k (EvExportVariable a b) = false) ->
  (forall c, k (EvGetClient c) = false) ->
  (forall c, k (EvGetProjectId c) = false) ->
  count k (trace (signed_in P key w)) = count k (trace w).
Proof.
  intros Hw He Hc Hp. unfold signed_in.
  rewrite !count_record, Hc, Hp.
  destruct (provisioned_trace key w) as (evs & -> & Hevs).
  rewrite count_app, (count_none k evs); [lia|].
  eapply Forall_impl; [exact Hevs|].
  intros [] H; simpl in H; try contradiction; auto.
Qed.

End SignIn.

Ltac kinds := intros; reflexivity.

(** ** Create or update *)

Section CreateOrUpdate.
Context (P : Platform).

Lemma probe_and_mutate_spec (this : Gcloud.ServiceConfiguration) (w : World) :
  Gcloud.probe_and_mutate P this w = (Ret tt, extend (mutation P this w) w).
Proof.
  unfold Gcloud.probe_and_mutate, mutation, try_catch at 1.
  rewrite bind_call.
  destruct (services_get P (count is_ServicesGet (trace w))) as [st|e].
  - rewrite bind_call, count_record. simpl. rewrite Nat.add_0_r.
    destruct (services_replaceService P (count is_ReplaceService (trace w))) as [[]|e].
    + simpl. rewrite ?record_extend, ?extend_extend. reflexivity.
    + simpl. destruct (instanceof_GaxiosError e); simpl;
        [destruct (bool_decide (response_status e = Some 404)); simpl|];
        try (rewrite ?record_extend, ?extend_extend; reflexivity).
      unfold try_catch, call. simpl.
      destruct (services_create P _) as [[]|]; simpl;
        rewrite ?record_extend, ?extend_extend; reflexivity.
  - simpl. destruct (instanceof_GaxiosError e); simpl;
      [destruct (bool_decide (response_status e = Some 404)); simpl|];
      try (rewrite ?record_extend, ?extend_extend; reflexivity).
    unfold try_catch, call. simpl.
    destruct (services_create P _) as [[]|]; simpl;
      rewrite ?record_extend, ?extend_extend; reflexivity.
Qed.

(** [createOrUpdate] from the inner [try]/[catch] on. *)
Lemma createOrUpdate_signed_in (this : Gcloud.ServiceConfiguration) (w : World) (p : string) :
  authenticated P (Gcloud.serviceAccountKey this) w p ->
  Gcloud.createOrUpdate P this w
  = try_catch (Gcloud.authorize_and_poll P (Gcloud.set_project this p))
      Gcloud.report_and_rethrow
      (extend (mutation P (Gcloud.set_project this p)
                 (signed_in P (Gcloud.serviceAccountKey this) w))
         (signed_in P (Gcloud.serviceAccountKey this) w)).
Proof.
  intros Ha. unfold Gcloud.createOrUpdate, try_catch.
  rewrite (sign_in P _ p _ w Ha).
  unfold bind at 1. rewrite probe_and_mutate_spec. reflexivity.
Qed.

Section Tail.
Context (Q : Event -> Prop).
Context (this : Gcloud.ServiceConfiguration).

Lemma emits_getStatus_loop (fuel : nat) (attempt : Z) :
  (forall ms, Q (EvDelay ms)) ->
  (forall a b, Q (EvServicesGet a b)) ->
  (forall a b, Q (EvSetOutput a b)) ->
  emits Q (Gcloud.getStatus_loop P this fuel attempt).
Proof.
  intros Hd Hg Ho. revert attempt.
  induction fuel as [|fuel IH]; intros attempt; simpl;
    unfold Gcloud.delay, Core.setOutput; emits_auto.
Qed.

Lemma emits_setCloudRunServiceIAMPolicy :
  (forall a b, Q (EvSetIamPolicy a b)) ->
  emits Q (Gcloud.setCloudRunServiceIAMPolicy P this).
Proof.
  intros Hi. unfold Gcloud.setCloudRunServiceIAMPolicy. emits_auto.
Qed.

Lemma emits_report_and_rethrow {A} (e : Exn) :
  (forall f, Q (EvSetFailed f)) ->
  emits Q (@Gcloud.report_and_rethrow A e).
Proof.
  intros Hf. unfold Gcloud.report_and_rethrow, Core.setFailed. emits_auto.
Qed.

Lemma emits_authorize_and_poll :
  (forall a b, Q (EvSetIamPolicy a b)) ->
  (forall ms, Q (EvDelay ms)) ->
  (forall a b, Q (EvServicesGet a b)) ->
  (forall a b, Q (EvSetOutput a b)) ->
  emits Q (Gcloud.authorize_and_poll P this).
Proof.
  intros Hi Hd Hg Ho. unfold Gcloud.authorize_and_poll.
  apply emits_bind; [apply emits_setCloudRunServiceIAMPolicy; assumption|].
  intros _. apply emits_bind; [apply emits_getStatus_loop; assumption|].
  intros st. apply emits_ret.
Qed.

End Tail.

(** The calls of one kind that [createOrUpdate] makes, for a kind that
    only the inner [try]/[catch] can make. *)
Lemma createOrUpdate_count (k : Event -> bool) (this : Gcloud.ServiceConfiguration)
    (w : World) (p : string) :
  authenticated P (Gcloud.serviceAccountKey this) w p ->
  (forall e, (is_ReplaceService e || is_ServicesCreate e) = false -> k e = false) ->
  count k (trace_of (Gcloud.createOrUpdate P this w))
  = (count k (trace w)
     + count k (mutation P (Gcloud.set_project this p)
                  (signed_in P (Gcloud.serviceAccountKey this) w)))%nat.
Proof.
  intros Ha Hk. rewrite (createOrUpdate_signed_in this w p Ha).
  unfold trace_of. rewrite emits_count.
  - rewrite trace_extend, count_app. f_equal.
    apply count_signed_in; intros; apply Hk; reflexivity.
  - apply emits_try_catch.
    + apply emits_authorize_and_poll; intros; apply Hk; reflexivity.
    + intros e. apply emits_report_and_rethrow; intros; apply Hk; reflexivity.
Qed.

Lemma mutation_indices (this : Gcloud.ServiceConfiguration) (key : string) (w : World) :
  count is_ServicesGet (trace (signed_in P key w)) = count is_ServicesGet (trace w)
  /\ count is_ReplaceService (trace (signed_in P key w)) = count is_ReplaceService (trace w).
Proof. split; apply count_signed_in; kinds. Qed.

End CreateOrUpdate.

(** C1 (amended). Once signed in, a run of [createOrUpdate] whose probe
    answers "not found" makes exactly one Create call and no Replace
    call. A run whose probe succeeds makes exactly one Replace call,
    and no Create call as long as that Replace call does not itself
    answer "not found". *)
Theorem createOrUpdate_calls (P : Platform) (this : Gcloud.ServiceConfiguration)
    (w : World) (p : string) :
  authenticated P (Gcloud.serviceAccountKey this) w p ->
  let g0 := count is_ServicesGet (trace w) in
  let r0 := count is_ReplaceService (trace w) in
  let c0 := count is_ServicesCreate (trace w) in
  let t := trace_of (Gcloud.createOrUpdate P this w) in
  (not_found (services_get P g0) = true ->
     count is_ServicesCreate t = S c0 /\ count is_ReplaceService t = r0)
  /\ (forall st, services_get P g0 = Ok st ->
        count is_ReplaceService t = S r0
        /\ (not_found (services_replaceService P r0) = false ->
            count is_ServicesCreate t = c0)).
Proof.
  intros Ha g0 r0 c0 t. subst t.
  destruct (mutation_indices P this (Gcloud.serviceAccountKey this) w) as [Eg Er].
  split.
  - intros Hnf.
    rewrite !(createOrUpdate_count P _ this w p Ha)
      by (intros e He; destruct e; simpl in *; congruence).
    unfold mutation. rewrite Eg. fold g0.
    destruct (services_get P g0) as [st|e]; [discriminate Hnf|].
    rewrite Hnf. simpl. fold c0 r0. lia.
  - intros st Hst.
    rewrite !(createOrUpdate_count P _ this w p Ha)
      by (intros e He; destruct e; simpl in *; congruence).
    unfold mutation. rewrite Eg, Er. fold g0 r0. rewrite Hst.
    destruct (not_found (services_replaceService P r0)); simpl; fold c0 r0.
    + split; [lia | discriminate].
    + split; [lia | intros _; lia].
Qed.

Lemma createOrUpdate_calls_witness :
  count is_ServicesCreate
    (trace_of (Gcloud.createOrUpdate Example.absent Example.service empty_World)) = 1%nat
  /\ count is_ReplaceService
       (trace_of (Gcloud.createOrUpdate Example.absent Example.service empty_World)) = 0%nat.
Proof.
  refine (proj1 (createOrUpdate_calls Example.absent Example.service empty_World "p" _) _).
  - split; reflexivity.
  - reflexivity.
Defined.

(** C1, as stated, fails: the probe finds the service, the replacement
    answers "not found", and a Create call follows the Replace call. *)
Lemma createOrUpdate_replace_then_create :
  services_get Example.vanishing 0 = Ok Example.ready
  /\ count is_ReplaceService
       (trace_of (Gcloud.createOrUpdate Example.vanishing Example.service empty_World)) = 1%nat
  /\ count is_ServicesCreate
       (trace_of (Gcloud.createOrUpdate Example.vanishing Example.service empty_World)) = 1%nat.
Proof. repeat split; vm_compute; reflexivity. Qed.

(** ** The IAM policy *)

Lemma getInput_with_input (name value : string) (P : Platform) :
  Core.getInput (with_input name value P) name = JS.trim value.
Proof.
  unfold Core.getInput, with_input. simpl.
  rewrite lookup_insert_eq. reflexivity.
Qed.

(** The policy is set exactly when the input is not the empty string. *)
Lemma setCloudRunServiceIAMPolicy_trace (P : Platform) (this : Gcloud.ServiceConfiguration)
    (w : World) :
  trace_of (Gcloud.setCloudRunServiceIAMPolicy P this w)
  = if JS.truthy (Core.getInput P "allow_unauthenticated")
    then (trace w ++
          [EvSetIamPolicy
             ("projects/" +:+ Gcloud.project this +:+ "/locations/" +:+ Gcloud.runRegion this
                +:+ "/services/" +:+ Gcloud.serviceName this)
             Gcloud.allUsers_invoker])%list
    else trace w.
Proof.
  unfold Gcloud.setCloudRunServiceIAMPolicy.
  destruct (JS.truthy (Core.getInput P "allow_unauthenticated")); reflexivity.
Qed.

(** C4. With [allow_unauthenticated] set to [false], the default of
    the action, [setCloudRunServiceIAMPolicy] still binds
    [roles/run.invoker] to [allUsers]: the input is a string, and the
    string [false] is truthy. *)
Theorem setCloudRunServiceIAMPolicy_false_is_public (P : Platform)
    (this : Gcloud.ServiceConfiguration) (w : World) :
  trace_of (Gcloud.setCloudRunServiceIAMPolicy
              (with_input "allow_unauthenticated" "false" P) this w)
  = (trace w ++
     [EvSetIamPolicy
        ("projects/" +:+ Gcloud.project this +:+ "/locations/" +:+ Gcloud.runRegion this
           +:+ "/services/" +:+ Gcloud.serviceName this)
        [ {| members := ["allUsers"]; role := "roles/run.invoker" |} ]])%list.
Proof.
  rewrite setCloudRunServiceIAMPolicy_trace, getInput_with_input. reflexivity.
Qed.

(** The two other spellings: [true] sets the policy, only the empty
    input skips it. *)
Lemma setCloudRunServiceIAMPolicy_true_and_empty (P : Platform)
    (this : Gcloud.ServiceConfiguration) (w : World) :
  count is_SetIamPolicy
    (trace_of (Gcloud.setCloudRunServiceIAMPolicy
                 (with_input "allow_unauthenticated" "true" P) this w))
  = S (count is_SetIamPolicy (trace w))
  /\ trace_of (Gcloud.setCloudRunServiceIAMPolicy
                 (with_input "allow_unauthenticated" "" P) this w)
     = trace w.
Proof.
  rewrite !setCloudRunServiceIAMPolicy_trace, !getInput_with_input. simpl.
  rewrite count_app. simpl. split; [lia | reflexivity].
Qed.

(** ** A probe that fails *)

(** [getStatus] always makes a first poll. *)
Lemma getStatus_first_poll (P : Platform) (this : Gcloud.ServiceConfiguration) (w : World) :
  exists evs, trace (snd (Gcloud.getStatus P this w)) = (trace w ++ poll this ++ evs)%list.
Proof.
  unfold Gcloud.getStatus.
  change (Gcloud.getStatus_loop P this 100 0)
    with (do! Gcloud.delay (JS.of_Z 500) in
          let! res := call is_ServicesGet
                        (EvServicesGet (Gcloud.service_path this) (Gcloud.rootUrl this))
                        (services_get P) in
          match conditions res with
          | [] => throw (JsError "TypeError" "Cannot read property 'status' of undefined")
          | c0 :: _ =>
              if negb (bool_decide (c_status c0 = Some "Unknown")) then
                if JS.truthy_opt (url res) then
                  do! Core.setOutput "url" (default "" (url res)) in
                  ret {| Gcloud.s_url := default "" (url res);
                         Gcloud.s_deploymentDate := c_lastTransitionTime c0 |}
                else throw (JsError "Error" (Gcloud.failed_message this c0))
              else Gcloud.getStatus_loop P this 99 1
          end).
  unfold Gcloud.delay. rewrite bind_emit, bind_call.
  destruct (services_get P _) as [st|e].
  - assert (emits (fun _ => True)
              (match conditions st with
               | [] => throw (JsError "TypeError" "Cannot read property 'status' of undefined")
               | c0 :: _ =>
                   if negb (bool_decide (c_status c0 = Some "Unknown")) then
                     if JS.truthy_opt (url st) then
                       do! Core.setOutput "url" (default "" (url st)) in
                       ret {| Gcloud.s_url := default "" (url st);
                              Gcloud.s_deploymentDate := c_lastTransitionTime c0 |}
                     else throw (JsError "Error" (Gcloud.failed_message this c0))
                   else Gcloud.getStatus_loop P this 99 1
               end)) as Hrest.
    { destruct (conditions st) as [|c0 rest]; [apply emits_throw|].
      destruct (negb _); [|apply emits_getStatus_loop; auto].
      destruct (JS.truthy_opt _); [|apply emits_throw].
      unfold Core.setOutput. emits_auto. }
    destruct (Hrest (record (EvServicesGet (Gcloud.service_path this) (Gcloud.rootUrl this))
                       (record (EvDelay (JS.of_Z 500)) w))) as (evs & Ht & _).
    exists evs. rewrite Ht. simpl. rewrite <- !app_assoc. reflexivity.
  - exists []. simpl. rewrite <- !app_assoc. reflexivity.
Qed.

Section ProbeError.
Context (P : Platform) (this : Gcloud.ServiceConfiguration).

Lemma authorize_and_poll_passes (w : World) :
  JS.truthy (Core.getInput P "allow_unauthenticated") = false
  \/ services_setIamPolicy P (count is_SetIamPolicy (trace w)) = Ok tt ->
  try_catch (Gcloud.authorize_and_poll P this) Gcloud.report_and_rethrow w
  = try_catch
      (let! st := Gcloud.getStatus P this in
       ret {| Gcloud.d_url := Gcloud.s_url st;
              Gcloud.d_logsUrl := Gcloud.logsUrl this;
              Gcloud.d_deploymentDate := Gcloud.s_deploymentDate st |})
      Gcloud.report_and_rethrow (authorized P this w).
Proof.
  intros H. unfold Gcloud.authorize_and_poll, Gcloud.setCloudRunServiceIAMPolicy, authorized.
  destruct (JS.truthy (Core.getInput P "allow_unauthenticated")).
  - destruct H as [H|H]; [discriminate|].
    unfold try_catch. rewrite bind_call, H. reflexivity.
  - reflexivity.
Qed.

Lemma polling_trace {A} (f : Gcloud.Status -> A) (w : World) :
  exists evs,
    trace (snd (try_catch (let! st := Gcloud.getStatus P this in ret (f st))
                  Gcloud.report_and_rethrow w))
    = (trace w ++ poll this ++ evs)%list.
Proof.
  destruct (getStatus_first_poll P this w) as (evs & Ht).
  unfold try_catch, bind.
  destruct (Gcloud.getStatus P this w) as [[st|e|] w5]; simpl in *.
  - exists evs. exact Ht.
  - exists (evs ++ [EvSetFailed (FailJson e)])%list.
    rewrite Ht, <- !app_assoc. reflexivity.
  - exists evs. exact Ht.
Qed.

Lemma polling_result {A} (f : Gcloud.Status -> A) (w w' : World) (st : Gcloud.Status) :
  Gcloud.getStatus P this w = (Ret st, w') ->
  result (try_catch (let! st := Gcloud.getStatus P this in ret (f st))
            Gcloud.report_and_rethrow w)
  = Ret (f st).
Proof.
  intros H. unfold try_catch, bind. rewrite H. reflexivity.
Qed.

End ProbeError.

(** C5. When the probe fails with an error other than "not found",
    [createOrUpdate] makes no Create and no Replace call, but it does
    not stop: it sets the IAM policy when [allow_unauthenticated] is
    not empty, and unless that call fails it polls the status at least
    once; when the first poll finds a condition other than [Unknown]
    and a URL, the run returns that URL as a successful deployment. *)
Theorem createOrUpdate_probe_error (P : Platform) (this : Gcloud.ServiceConfiguration)
    (w : World) (p : string) (e : Exn) :
  authenticated P (Gcloud.serviceAccountKey this) w p ->
  services_get P (count is_ServicesGet (trace w)) = Fail e ->
  instanceof_GaxiosError e && bool_decide (response_status e = Some 404) = false ->
  let run := Gcloud.createOrUpdate P this w in
  let public := JS.truthy (Core.getInput P "allow_unauthenticated") in
  let iam := services_setIamPolicy P (count is_SetIamPolicy (trace w)) in
  count is_ServicesCreate (trace_of run) = count is_ServicesCreate (trace w)
  /\ count is_ReplaceService (trace_of run) = count is_ReplaceService (trace w)
  /\ (public = true ->
      count is_SetIamPolicy (trace_of run) = S (count is_SetIamPolicy (trace w)))
  /\ (public = false \/ iam = Ok tt ->
      (count is_Delay (trace w) + 1 <= count is_Delay (trace_of run))%nat
      /\ (count is_ServicesGet (trace w) + 2 <= count is_ServicesGet (trace_of run))%nat
      /\ forall st c0 rest u,
           services_get P (S (count is_ServicesGet (trace w))) = Ok st ->
           conditions st = c0 :: rest ->
           c_status c0 <> Some "Unknown" ->
           url st = Some u -> u <> "" ->
           result run
           = Ret {| Gcloud.d_url := u;
                    Gcloud.d_logsUrl := Gcloud.logsUrl (Gcloud.set_project this p);
                    Gcloud.d_deploymentDate := c_lastTransitionTime c0 |}).
Proof.
  intros Ha Hget Hnf run public iam.
  set (key := Gcloud.serviceAccountKey this) in *.
  set (this' := Gcloud.set_project this p).
  assert (Hmut : mutation P this' (signed_in P key w)
                 = [EvServicesGet (Gcloud.service_path this') (Gcloud.rootUrl this')]).
  { unfold mutation. rewrite (proj1 (mutation_indices P this' key w)), Hget.
    simpl. rewrite Hnf. reflexivity. }
  assert (Hrun : run = try_catch (Gcloud.authorize_and_poll P this') Gcloud.report_and_rethrow
                         (extend [EvServicesGet (Gcloud.service_path this') (Gcloud.rootUrl this')]
                            (signed_in P key w))).
  { subst run. rewrite (createOrUpdate_signed_in P this w p Ha). fold key this'.
    rewrite Hmut. reflexivity. }
  assert (Hk : forall k, (forall a b, k (EvWriteFile a b) = false) ->
                         (forall a b, k (EvExportVariable a b) = false) ->
                         (forall c, k (EvGetClient c) = false) ->
                         (forall c, k (EvGetProjectId c) = false) ->
                         k (EvServicesGet (Gcloud.service_path this') (Gcloud.rootUrl this')) = false ->
                         count k (trace (extend [EvServicesGet (Gcloud.service_path this')
                                                   (Gcloud.rootUrl this')]
                                           (signed_in P key w)))
                         = count k (trace w)).
  { intros k H1 H2 H3 H4 H5. rewrite trace_extend, count_app.
    rewrite (count_signed_in P k key w H1 H2 H3 H4). simpl. rewrite H5. lia. }
  split; [|split; [|split]].
  - subst run. rewrite (createOrUpdate_count P _ this w p Ha)
      by (intros x Hx; destruct x; simpl in *; congruence).
    fold key this'. rewrite Hmut. simpl. lia.
  - subst run. rewrite (createOrUpdate_count P _ this w p Ha)
      by (intros x Hx; destruct x; simpl in *; congruence).
    fold key this'. rewrite Hmut. simpl. lia.
  - intros Hpub. rewrite Hrun. unfold trace_of.
    unfold Gcloud.authorize_and_poll, Gcloud.setCloudRunServiceIAMPolicy.
    fold public. rewrite Hpub. rewrite try_catch_bind_call, Hk by kinds.
    fold iam. destruct iam as [[]|x].
    + rewrite emits_count.
      * rewrite count_record, Hk by kinds. simpl. lia.
      * apply emits_try_catch.
        -- apply emits_bind; [apply emits_getStatus_loop; kinds | intros; apply emits_ret].
        -- intros x. apply emits_report_and_rethrow. kinds.
    + unfold Gcloud.report_and_rethrow, Core.setFailed. rewrite bind_emit.
      unfold throw. cbn [snd]. rewrite !count_record, Hk by kinds. simpl. lia.
  - intros Hpass. rewrite Hrun.
    rewrite authorize_and_poll_passes
      by (rewrite Hk by kinds; exact Hpass).
    assert (Hw4 : forall k, (forall a b, k (EvWriteFile a b) = false) ->
                            (forall a b, k (EvExportVariable a b) = false) ->
                            (forall c, k (EvGetClient c) = false) ->
                            (forall c, k (EvGetProjectId c) = false) ->
                            k (iam_event this') = false ->
                            count k (trace (authorized P this'
                                              (extend [EvServicesGet (Gcloud.service_path this')
                                                         (Gcloud.rootUrl this')]
                                                 (signed_in P key w))))
                            = (count k (trace w)
                               + count k [EvServicesGet (Gcloud.service_path this')
                                            (Gcloud.rootUrl this')])%nat).
    { intros k H1 H2 H3 H4 H5. unfold authorized.
      destruct (JS.truthy _);
        rewrite ?count_record, ?H5, trace_extend, count_app,
          (count_signed_in P k key w H1 H2 H3 H4); lia. }
    split; [|split].
    + unfold trace_of.
      match goal with
      | |- context [try_catch (bind _ (fun st => ret (@?f st))) _ ?w0] =>
          destruct (polling_trace P this' f w0) as (evs & Ht)
      end.
      rewrite Ht, !count_app, Hw4 by kinds. simpl. lia.
    + unfold trace_of.
      match goal with
      | |- context [try_catch (bind _ (fun st => ret (@?f st))) _ ?w0] =>
          destruct (polling_trace P this' f w0) as (evs & Ht)
      end.
      rewrite Ht, !count_app, Hw4 by kinds. simpl. lia.
    + intros st c0 rest u Hst Hc Hs Hu Hne.
      pose proof (getStatus_terminal_at P this'
                    (authorized P this'
                       (extend [EvServicesGet (Gcloud.service_path this') (Gcloud.rootUrl this')]
                          (signed_in P key w)))
                    0 st c0 rest) as Hterm.
      rewrite Hw4 in Hterm by kinds. simpl in Hterm.
      replace (count is_ServicesGet (trace w) + 1 + 0)%nat
        with (S (count is_ServicesGet (trace w))) in Hterm by lia.
      specialize (Hterm ltac:(lia) ltac:(intros; lia) Hst Hc Hs).
      rewrite Hu in Hterm. unfold JS.truthy_opt in Hterm.
      rewrite (truthy_nonempty u Hne) in Hterm.
      erewrite polling_result by exact Hterm. reflexivity.
Qed.

Lemma createOrUpdate_probe_error_witness :
  count is_ServicesCreate
    (trace_of (Gcloud.createOrUpdate Example.probe_fails Example.service empty_World)) = 0%nat
  /\ count is_SetIamPolicy
       (trace_of (Gcloud.createOrUpdate Example.probe_fails Example.service empty_World)) = 1%nat
  /\ result (Gcloud.createOrUpdate Example.probe_fails Example.service empty_World)
     = Ret {| Gcloud.d_url := "https://my-svc-xyz.a.run.app";
              Gcloud.d_logsUrl := Gcloud.logsUrl (Gcloud.set_project Example.service "p");
              Gcloud.d_deploymentDate := Some "2020-05-01T10:00:00Z" |}.
Proof.
  destruct (createOrUpdate_probe_error Example.probe_fails Example.service empty_World "p"
              Example.server_error)
    as (Hc & _ & Hiam & Hpoll).
  - split; reflexivity.
  - reflexivity.
  - reflexivity.
  - split; [exact Hc|]. split; [apply Hiam; reflexivity|].
    destruct Hpoll as (_ & _ & Hres); [right; reflexivity|].
    apply (Hres Example.ready
             {| c_status := Some "True"; c_message := None;
                c_lastTransitionTime := Some "2020-05-01T10:00:00Z" |} []);
      [reflexivity | reflexivity | discriminate | reflexivity | discriminate].
Defined.

(** ** Comparing the attempt counter with [maxAttempts] *)

Lemma of_Z_nonneg (a : Z) : 0 <= a -> JS.of_Z a = JS.Finite false (inject_Z a).
Proof.
  intros H. unfold JS.of_Z.
  destruct (Z.ltb_spec a 0); [lia|]. rewrite Z.abs_eq by lia. reflexivity.
Qed.

Lemma Qltb_true (x y : Q) : JS.Qltb x y = true <-> (x < y)%Q.
Proof.
  unfold JS.Qltb. rewrite negb_true_iff.
  destruct (Qle_bool y x) eqn:E.
  - apply Qle_bool_iff in E. split; [discriminate|].
    intros H. exfalso. apply (Qlt_not_le _ _ H E).
  - split; [|reflexivity]. intros _.
    apply Qnot_le_lt. intros H. apply Qle_bool_iff in H. congruence.
Qed.

(** The loop condition only turns false as the counter grows. *)
Lemma lt_of_Z_mono (a b : Z) (m : JS.Number) :
  0 <= a <= b -> JS.lt (JS.of_Z b) m = true -> JS.lt (JS.of_Z a) m = true.
Proof.
  intros [Ha Hab]. rewrite !of_Z_nonneg by lia.
  destruct m as [|t|t n]; simpl; auto.
  rewrite !Qltb_true. intros H.
  eapply Qle_lt_trans; [|exact H].
  rewrite <- Zle_Qle. exact Hab.
Qed.

(** ** The registry poller *)

Section Wait.
Context (P : Platform) (url : string).

Lemma count_head_check : count is_AuthRequest (check P url) = 1%nat.
Proof. reflexivity. Qed.

Lemma loop_unfold (fuel : nat) (attempt : Z) :
  Gcloud.waitForDockerImage_loop P url fuel attempt
  = if JS.lt (JS.of_Z attempt) (Gcloud.maxAttempts P) then
      match fuel with
      | O => out_of_fuel
      | S fuel' =>
          let! found :=
            try_catch
              (do! call is_AuthRequest (EvAuthRequest url "HEAD") (auth_request P) in
               ret true)
              (fun error =>
                 if instanceof_GaxiosError error then
                   if negb (bool_decide (response_status error = Some 404))
                   then throw error
                   else ret false
                 else ret false) in
          if (found : bool) then ret true
          else
            do! Gcloud.delay (JS.mul (Gcloud.checkInterval P) (JS.of_Z 1000)) in
            Gcloud.waitForDockerImage_loop P url fuel' (attempt + 1)
      end
    else ret false.
Proof. destruct fuel; reflexivity. Qed.

Lemma loop_stop (fuel : nat) (attempt : Z) (w : World) :
  JS.lt (JS.of_Z attempt) (Gcloud.maxAttempts P) = false ->
  Gcloud.waitForDockerImage_loop P url fuel attempt w = (Ret false, w).
Proof. intros H. rewrite loop_unfold, H. reflexivity. Qed.

Lemma loop_step (fuel : nat) (attempt : Z) (w : World) :
  JS.lt (JS.of_Z attempt) (Gcloud.maxAttempts P) = true ->
  Gcloud.waitForDockerImage_loop P url (S fuel) attempt w
  = match verdict (auth_request P (count is_AuthRequest (trace w))) with
    | Exists => (Ret true, record (head_request url) w)
    | Fatal e => (Throw e, record (head_request url) w)
    | NotYet =>
        Gcloud.waitForDockerImage_loop P url fuel (attempt + 1) (extend (check P url) w)
    end.
Proof.
  intros H. rewrite loop_unfold, H.
  unfold bind at 1. unfold try_catch at 1. rewrite bind_call.
  unfold verdict, head_request.
  destruct (auth_request P (count is_AuthRequest (trace w))) as [[]|e].
  - reflexivity.
  - destruct e as [m st| |]; cbn [instanceof_GaxiosError response_status].
    + destruct (bool_decide (st = Some 404)); cbn [negb]; [|reflexivity].
      unfold ret at 1. cbv beta iota.
      unfold Gcloud.delay. rewrite bind_emit, !record_extend, extend_extend. reflexivity.
    + unfold ret at 1. cbv beta iota.
      unfold Gcloud.delay. rewrite bind_emit, !record_extend, extend_extend. reflexivity.
    + unfold ret at 1. cbv beta iota.
      unfold Gcloud.delay. rewrite bind_emit, !record_extend, extend_extend. reflexivity.
Qed.

(** [n] checks in a row that find nothing. *)
Lemma loop_retries (n fuel : nat) (attempt : Z) (w : World) :
  0 <= attempt ->
  (n = O \/ JS.lt (JS.of_Z (attempt + Z.of_nat n - 1)) (Gcloud.maxAttempts P) = true) ->
  (forall k, (k < n)%nat ->
     verdict (auth_request P (count is_AuthRequest (trace w) + k)) = NotYet) ->
  Gcloud.waitForDockerImage_loop P url (n + fuel) attempt w
  = Gcloud.waitForDockerImage_loop P url fuel (attempt + Z.of_nat n)
      (extend (rounds n (check P url)) w).
Proof.
  revert attempt w. induction n as [|n IH]; intros attempt w Ha Hlt Hv.
  - simpl rounds. rewrite extend_nil, Z.add_0_r. reflexivity.
  - destruct Hlt as [|Hlt]; [discriminate|].
    change (S n + fuel)%nat with (S (n + fuel)).
    rewrite loop_step
      by (apply (lt_of_Z_mono attempt (attempt + Z.of_nat (S n) - 1) _ ltac:(lia) Hlt)).
    pose proof (Hv O ltac:(lia)) as H0. rewrite Nat.add_0_r in H0. rewrite H0.
    rewrite IH.
    + rewrite extend_extend. simpl rounds.
      replace (attempt + 1 + Z.of_nat n) with (attempt + Z.of_nat (S n)) by lia.
      reflexivity.
    + lia.
    + destruct n; [left; reflexivity|right].
      replace (attempt + 1 + Z.of_nat (S n) - 1) with (attempt + Z.of_nat (S (S n)) - 1) by lia.
      exact Hlt.
    + intros k Hk. rewrite trace_extend, count_app, count_head_check.
      replace (count is_AuthRequest (trace w) + 1 + k)%nat
        with (count is_AuthRequest (trace w) + S k)%nat by lia.
      apply Hv. lia.
Qed.

(** A run that returns [true] made some checks that found nothing and
    a last one that found the manifest. *)
Lemma loop_true_inv (fuel : nat) (attempt : Z) (w w' : World) :
  Gcloud.waitForDockerImage_loop P url fuel attempt w = (Ret true, w') ->
  exists n,
    trace w' = (trace w ++ rounds n (check P url) ++ [head_request url])%list
    /\ (forall k, (k < n)%nat ->
          verdict (auth_request P (count is_AuthRequest (trace w) + k)) = NotYet)
    /\ verdict (auth_request P (count is_AuthRequest (trace w) + n)) = Exists.
Proof.
  revert attempt w. induction fuel as [|fuel IH]; intros attempt w H.
  - rewrite loop_unfold in H. destruct (JS.lt _ _); discriminate H.
  - destruct (JS.lt (JS.of_Z attempt) (Gcloud.maxAttempts P)) eqn:Hlt.
    + rewrite loop_step in H by exact Hlt.
      destruct (verdict (auth_request P (count is_AuthRequest (trace w)))) eqn:Hv.
      * injection H as <-. exists O. simpl. rewrite Nat.add_0_r.
        split; [reflexivity|]. split; [intros; lia | exact Hv].
      * apply IH in H. destruct H as (n & Ht & Hn & He).
        rewrite trace_extend, count_app, count_head_check in *.
        exists (S n). split; [|split].
        -- rewrite Ht. simpl rounds. rewrite <- !app_assoc. reflexivity.
        -- intros k Hk. destruct k as [|k].
           ++ rewrite Nat.add_0_r. exact Hv.
           ++ replace (count is_AuthRequest (trace w) + S k)%nat
                with (count is_AuthRequest (trace w) + 1 + k)%nat by lia.
              apply Hn. lia.
        -- replace (count is_AuthRequest (trace w) + S n)%nat
             with (count is_AuthRequest (trace w) + 1 + n)%nat by lia.
           exact He.
      * discriminate H.
    + rewrite loop_stop in H by exact Hlt. discriminate H.
Qed.


End Wait.

(** [waitForDockerImage] once signed in. *)
Lemma waitForDockerImage_signed_in (P : Platform) (fuel : nat) (image key : string)
    (w : World) (p : string) (u : URL) :
  authenticated P key w p ->
  new_URL P ("https://" +:+ image) = Ok u ->
  Gcloud.waitForDockerImage P fuel image key w
  = Gcloud.waitForDockerImage_loop P (Gcloud.manifest_url u p) fuel 0 (signed_in P key w).
Proof.
  intros Ha Hu. unfold Gcloud.waitForDockerImage.
  rewrite (sign_in P key p _ w Ha), Hu. reflexivity.
Qed.

Lemma count_head_signed_in (P : Platform) (key : string) (w : World) :
  count is_AuthRequest (trace (signed_in P key w)) = count is_AuthRequest (trace w).
Proof. apply count_signed_in; kinds. Qed.

Lemma verdict_NotYet (r : Reply unit) :
  verdict r = NotYet
  <-> not_found r = true \/ exists e, r = Fail e /\ instanceof_GaxiosError e = false.
Proof.
  unfold verdict, not_found. destruct r as [[]|e].
  - split; [discriminate|]. intros [H|(e & H & _)]; discriminate H.
  - destruct e as [m st| |]; simpl.
    + destruct (bool_decide (st = Some 404)); split; auto; try discriminate.
      intros [H|(e & H & He)]; [discriminate|]. injection H as <-. discriminate He.
    + split; auto. intros _. right. eauto.
    + split; auto. intros _. right. eauto.
Qed.

Lemma verdict_Fatal (r : Reply unit) (e : Exn) :
  verdict r = Fatal e
  <-> r = Fail e /\ instanceof_GaxiosError e = true /\ response_status e <> Some 404.
Proof.
  unfold verdict. destruct r as [[]|x].
  - split; [discriminate | intros [H _]; discriminate H].
  - destruct x as [m st| |]; simpl.
    + destruct (bool_decide_reflect (st = Some 404)) as [Hst|Hst].
      * split; [discriminate|]. intros (H & _ & Hne). injection H as <-. simpl in Hne. contradiction.
      * split.
        -- intros H. injection H as <-. simpl. auto.
        -- intros (H & _). injection H as <-. reflexivity.
    + split; [discriminate|]. intros (H & He & _). injection H as <-. discriminate He.
    + split; [discriminate|]. intros (H & He & _). injection H as <-. discriminate He.
Qed.

(** C2 (amended). Once signed in, [waitForDockerImage] returns [true]
    at check number [n + 1] exactly when the [n] checks before it were
    retried and that check finds the manifest; it returns [false] when
    every check the loop allows is retried; and it rethrows at once the
    first error that is fatal. A check is retried when the registry
    answers 404 and also when the request fails with an error that is
    not a gaxios error; an error is fatal when it is a gaxios error
    with another status, or with no status at all. *)
Theorem waitForDockerImage_outcomes (P : Platform) (image key : string) (w : World)
    (p : string) (u : URL) :
  authenticated P key w p ->
  new_URL P ("https://" +:+ image) = Ok u ->
  let h0 := count is_AuthRequest (trace w) in
  let reply k := auth_request P (h0 + k) in
  let run fuel := Gcloud.waitForDockerImage P fuel image key w in
  let checks fuel := (count is_AuthRequest (trace_of (run fuel)) - h0)%nat in
  let allowed n := JS.lt (JS.of_Z (Z.of_nat n)) (Gcloud.maxAttempts P) in
  (forall n fuel,
      (n < fuel)%nat -> allowed n = true ->
      (forall k, (k < n)%nat -> verdict (reply k) = NotYet) ->
      verdict (reply n) = Exists ->
      result (run fuel) = Ret true /\ checks fuel = S n)
  /\ (forall n fuel,
        result (run fuel) = Ret true -> checks fuel = S n ->
        (forall k, (k < n)%nat -> verdict (reply k) = NotYet)
        /\ verdict (reply n) = Exists)
  /\ (forall n fuel,
        (n <= fuel)%nat -> allowed n = false ->
        (n = O \/ allowed (n - 1)%nat = true) ->
        (forall k, (k < n)%nat -> verdict (reply k) = NotYet) ->
        result (run fuel) = Ret false /\ checks fuel = n)
  /\ (forall n fuel e,
        (n < fuel)%nat -> allowed n = true ->
        (forall k, (k < n)%nat -> verdict (reply k) = NotYet) ->
        verdict (reply n) = Fatal e ->
        result (run fuel) = Throw e /\ checks fuel = S n)
  /\ (forall r, verdict r = NotYet
                <-> not_found r = true
                    \/ exists e, r = Fail e /\ instanceof_GaxiosError e = false)
  /\ (forall r e, verdict r = Fatal e
                  <-> r = Fail e /\ instanceof_GaxiosError e = true
                      /\ response_status e <> Some 404).
Proof.
  intros Ha Hu h0 reply run checks allowed.
  set (url := Gcloud.manifest_url u p).
  set (w0 := signed_in P key w).
  assert (Hrun : forall fuel, run fuel = Gcloud.waitForDockerImage_loop P url fuel 0 w0).
  { intros fuel. apply waitForDockerImage_signed_in; assumption. }
  assert (Hh : count is_AuthRequest (trace w0) = h0) by apply count_head_signed_in.
  assert (Hreach : forall n fuel,
             (n = O \/ allowed (n - 1)%nat = true) ->
             (forall k, (k < n)%nat -> verdict (reply k) = NotYet) ->
             Gcloud.waitForDockerImage_loop P url (n + fuel) 0 w0
             = Gcloud.waitForDockerImage_loop P url fuel (Z.of_nat n)
                 (extend (rounds n (check P url)) w0)).
  { intros n fuel Hal Hv. rewrite (loop_retries P url n fuel 0 w0).
    - reflexivity.
    - lia.
    - destruct Hal as [|Hal]; [left; assumption|]. destruct n; [left; reflexivity|right].
      unfold allowed in Hal.
      replace (0 + Z.of_nat (S n) - 1) with (Z.of_nat (S n - 1)) by lia. exact Hal.
    - intros k Hk. rewrite Hh. apply Hv. exact Hk. }
  assert (Hprev : forall n, allowed n = true -> n = O \/ allowed (n - 1)%nat = true).
  { intros n Hal. destruct n; [left; reflexivity|right].
    unfold allowed in *. apply (lt_of_Z_mono _ (Z.of_nat (S n))); [lia|exact Hal]. }
  assert (Hcount : forall n, count is_AuthRequest (trace (extend (rounds n (check P url)) w0))
                             = (h0 + n)%nat).
  { intros n. rewrite trace_extend, count_app, count_rounds, count_head_check, Hh. lia. }
  split; [|split; [|split; [|split; [|split]]]].
  - intros n fuel Hf Hal Hv He. subst checks. cbv beta. rewrite Hrun.
    replace fuel with (n + S (fuel - S n))%nat by lia.
    rewrite Hreach by auto. rewrite loop_step by exact Hal.
    rewrite Hcount. fold (reply n). rewrite He.
    unfold result, trace_of. cbn [fst snd]. rewrite count_record, Hcount. simpl.
    split; [reflexivity | lia].
  - intros n fuel Hres Hck. subst checks. cbv beta in Hck. rewrite Hrun in Hres, Hck.
    destruct (Gcloud.waitForDockerImage_loop P url fuel 0 w0) as [r w'] eqn:E.
    unfold result in Hres. simpl in Hres. subst r.
    apply loop_true_inv in E. destruct E as (m & Ht & Hm & He).
    unfold trace_of in Hck. simpl in Hck.
    rewrite Ht, !count_app, count_rounds, count_head_check, Hh in Hck. simpl in Hck.
    assert (m = n) by lia. subst m. rewrite Hh in Hm, He. auto.
  - intros n fuel Hf Hal Hpre Hv. subst checks. cbv beta. rewrite Hrun.
    replace fuel with (n + (fuel - n))%nat by lia.
    rewrite Hreach by auto. rewrite loop_stop by exact Hal.
    unfold result, trace_of. cbn [fst snd]. rewrite Hcount.
    split; [reflexivity | lia].
  - intros n fuel e Hf Hal Hv He. subst checks. cbv beta. rewrite Hrun.
    replace fuel with (n + S (fuel - S n))%nat by lia.
    rewrite Hreach by auto. rewrite loop_step by exact Hal.
    rewrite Hcount. fold (reply n). rewrite He.
    unfold result, trace_of. cbn [fst snd]. rewrite count_record, Hcount. simpl.
    split; [reflexivity | lia].
  - exact verdict_NotYet.
  - exact verdict_Fatal.
Qed.

Lemma waitForDockerImage_outcomes_witness :
  result (Gcloud.waitForDockerImage Example.late_image 10 "gcr.io/p/x:v1" "{}" empty_World)
  = Ret true
  /\ (count is_AuthRequest
        (trace_of (Gcloud.waitForDockerImage Example.late_image 10 "gcr.io/p/x:v1" "{}"
                     empty_World)) - 0)%nat = 2%nat.
Proof.
  refine (proj1 (waitForDockerImage_outcomes Example.late_image "gcr.io/p/x:v1" "{}"
                   empty_World "p" {| host := "gcr.io"; pathname := "/p/x:v1" |} _ _)
            1%nat 10%nat _ _ _ _).
  - split; reflexivity.
  - reflexivity.
  - lia.
  - vm_compute. reflexivity.
  - intros k Hk. destruct k as [|k]; [reflexivity | lia].
  - reflexivity.
Defined.

(** C2, as stated, fails: the first check ends in an error that is not
    "not found", no error is raised, and the run returns [true] at the
    second check. *)
Lemma waitForDockerImage_retries_other_errors :
  auth_request Example.flaky_network 0 = Fail (JsError "FetchError" "socket hang up")
  /\ not_found (auth_request Example.flaky_network 0) = false
  /\ result (Gcloud.waitForDockerImage Example.flaky_network 10 "gcr.io/p/x:v1" "{}"
               empty_World) = Ret true
  /\ count is_AuthRequest
       (trace_of (Gcloud.waitForDockerImage Example.flaky_network 10 "gcr.io/p/x:v1" "{}"
                    empty_World)) = 2%nat.
Proof. repeat split; vm_compute; reflexivity. Qed.

(** ** [maxAttempts] from the two inputs *)

Lemma of_Z_neg (a : Z) : a < 0 -> JS.of_Z a = JS.Finite true (inject_Z (- a)).
Proof.
  intros H. unfold JS.of_Z.
  destruct (Z.ltb_spec a 0); [|lia]. rewrite Z.abs_neq by lia. reflexivity.
Qed.

Lemma mag_is_zero_inject (z : Z) : JS.mag_is_zero (inject_Z z) = (z =? 0).
Proof.
  unfold JS.mag_is_zero, Qeq_bool, inject_Z. simpl. rewrite Z.mul_1_r. reflexivity.
Qed.

Lemma mag_is_zero_times_60 (z : Z) :
  JS.mag_is_zero (inject_Z z * inject_Z 60) = (z =? 0).
Proof.
  unfold JS.mag_is_zero, Qeq_bool, inject_Z, Qmult. simpl. rewrite Z.mul_1_r.
  destruct (Z.eqb_spec z 0) as [->|H]; [reflexivity|].
  apply Z.eqb_neq. lia.
Qed.

(** Nothing is below a quotient of magnitudes with a minus sign. *)
Lemma lt_zero_negative (m n : Z) :
  0 <= m -> 0 < n ->
  JS.Qltb (inject_Z 0) (JS.signed true (inject_Z m * inject_Z 60 / inject_Z n)) = false.
Proof.
  intros Hm Hn. unfold JS.Qltb. apply negb_false_iff. apply Qle_bool_iff.
  destruct n as [|pn|pn]; try lia.
  unfold JS.signed, Qle, Qopp, Qdiv, Qmult, Qinv, inject_Z. simpl. lia.
Qed.

Lemma lt_zero_of_zero (s : bool) (n : Z) :
  0 < n ->
  JS.Qltb (inject_Z 0) (JS.signed s (inject_Z 0 * inject_Z 60 / inject_Z n)) = false.
Proof.
  intros Hn. unfold JS.Qltb. apply negb_false_iff. apply Qle_bool_iff.
  destruct n as [|pn|pn]; try lia.
  destruct s; unfold JS.signed, Qle, Qopp, Qdiv, Qmult, Qinv, inject_Z; simpl; lia.
Qed.

Section MaxAttempts.
Context (P : Platform) (t i : Z).
Hypothesis Ht : JS.parseInt (Core.getInput P "image_check_timeout") = JS.of_Z t.
Hypothesis Hi : JS.parseInt (Core.getInput P "image_check_interval") = JS.of_Z i.

Lemma maxAttempts_of_Z :
  Gcloud.maxAttempts P = JS.div (JS.mul (JS.of_Z t) (JS.of_Z 60)) (JS.of_Z i).
Proof. unfold Gcloud.maxAttempts, Gcloud.checkInterval. rewrite Ht, Hi. reflexivity. Qed.


(** The inputs for which the loop condition fails at once. *)
Lemma lt_maxAttempts_never :
  t = 0 \/ (0 < t /\ i < 0) \/ (t < 0 /\ 0 <= i) ->
  JS.lt (JS.of_Z 0) (Gcloud.maxAttempts P) = false.
Proof.
  intros Hc. rewrite maxAttempts_of_Z, (of_Z_nonneg 60), (of_Z_nonneg 0) by lia.
  destruct Hc as [->|[[Hpt Hni]|[Hnt Hi0]]].
  - rewrite (of_Z_nonneg 0) by lia.
    destruct (Z.lt_trichotomy i 0) as [Hn|[->|Hp]].
    + rewrite (of_Z_neg i Hn). unfold JS.mul, JS.div. rewrite mag_is_zero_inject.
      destruct (Z.eqb_spec (- i) 0); [lia|].
      unfold JS.lt. apply lt_zero_of_zero. lia.
    + reflexivity.
    + rewrite (of_Z_nonneg i) by lia. unfold JS.mul, JS.div. rewrite mag_is_zero_inject.
      destruct (Z.eqb_spec i 0); [lia|].
      unfold JS.lt. apply lt_zero_of_zero. lia.
  - rewrite (of_Z_nonneg t), (of_Z_neg i) by lia.
    unfold JS.mul, JS.div. rewrite mag_is_zero_inject.
    destruct (Z.eqb_spec (- i) 0); [lia|].
    unfold JS.lt. simpl xorb. apply lt_zero_negative; lia.
  - rewrite (of_Z_neg t), (of_Z_nonneg i) by lia.
    unfold JS.mul, JS.div. rewrite mag_is_zero_inject, mag_is_zero_times_60.
    destruct (Z.eqb_spec i 0) as [->|Hne].
    + destruct (Z.eqb_spec (- t) 0); [lia|]. reflexivity.
    + unfold JS.lt. simpl xorb. apply lt_zero_negative; lia.
Qed.

End MaxAttempts.





(** C7 (amended). With a zero timeout, with a timeout and an interval
    of opposite signs, or with a negative timeout and a zero interval,
    [waitForDockerImage] makes no check and no pause and returns
    [false]; nothing is thrown. *)
Theorem waitForDockerImage_nonpositive (P : Platform) (image key : string) (w : World)
    (p : string) (u : URL) (t i : Z) (fuel : nat) :
  authenticated P key w p ->
  new_URL P ("https://" +:+ image) = Ok u ->
  JS.parseInt (Core.getInput P "image_check_timeout") = JS.of_Z t ->
  JS.parseInt (Core.getInput P "image_check_interval") = JS.of_Z i ->
  t = 0 \/ (0 < t /\ i < 0) \/ (t < 0 /\ 0 <= i) ->
  let run := Gcloud.waitForDockerImage P fuel image key w in
  result run = Ret false
  /\ count is_AuthRequest (trace_of run) = count is_AuthRequest (trace w)
  /\ count is_Delay (trace_of run) = count is_Delay (trace w).
Proof.
  intros Ha Hu Ht Hi Hc run. subst run.
  rewrite (waitForDockerImage_signed_in P fuel image key w p u Ha Hu).
  rewrite loop_stop by (apply (lt_maxAttempts_never P t i Ht Hi Hc)).
  unfold result, trace_of. cbn [fst snd].
  split; [reflexivity|]. split; apply count_signed_in; kinds.
Qed.

Lemma waitForDockerImage_nonpositive_witness :
  result (Gcloud.waitForDockerImage (Example.never_there "0" "5") 10 "gcr.io/p/x:v1" "{}"
            empty_World) = Ret false
  /\ count is_AuthRequest
       (trace_of (Gcloud.waitForDockerImage (Example.never_there "0" "5") 10 "gcr.io/p/x:v1"
                    "{}" empty_World)) = 0%nat
  /\ count is_Delay
       (trace_of (Gcloud.waitForDockerImage (Example.never_there "0" "5") 10 "gcr.io/p/x:v1"
                    "{}" empty_World)) = 0%nat.
Proof.
  refine (waitForDockerImage_nonpositive (Example.never_there "0" "5") "gcr.io/p/x:v1" "{}"
            empty_World "p" {| host := "gcr.io"; pathname := "/p/x:v1" |} 0 5 10 _ _ _ _ _).
  - split; reflexivity.
  - reflexivity.
  - reflexivity.
  - reflexivity.
  - left. reflexivity.
Defined.

(** C7, as stated, fails: a zero timeout and a negative interval end in
    the value [false], not in an error; and with a zero interval the
    registry is checked for as long as the run lasts. *)
Lemma waitForDockerImage_no_config_error :
  result (Gcloud.waitForDockerImage (Example.never_there "0" "5") 10 "gcr.io/p/x:v1" "{}"
            empty_World) = Ret false
  /\ result (Gcloud.waitForDockerImage (Example.never_there "30" "-5") 10 "gcr.io/p/x:v1"
               "{}" empty_World) = Ret false
  /\ count is_AuthRequest
       (trace_of (Gcloud.waitForDockerImage (Example.never_there "30" "0") 10
                    "gcr.io/p/x:v1" "{}" empty_World)) = 10%nat.
Proof. repeat split; vm_compute; reflexivity. Qed.

(** ** Cutting the image name and the tag out of the path *)

Lemma append_cons (x : ascii) (a b : string) : String x a +:+ b = String x (a +:+ b).
Proof. reflexivity. Qed.

Lemma append_nil (b : string) : "" +:+ b = b.
Proof. reflexivity. Qed.

Lemma append_assoc (a b c : string) : (a +:+ b) +:+ c = a +:+ b +:+ c.
Proof.
  induction a as [|x a IH]; [reflexivity|].
  rewrite !append_cons, IH. reflexivity.
Qed.

Lemma length_append (a b : string) :
  String.length (a +:+ b) = (String.length a + String.length b)%nat.
Proof.
  induction a as [|x a IH]; [reflexivity|].
  rewrite append_cons. simpl. rewrite IH. reflexivity.
Qed.

Lemma substring_skip (a s : string) (m : nat) :
  String.substring (String.length a) m (a +:+ s) = String.substring 0 m s.
Proof.
  induction a as [|x a IH]; [reflexivity|].
  rewrite append_cons. simpl. exact IH.
Qed.

Lemma substring_take (m r : string) :
  String.substring 0 (String.length m) (m +:+ r) = m.
Proof.
  induction m as [|x m IH].
  - rewrite append_nil. destruct r; reflexivity.
  - rewrite append_cons. simpl. rewrite IH. reflexivity.
Qed.

Lemma substring_all (s : string) : String.substring 0 (String.length s) s = s.
Proof.
  induction s as [|x s IH]; simpl; [reflexivity | rewrite IH; reflexivity].
Qed.

Lemma lastIndexOf_from_absent (c : ascii) (s : string) (i acc : Z) :
  includes_char s c = false -> JS.lastIndexOf_from c s i acc = acc.
Proof.
  revert i acc. induction s as [|x s IH]; intros i acc H; simpl in *; [reflexivity|].
  apply orb_false_iff in H. destruct H as [Hx Hs].
  rewrite Hx. apply IH. exact Hs.
Qed.

(** The last index of [c] is where its last occurrence stands. *)
Lemma lastIndexOf_from_last (c : ascii) (a b : string) (i acc : Z) :
  includes_char b c = false ->
  JS.lastIndexOf_from c (a +:+ String c b) i acc = i + JS.len a.
Proof.
  intros Hb. revert i acc. induction a as [|x a IH]; intros i acc.
  - rewrite append_nil. simpl. rewrite Ascii.eqb_refl, lastIndexOf_from_absent by exact Hb.
    unfold JS.len. simpl. lia.
  - rewrite append_cons. simpl. rewrite IH. unfold JS.len. simpl String.length. lia.
Qed.

Lemma lastIndexOf_last (c : ascii) (a b : string) :
  includes_char b c = false ->
  JS.lastIndexOf (a +:+ String c b) c = JS.len a.
Proof.
  intros Hb. unfold JS.lastIndexOf. rewrite lastIndexOf_from_last by exact Hb. lia.
Qed.

(** [substring] between two indices that are in range and in order. *)
Lemma substring_in_range (s : string) (lo hi : Z) :
  0 <= lo <= hi -> hi <= JS.len s ->
  JS.substring s lo hi = String.substring (Z.to_nat lo) (Z.to_nat (hi - lo)) s.
Proof.
  intros Hlo Hhi. unfold JS.substring, JS.clamp.
  rewrite (Z.min_l lo (JS.len s)), (Z.min_l hi (JS.len s)) by lia.
  rewrite (Z.max_r 0 lo), (Z.max_r 0 hi) by lia.
  rewrite (Z.min_l lo hi), (Z.max_r lo hi) by lia.
  reflexivity.
Qed.

Lemma substring_middle (a m r : string) :
  JS.substring (a +:+ m +:+ r) (JS.len a) (JS.len a + JS.len m) = m.
Proof.
  rewrite substring_in_range.
  - unfold JS.len.
    replace (Z.of_nat (String.length a) + Z.of_nat (String.length m)
             - Z.of_nat (String.length a)) with (Z.of_nat (String.length m)) by lia.
    rewrite !Nat2Z.id, substring_skip, substring_take. reflexivity.
  - unfold JS.len. lia.
  - unfold JS.len. rewrite !length_append. lia.
Qed.

Lemma substring_from_suffix (a r : string) :
  JS.substring_from (a +:+ r) (JS.len a) = r.
Proof.
  unfold JS.substring_from. rewrite substring_in_range.
  - unfold JS.len. rewrite length_append.
    replace (Z.of_nat (String.length a + String.length r) - Z.of_nat (String.length a))
      with (Z.of_nat (String.length r)) by lia.
    rewrite !Nat2Z.id, substring_skip, substring_all. reflexivity.
  - unfold JS.len. rewrite length_append. lia.
  - lia.
Qed.

Lemma loop_shape (P : Platform) (url : string) (fuel : nat) (attempt : Z) (w : World) :
  exists n,
    trace (snd (Gcloud.waitForDockerImage_loop P url fuel attempt w))
    = (trace w ++ rounds n (check P url)
         ++ match fst (Gcloud.waitForDockerImage_loop P url fuel attempt w) with
            | Ret true | Throw _ => [head_request url]
            | _ => []
            end)%list
    /\ (fst (Gcloud.waitForDockerImage_loop P url fuel attempt w) = Ret false ->
        JS.lt (JS.of_Z (attempt + Z.of_nat n)) (Gcloud.maxAttempts P) = false).
Proof.
  revert attempt w. induction fuel as [|fuel IH]; intros attempt w.
  - rewrite loop_unfold. exists O. rewrite Z.add_0_r.
    destruct (JS.lt _ _) eqn:Hlt; simpl; rewrite app_nil_r;
      (split; [reflexivity|]); [discriminate | reflexivity].
  - destruct (JS.lt (JS.of_Z attempt) (Gcloud.maxAttempts P)) eqn:Hlt.
    + rewrite loop_step by exact Hlt.
      destruct (verdict _).
      * exists O. split; [reflexivity | discriminate].
      * destruct (IH (attempt + 1) (extend (check P url) w)) as (n & Hn & Hstop).
        exists (S n). split.
        -- rewrite Hn, trace_extend. simpl rounds.
           rewrite <- !app_assoc. reflexivity.
        -- intros Hr. specialize (Hstop Hr).
           replace (attempt + Z.of_nat (S n)) with (attempt + 1 + Z.of_nat n) by lia.
           exact Hstop.
      * exists O. split; [reflexivity | discriminate].
    + rewrite loop_stop by exact Hlt. exists O. rewrite Z.add_0_r. simpl.
      rewrite app_nil_r. split; [reflexivity | intros _; exact Hlt].
Qed.

(** While the loop condition holds at the start, the first thing the
    loop does is to ask for the manifest. *)
Lemma loop_asks (P : Platform) (url : string) (fuel : nat) (w : World) :
  JS.lt (JS.of_Z 0) (Gcloud.maxAttempts P) = true ->
  exists rest,
    trace (snd (Gcloud.waitForDockerImage_loop P url (S fuel) 0 w))
    = (trace w ++ head_request url :: rest)%list.
Proof.
  intros Hlt. rewrite loop_step by exact Hlt.
  destruct (verdict _).
  - exists []. reflexivity.
  - destruct (loop_shape P url fuel (0 + 1) (extend (check P url) w)) as (n & Hn & _).
    rewrite Hn, trace_extend. unfold check at 1. rewrite <- app_assoc.
    eexists. reflexivity.
  - exists []. reflexivity.
Qed.

(** The cuts of [waitForDockerImage] on a path [pre/name:tag]. *)
Lemma name_and_tag (u : URL) (pre nm tag : string) :
  pathname u = pre +:+ "/" +:+ nm +:+ ":" +:+ tag ->
  includes_char nm JS.chr_slash = false ->
  includes_char tag JS.chr_slash = false ->
  includes_char tag JS.chr_colon = false ->
  Gcloud.imageName u = nm
  /\ Gcloud.imageTag u = tag
  /\ (nm <> "" -> tag <> "" -> Gcloud.imageName u <> "" /\ Gcloud.imageTag u <> "")
  /\ (pre = "" ->
      host u +:+ "/" +:+ Gcloud.imageName u +:+ ":" +:+ Gcloud.imageTag u
      = host u +:+ pathname u)
  /\ (forall project,
        Gcloud.manifest_url u project
        = "https://" +:+ host u +:+ "/v2/" +:+ project +:+ "/" +:+ nm
            +:+ "/manifests/" +:+ tag).
Proof.
  intros Hp Hnm Htag Hcolon.
  assert (Hslash : JS.lastIndexOf (pathname u) JS.chr_slash = JS.len pre).
  { rewrite Hp. apply (lastIndexOf_last JS.chr_slash pre (nm +:+ ":" +:+ tag)).
    rewrite !includes_char_app, Hnm. simpl. exact Htag. }
  assert (Hcol : JS.lastIndexOf (pathname u) JS.chr_colon = JS.len (pre +:+ "/" +:+ nm)).
  { rewrite Hp.
    replace (pre +:+ "/" +:+ nm +:+ ":" +:+ tag)
      with ((pre +:+ "/" +:+ nm) +:+ String JS.chr_colon tag)
      by (rewrite !append_assoc; reflexivity).
    apply lastIndexOf_last. exact Hcolon. }
  assert (Hname : Gcloud.imageName u = nm).
  { unfold Gcloud.imageName. rewrite Hslash, Hcol, Hp.
    replace (pre +:+ "/" +:+ nm +:+ ":" +:+ tag)
      with ((pre +:+ "/") +:+ nm +:+ (":" +:+ tag))
      by (rewrite !append_assoc; reflexivity).
    replace (JS.len pre + 1) with (JS.len (pre +:+ "/"))
      by (unfold JS.len; rewrite length_append; simpl; lia).
    replace (JS.len (pre +:+ "/" +:+ nm)) with (JS.len (pre +:+ "/") + JS.len nm)
      by (unfold JS.len; rewrite !length_append; simpl; lia).
    apply substring_middle. }
  assert (Htg : Gcloud.imageTag u = tag).
  { unfold Gcloud.imageTag. rewrite Hcol, Hp.
    replace (pre +:+ "/" +:+ nm +:+ ":" +:+ tag)
      with ((pre +:+ "/" +:+ nm +:+ ":") +:+ tag)
      by (rewrite !append_assoc; reflexivity).
    replace (JS.len (pre +:+ "/" +:+ nm) + 1) with (JS.len (pre +:+ "/" +:+ nm +:+ ":"))
      by (unfold JS.len; rewrite !length_append; simpl; lia).
    apply substring_from_suffix. }
  split; [exact Hname|]. split; [exact Htg|]. split; [|split].
  - intros Hn Ht. rewrite Hname, Htg. auto.
  - intros ->. rewrite Hname, Htg, Hp. reflexivity.
  - intros project. unfold Gcloud.manifest_url. rewrite Hname, Htg. reflexivity.
Qed.

(** The cuts on a path [pre/name] without a colon: the end index is
    [-1], so [substring] swaps the two and the name is the path up to
    its last slash; the tag is the whole path. *)
Lemma name_and_tag_without_colon (u : URL) (pre nm : string) :
  pathname u = pre +:+ "/" +:+ nm ->
  includes_char nm JS.chr_slash = false ->
  includes_char (pathname u) JS.chr_colon = false ->
  Gcloud.imageName u = pre +:+ "/" /\ Gcloud.imageTag u = pathname u.
Proof.
  intros Hp Hnm Hcolon.
  assert (Hslash : JS.lastIndexOf (pathname u) JS.chr_slash = JS.len pre).
  { rewrite Hp. apply (lastIndexOf_last JS.chr_slash pre nm). exact Hnm. }
  assert (Hcol : JS.lastIndexOf (pathname u) JS.chr_colon = -1).
  { unfold JS.lastIndexOf. apply lastIndexOf_from_absent. exact Hcolon. }
  split.
  - unfold Gcloud.imageName. rewrite Hslash, Hcol, Hp.
    unfold JS.substring, JS.clamp, JS.len. rewrite !length_append. simpl String.length.
    rewrite (Z.min_l (Z.of_nat (String.length pre) + 1)) by lia.
    rewrite (Z.min_l (-1)) by lia.
    rewrite (Z.max_r 0 (Z.of_nat (String.length pre) + 1)) by lia.
    rewrite (Z.max_l 0 (-1)) by lia.
    rewrite Z.min_r, Z.max_l by lia.
    replace (Z.to_nat (Z.of_nat (String.length pre) + 1 - 0))
      with (String.length (pre +:+ "/")) by (rewrite length_append; simpl; lia).
    change (Z.to_nat 0) with 0%nat.
    rewrite <- append_assoc. apply substring_take.
  - unfold Gcloud.imageTag. rewrite Hcol.
    change (-1 + 1) with (JS.len ""). apply (substring_from_suffix "" (pathname u)).
Qed.

(** C9 (amended). Take a reference [host pre/name:tag] that [URL]
    parses as it is written: the host is [host] and the path is
    [pre/name:tag], with no slash in [name] and neither slash nor colon
    in [tag]. Then [waitForDockerImage] asks the registry for
    [https://host/v2/project/name/manifests/tag], with the project of
    the credentials: it keeps the host, the last segment of the path
    and the tag, and drops what stands before the last slash, so host,
    name and tag give the reference back exactly when there is nothing
    there. Nothing checks the fields. A reference without a tag is cut
    as well, into the path up to its last slash and the whole path, and
    whatever [URL] returns is cut and asked for. The one error a
    reference can meet is the one [URL] throws, which ends the wait
    before any request. *)
Theorem image_reference_fields (P : Platform) (fuel : nat) (image key : string) (w : World)
    (p h pre nm tag : string) :
  authenticated P key w p ->
  JS.lt (JS.of_Z 0) (Gcloud.maxAttempts P) = true ->
  includes_char nm JS.chr_slash = false ->
  let run := Gcloud.waitForDockerImage P (S fuel) image key w in
  let asks url := asks_first run (signed_in P key w) (EvAuthRequest url "HEAD") in
  (image = h +:+ pre +:+ "/" +:+ nm +:+ ":" +:+ tag ->
   new_URL P ("https://" +:+ image)
   = Ok {| host := h; pathname := pre +:+ "/" +:+ nm +:+ ":" +:+ tag |} ->
   includes_char tag JS.chr_slash = false ->
   includes_char tag JS.chr_colon = false ->
   asks ("https://" +:+ h +:+ "/v2/" +:+ p +:+ "/" +:+ nm +:+ "/manifests/" +:+ tag)
   /\ (h +:+ "/" +:+ nm +:+ ":" +:+ tag = image <-> pre = ""))
  /\ (image = h +:+ pre +:+ "/" +:+ nm ->
      new_URL P ("https://" +:+ image) = Ok {| host := h; pathname := pre +:+ "/" +:+ nm |} ->
      includes_char (pre +:+ "/" +:+ nm) JS.chr_colon = false ->
      asks ("https://" +:+ h +:+ "/v2/" +:+ p +:+ "/" +:+ (pre +:+ "/")
              +:+ "/manifests/" +:+ (pre +:+ "/" +:+ nm)))
  /\ (forall u, new_URL P ("https://" +:+ image) = Ok u ->
      asks ("https://" +:+ host u +:+ "/v2/" +:+ p +:+ "/"
              +:+ JS.substring (pathname u)
                    (JS.lastIndexOf (pathname u) JS.chr_slash + 1)
                    (JS.lastIndexOf (pathname u) JS.chr_colon)
              +:+ "/manifests/"
              +:+ JS.substring (pathname u)
                    (JS.lastIndexOf (pathname u) JS.chr_colon + 1)
                    (JS.len (pathname u))))
  /\ (forall e, new_URL P ("https://" +:+ image) = Fail e ->
      run = (Throw e, signed_in P key w)).
Proof.
  intros Ha Hlt Hnm run asks.
  assert (Hany : forall u, new_URL P ("https://" +:+ image) = Ok u ->
                           asks (Gcloud.manifest_url u p)).
  { intros u Hu. unfold asks, asks_first, run, trace_of.
    rewrite (waitForDockerImage_signed_in P (S fuel) image key w p u Ha Hu).
    apply loop_asks. exact Hlt. }
  split; [|split; [|split]].
  - intros Hi Hu Htag Hcolon. split.
    + specialize (Hany _ Hu).
      destruct (name_and_tag {| host := h; pathname := pre +:+ "/" +:+ nm +:+ ":" +:+ tag |}
                  pre nm tag eq_refl Hnm Htag Hcolon) as (_ & _ & _ & _ & Hm).
      rewrite (Hm p) in Hany. exact Hany.
    + split.
      * intros Heq. rewrite Hi in Heq. apply (f_equal String.length) in Heq.
        rewrite !length_append in Heq. destruct pre; [reflexivity|].
        simpl in Heq. lia.
      * intros ->. rewrite Hi, append_nil. reflexivity.
  - intros Hi Hu Hcolon. specialize (Hany _ Hu).
    destruct (name_and_tag_without_colon {| host := h; pathname := pre +:+ "/" +:+ nm |}
                pre nm eq_refl Hnm Hcolon) as (Hn & Ht).
    unfold Gcloud.manifest_url in Hany. rewrite Hn, Ht in Hany. exact Hany.
  - intros u Hu. exact (Hany u Hu).
  - intros e He. unfold run, Gcloud.waitForDockerImage.
    rewrite (sign_in P key p _ w Ha), He. reflexivity.
Qed.

Lemma image_reference_fields_witness :
  asks_first (Gcloud.waitForDockerImage Example.late_image 1 "gcr.io/x:v1" "{}" empty_World)
    (signed_in Example.late_image "{}" empty_World)
    (EvAuthRequest "https://gcr.io/v2/p/x/manifests/v1" "HEAD").
Proof.
  destruct (image_reference_fields Example.late_image 0 "gcr.io/x:v1" "{}" empty_World
              "p" "gcr.io" "" "x" "v1")
    as (H & _); [split; reflexivity | reflexivity | reflexivity |].
  exact (proj1 (H eq_refl eq_refl eq_refl eq_refl)).
Defined.

(** C9, as stated, fails. The reference [gcr.io/team/x:v1] loses its
    middle segment: the registry is asked for the manifest of [x] at
    [v1] under the project of the credentials, and host, name and tag
    give [gcr.io/x:v1]. And nothing is refused: a reference with an
    empty tag or with no tag at all is cut into fields, one of them
    empty or made of a slash, and the registry is asked for them. *)
Lemma image_reference_lossy :
  Example.plain_URL "https://gcr.io/team/x:v1"
  = Ok {| host := "gcr.io"; pathname := "/team/x:v1" |}
  /\ trace_of (Gcloud.waitForDockerImage Example.late_image 1 "gcr.io/team/x:v1" "{}"
                 empty_World)
     = [ EvWriteFile "/tmp/8f3a2c1d" "{}";
         EvExportVariable "GOOGLE_APPLICATION_CREDENTIALS" "/tmp/8f3a2c1d";
         EvGetClient (Some "{}"); EvGetProjectId (Some "{}");
         EvAuthRequest "https://gcr.io/v2/p/x/manifests/v1" "HEAD";
         EvDelay (JS.of_Z 5000) ]
  /\ (let u := {| host := "gcr.io"; pathname := "/team/x:v1" |} in
      host u +:+ "/" +:+ Gcloud.imageName u +:+ ":" +:+ Gcloud.imageTag u) = "gcr.io/x:v1"
  /\ Gcloud.imageTag {| host := "gcr.io"; pathname := "/x:" |} = ""
  /\ Gcloud.imageName {| host := "gcr.io"; pathname := "/x" |} = "/"
  /\ trace_of (Gcloud.waitForDockerImage Example.late_image 1 "gcr.io/x" "{}" empty_World)
     = [ EvWriteFile "/tmp/8f3a2c1d" "{}";
         EvExportVariable "GOOGLE_APPLICATION_CREDENTIALS" "/tmp/8f3a2c1d";
         EvGetClient (Some "{}"); EvGetProjectId (Some "{}");
         EvAuthRequest "https://gcr.io/v2/p///manifests//x" "HEAD";
         EvDelay (JS.of_Z 5000) ].
Proof. repeat split; vm_compute; reflexivity. Qed.

(** ** The credentials file *)

(** What the google client finds after the credentials step, when no
    file was configured before: the input as it is. *)
Lemma credentials_seen_provisioned (P : Platform) (key : string) (w : World) :
  JS.truthy_opt (penv w !! Gcloud.GOOGLE_APPLICATION_CREDENTIALS) = false ->
  writeFile_succeeds P (count is_WriteFile (trace w)) = true ->
  Gcloud.credentials_seen (provisioned P key w) = Some key.
Proof.
  intros He Hw. unfold provisioned, Gcloud.setGoogleApplicationCredentials.
  rewrite He. simpl. unfold Gcloud.credentials_seen. simpl.
  rewrite Hw, lookup_insert_eq. simpl. rewrite lookup_insert_eq. reflexivity.
Qed.

(** C8. When the secret is the path of a key file, and no credentials
    file is configured yet, [setGoogleApplicationCredentials] writes the
    path itself to the temporary file: the google client finds the
    path where it expects key material, never the contents of the key
    file. The image inspection, given the same input, does look for
    the file and reads it. *)
Theorem setGoogleApplicationCredentials_writes_the_path (P : Platform) (w : World)
    (path contents : string) :
  JS.truthy_opt (penv w !! Gcloud.GOOGLE_APPLICATION_CREDENTIALS) = false ->
  writeFile_succeeds P (count is_WriteFile (trace w)) = true ->
  fs w !! path = Some contents ->
  Gcloud.credentials_seen (provisioned P path w) = Some path
  /\ trace (provisioned P path w)
     = (trace w ++
        [ EvWriteFile (uniqueFilename P (count is_WriteFile (trace w))) path;
          EvExportVariable Gcloud.GOOGLE_APPLICATION_CREDENTIALS
            (uniqueFilename P (count is_WriteFile (trace w))) ])%list
  /\ Docker.serviceAccountKeyContents path w = (Ret contents, w).
Proof.
  intros He Hw Hf. split; [|split].
  - apply credentials_seen_provisioned; assumption.
  - unfold provisioned, Gcloud.setGoogleApplicationCredentials. rewrite He. simpl.
    rewrite <- app_assoc. reflexivity.
  - unfold Docker.serviceAccountKeyContents. rewrite Hf. reflexivity.
Qed.

Lemma setGoogleApplicationCredentials_writes_the_path_witness :
  Gcloud.credentials_seen
    (provisioned Example.absent "/secrets/key.json" Example.key_on_disk)
  = Some "/secrets/key.json"
  /\ Docker.serviceAccountKeyContents "/secrets/key.json" Example.key_on_disk
     = (Ret "{type: service_account, project_id: p}", Example.key_on_disk).
Proof.
  destruct (setGoogleApplicationCredentials_writes_the_path Example.absent
              Example.key_on_disk "/secrets/key.json"
              "{type: service_account, project_id: p}")
    as (Hseen & _ & Hread); [reflexivity | reflexivity | reflexivity |].
  split; [exact Hseen | exact Hread].
Defined.

(** ** What each path of [main] can call *)

Section Paths.
Context (P : Platform) (Q : Event -> Prop).

Lemma emits_setGoogleApplicationCredentials (key : string) :
  (forall a b, Q (EvWriteFile a b)) ->
  (forall a b, Q (EvExportVariable a b)) ->
  emits Q (Gcloud.setGoogleApplicationCredentials P key).
Proof.
  intros Hw He w. rewrite setGoogleApplicationCredentials_returns.
  destruct (provisioned_trace P key w) as (evs & Ht & Hevs).
  exists evs. split; [exact Ht|].
  eapply Forall_impl; [exact Hevs|].
  intros [] H; simpl in H; try contradiction; auto.
Qed.

Lemma emits_getClient : (forall c, Q (EvGetClient c)) -> emits Q (Gcloud.getClient P).
Proof. intros H w. eexists. split; [reflexivity|]. auto. Qed.

Lemma emits_getProjectId : (forall c, Q (EvGetProjectId c)) -> emits Q (Gcloud.getProjectId P).
Proof. intros H w. eexists. split; [reflexivity|]. auto. Qed.

Lemma emits_getInput_required (name : string) : emits Q (Core.getInput_required P name).
Proof. unfold Core.getInput_required. emits_auto. Qed.

Lemma emits_serviceAccountKeyContents (key : string) :
  emits Q (Docker.serviceAccountKeyContents key).
Proof.
  intros w. exists []. unfold Docker.serviceAccountKeyContents.
  destruct (fs w !! key); [|destruct (unreadable w !! key)];
    simpl; rewrite app_nil_r; auto.
Qed.

Lemma emits_waitForDockerImage_loop (url : string) (fuel : nat) (attempt : Z) :
  (forall a b, Q (EvAuthRequest a b)) ->
  (forall ms, Q (EvDelay ms)) ->
  emits Q (Gcloud.waitForDockerImage_loop P url fuel attempt).
Proof.
  intros Hr Hd. revert attempt.
  induction fuel as [|fuel IH]; intros attempt; rewrite loop_unfold;
    unfold Gcloud.delay; emits_auto.
Qed.

Lemma emits_waitForDockerImage (fuel : nat) (image key : string) :
  (forall a b, Q (EvWriteFile a b)) ->
  (forall a b, Q (EvExportVariable a b)) ->
  (forall c, Q (EvGetClient c)) ->
  (forall c, Q (EvGetProjectId c)) ->
  (forall a b, Q (EvAuthRequest a b)) ->
  (forall ms, Q (EvDelay ms)) ->
  emits Q (Gcloud.waitForDockerImage P fuel image key).
Proof.
  intros. unfold Gcloud.waitForDockerImage.
  apply emits_bind; [apply emits_setGoogleApplicationCredentials; auto|intros _].
  apply emits_bind; [apply emits_getClient; auto|intros _].
  apply emits_bind; [apply emits_getProjectId; auto|intros p].
  destruct (new_URL P _); [apply emits_waitForDockerImage_loop; auto | apply emits_throw].
Qed.

Lemma emits_getEnvVarsFromImage (name : string) :
  (forall a b, Q (EvDockerPull a b)) ->
  (forall a, Q (EvDockerInspect a)) ->
  (forall f, Q (EvSetFailed f)) ->
  emits Q (Docker.getEnvVarsFromImage P name).
Proof.
  intros. unfold Docker.getEnvVarsFromImage.
  apply emits_bind; [apply emits_getInput_required|intros key].
  destruct (new_URL P _); [|apply emits_throw].
  apply emits_bind; [apply emits_serviceAccountKeyContents|intros contents].
  unfold Core.setFailed. emits_auto.
Qed.

Lemma emits_probe_and_mutate (this : Gcloud.ServiceConfiguration) :
  (forall a b, Q (EvServicesGet a b)) ->
  (forall a b c, Q (EvReplaceService a b c)) ->
  (forall a b c, Q (EvServicesCreate a b c)) ->
  emits Q (Gcloud.probe_and_mutate P this).
Proof. intros. unfold Gcloud.probe_and_mutate. emits_auto. Qed.

Lemma emits_createOrUpdate (this : Gcloud.ServiceConfiguration) :
  (forall e, is_ServicesDelete e = false -> Q e) ->
  emits Q (Gcloud.createOrUpdate P this).
Proof.
  intros H. unfold Gcloud.createOrUpdate.
  apply emits_try_catch.
  - apply emits_bind; [apply emits_setGoogleApplicationCredentials; intros; apply H; reflexivity|intros _].
    apply emits_bind; [apply emits_getClient; intros; apply H; reflexivity|intros _].
    apply emits_bind; [apply emits_getProjectId; intros; apply H; reflexivity|intros p].
    apply emits_bind; [apply emits_probe_and_mutate; intros; apply H; reflexivity|intros _].
    apply emits_authorize_and_poll; intros; apply H; reflexivity.
  - intros e. apply emits_report_and_rethrow. intros; apply H; reflexivity.
Qed.

Lemma emits_delete (this : Gcloud.ServiceConfiguration) :
  (forall e, deploys e = false -> Q e) ->
  emits Q (Gcloud.delete P this).
Proof.
  intros H. unfold Gcloud.delete.
  apply emits_try_catch.
  - apply emits_bind; [apply emits_setGoogleApplicationCredentials; intros; apply H; reflexivity|intros _].
    apply emits_bind; [apply emits_getClient; intros; apply H; reflexivity|intros _].
    apply emits_bind; [apply emits_getProjectId; intros; apply H; reflexivity|intros p].
    unfold Core.info. emits_auto; apply H; reflexivity.
  - intros e. apply emits_report_and_rethrow. intros; apply H; reflexivity.
Qed.

Lemma emits_create (fuel : nat) :
  (forall e, is_ServicesDelete e = false -> Q e) ->
  emits Q (Main.create P fuel).
Proof.
  intros H. unfold Main.create.
  repeat (apply emits_bind; [apply emits_getInput_required|intros ?]).
  apply emits_bind; [apply emits_emit; apply H; reflexivity|intros _].
  unfold Main.addPullRequestComment, Main.updatePullRequestComment,
    Main.getContainerConfiguration.
  apply emits_bind; [apply emits_call; apply H; reflexivity|intros comment_id].
  apply emits_bind; [apply emits_call; apply H; reflexivity|intros _].
  apply emits_bind;
    [apply emits_waitForDockerImage; intros; apply H; reflexivity|intros found].
  destruct found; simpl.
  - apply emits_bind; [apply emits_call; apply H; reflexivity|intros _].
    apply emits_bind;
      [apply emits_getEnvVarsFromImage; intros; apply H; reflexivity|intros cfg].
    apply emits_bind; [apply emits_call; apply H; reflexivity|intros _].
    apply emits_bind; [apply emits_call; apply H; reflexivity|intros cfg'].
    apply emits_bind; [apply emits_call; apply H; reflexivity|intros _].
    unfold Main.deploy, Main.report_failure, Main.updatePullRequestComment.
    apply emits_bind.
    + apply emits_try_catch; [|intros e; apply emits_ret].
      apply emits_bind; [apply emits_createOrUpdate; exact H|intros d; apply emits_ret].
    + intros [e|d].
      * apply emits_bind; [apply emits_call; apply H; reflexivity|intros _].
        apply emits_throw.
      * apply emits_try_catch; [apply emits_call; apply H; reflexivity|].
        intros e. apply emits_bind; [apply emits_call; apply H; reflexivity|intros _].
        apply emits_throw.
  - apply emits_bind; [apply emits_call; apply H; reflexivity|intros _].
    apply emits_emit. apply H. reflexivity.
Qed.

Lemma emits_destroy :
  (forall e, deploys e = false -> Q e) ->
  emits Q (Main.destroy P).
Proof.
  intros H. unfold Main.destroy.
  apply emits_try_catch.
  - repeat (apply emits_bind; [apply emits_getInput_required|intros ?]).
    apply emits_bind; [apply emits_emit; apply H; reflexivity|intros _].
    unfold Main.addPullRequestComment.
    apply emits_bind; [apply emits_call; apply H; reflexivity|intros comment_id].
    apply emits_try_catch.
    + apply emits_bind; [apply emits_delete; exact H|intros _].
      apply emits_emit. apply H. reflexivity.
    + intros e. apply emits_bind; [apply emits_emit; apply H; reflexivity|intros _].
      apply emits_throw.
  - intros e. apply emits_emit. apply H. reflexivity.
Qed.

End Paths.

(** C10 (amended). [main] reads the [delete_service] input as
    [core.getInput] gives it, that is without the white space around
    it. It takes the create-or-update path when what is left is the
    string [false], and only then: that run makes no Delete call. So
    [false] with blanks, a tab, a line break or a no-break space around
    it selects that path as well. With any other value, [False], [0],
    [no] and the empty input among them, it takes the delete path,
    which makes no call to the registry and no Get, Replace, Create or
    IAM call on the service. *)
Theorem main_selects_by_the_string_false (P : Platform) (fuel : nat) (w : World) :
  let raw := default "" (INPUT P !! "delete_service") in
  (JS.trim raw = "false" ->
     Main.main P fuel w = try_catch (Main.create P fuel) main_catch w
     /\ count is_ServicesDelete (trace_of (Main.main P fuel w))
        = count is_ServicesDelete (trace w))
  /\ (JS.trim raw <> "false" ->
     Main.main P fuel w = try_catch (Main.destroy P) main_catch w
     /\ count deploys (trace_of (Main.main P fuel w)) = count deploys (trace w))
  /\ Forall (fun v =>
               Main.main (with_input "delete_service" v P) fuel w
               = try_catch (Main.destroy (with_input "delete_service" v P)) main_catch w)
       ["False"; "0"; "no"; ""; "FALSE"; "true"; "fal se"; " "]
  /\ Forall (fun v =>
               Main.main (with_input "delete_service" v P) fuel w
               = try_catch (Main.create (with_input "delete_service" v P) fuel) main_catch w)
       ["false"; " false"; "false "; "  false  ";
        JS.bytes [9] +:+ "false"; "false" +:+ JS.bytes [13; 10];
        JS.bytes [194; 160] +:+ "false";
        JS.bytes [239; 187; 191] +:+ "false" +:+ JS.bytes [226; 128; 168]].
Proof.
  intros raw.
  change (JS.trim raw) with (Core.getInput P "delete_service").
  split; [|split; [|split]].
  - intros Hv. unfold Main.main. rewrite Hv. simpl String.eqb. cbv iota.
    split; [reflexivity|].
    unfold trace_of. apply emits_count.
    apply emits_try_catch; [apply emits_create; auto|].
    intros e. apply emits_emit. reflexivity.
  - intros Hv. unfold Main.main.
    rewrite (proj2 (String.eqb_neq _ _) Hv).
    split; [reflexivity|].
    unfold trace_of. apply emits_count.
    apply emits_try_catch; [apply emits_destroy; auto|].
    intros e. apply emits_emit. reflexivity.
  - repeat constructor; unfold Main.main; rewrite getInput_with_input; reflexivity.
  - repeat constructor; unfold Main.main; rewrite getInput_with_input; reflexivity.
Qed.

Lemma main_selects_by_the_string_false_witness :
  count is_ServicesDelete
    (trace_of (Main.main Example.absent 10 empty_World)) = 0%nat
  /\ count deploys
       (trace_of (Main.main (with_input "delete_service" "False" Example.absent) 10
                    empty_World)) = 0%nat.
Proof.
  split.
  - refine (proj2 (proj1 (main_selects_by_the_string_false Example.absent 10 empty_World) _)).
    reflexivity.
  - refine (proj2 (proj1 (proj2 (main_selects_by_the_string_false
                                   (with_input "delete_service" "False" Example.absent)
                                   10 empty_World)) _)).
    vm_compute. discriminate.
Defined.

(** C10, as stated, fails: the input need not be exactly the string
    [false]. With [ false ], blanks included, [main] takes the
    create-or-update path: the service is created and nothing is
    deleted. *)
Lemma main_trims_the_input :
  Main.main (with_input "delete_service" " false " Example.absent) 10 empty_World
  = try_catch (Main.create (with_input "delete_service" " false " Example.absent) 10)
      main_catch empty_World
  /\ count is_ServicesCreate
       (trace_of (Main.main (with_input "delete_service" " false " Example.absent) 10
                    empty_World)) = 1%nat
  /\ count is_ServicesDelete
       (trace_of (Main.main (with_input "delete_service" " false " Example.absent) 10
                    empty_World)) = 0%nat.
Proof. repeat split; vm_compute; reflexivity. Qed.

(** ** Two runs of [main], and a wait that does not end *)

(** With the defaults and a service that does not exist yet, [main]
    waits for the image, creates the service and reports; with
    [delete_service] set to [true] it deletes it. *)
Lemma main_examples :
  result (Main.main Example.absent 10 empty_World) = Ret tt
  /\ count is_ServicesCreate (trace_of (Main.main Example.absent 10 empty_World)) = 1%nat
  /\ count is_ServicesDelete
       (trace_of (Main.main (with_input "delete_service" "true" Example.absent) 10
                    empty_World)) = 1%nat.
Proof. repeat split; vm_compute; reflexivity. Qed.

(** With a zero interval and a positive timeout [maxAttempts] is
    [Infinity]: while the image is not found the loop goes on, whatever
    the fuel. *)
Lemma waitForDockerImage_zero_interval (P : Platform) (image key : string) (w : World)
    (p : string) (u : URL) (t : Z) (fuel : nat) :
  authenticated P key w p ->
  new_URL P ("https://" +:+ image) = Ok u ->
  JS.parseInt (Core.getInput P "image_check_timeout") = JS.of_Z t ->
  JS.parseInt (Core.getInput P "image_check_interval") = JS.of_Z 0 ->
  0 < t ->
  (forall k, not_found (auth_request P (count is_AuthRequest (trace w) + k)) = true) ->
  result (Gcloud.waitForDockerImage P fuel image key w) = OutOfFuel
  /\ count is_AuthRequest (trace_of (Gcloud.waitForDockerImage P fuel image key w))
     = (count is_AuthRequest (trace w) + fuel)%nat.
Proof.
  intros Ha Hu Ht Hi Hpt Hnf.
  assert (Hmax : Gcloud.maxAttempts P = JS.Infinity false).
  { rewrite (maxAttempts_of_Z P t 0 Ht Hi), (of_Z_nonneg t), (of_Z_nonneg 60) by lia.
    unfold JS.mul, JS.div. simpl JS.of_Z. rewrite mag_is_zero_times_60.
    destruct (Z.eqb_spec t 0); [lia|]. reflexivity. }
  assert (Hlt : forall a, 0 <= a -> JS.lt (JS.of_Z a) (Gcloud.maxAttempts P) = true).
  { intros a Ha0. rewrite Hmax, (of_Z_nonneg a Ha0). reflexivity. }
  rewrite (waitForDockerImage_signed_in P fuel image key w p u Ha Hu).
  pose proof (loop_retries P (Gcloud.manifest_url u p) fuel 0 0 (signed_in P key w)) as E.
  rewrite Nat.add_0_r in E. rewrite E.
  - rewrite loop_unfold, Hlt by lia.
    unfold result, trace_of, out_of_fuel. cbn [fst snd].
    rewrite trace_extend, count_app, count_rounds, count_head_check, count_head_signed_in.
    split; [reflexivity | lia].
  - lia.
  - destruct fuel; [left; reflexivity | right; apply Hlt; lia].
  - intros k _. rewrite count_head_signed_in. apply verdict_NotYet. left. apply Hnf.
Qed.

(** * More of the sources *)

(** ** The canonical service name *)

Lemma replace_all_char_free (c d : ascii) (s : string) :
  c <> d -> includes_char (JS.replace_all_char c d s) c = false.
Proof.
  intros Hcd. induction s as [|a s IH]; simpl; [reflexivity|].
  rewrite IH, orb_false_r.
  destruct (Ascii.eqb_spec a c) as [->|Hac].
  - apply Ascii.eqb_neq. congruence.
  - apply Ascii.eqb_neq. exact Hac.
Qed.

Lemma replace_all_char_length (c d : ascii) (s : string) :
  String.length (JS.replace_all_char c d s) = String.length s.
Proof. induction s as [|a s IH]; simpl; [reflexivity | rewrite IH; reflexivity]. Qed.

Lemma replace_all_char_get (c d : ascii) (s : string) (i : nat) :
  String.get i (JS.replace_all_char c d s)
  = (fun a => if Ascii.eqb a c then d else a) <$> String.get i s.
Proof.
  revert i. induction s as [|a s IH]; intros i; simpl; [reflexivity|].
  destruct i; [reflexivity | apply IH].
Qed.

Lemma replace_all_char_absent (c d : ascii) (s : string) :
  includes_char s c = false -> JS.replace_all_char c d s = s.
Proof.
  induction s as [|a s IH]; simpl; [reflexivity|].
  intros H. apply orb_false_iff in H. destruct H as [Ha Hs].
  rewrite Ha, IH by exact Hs. reflexivity.
Qed.

(** X1. The canonical service name has no underscore and the length of
    the name; it has a hyphen where the name has an underscore and the
    character of the name everywhere else; canonising it again changes
    nothing, and a name without underscore is its own canonical name. *)
Theorem serviceName_canonical (this : Gcloud.ServiceConfiguration) :
  includes_char (Gcloud.serviceName this) JS.chr_underscore = false
  /\ String.length (Gcloud.serviceName this) = String.length (Gcloud.name this)
  /\ (forall i, String.get i (Gcloud.serviceName this)
                = (fun a => if Ascii.eqb a JS.chr_underscore then JS.chr_hyphen else a)
                    <$> String.get i (Gcloud.name this))
  /\ JS.replace_all_char JS.chr_underscore JS.chr_hyphen (Gcloud.serviceName this)
     = Gcloud.serviceName this
  /\ (includes_char (Gcloud.name this) JS.chr_underscore = false ->
      Gcloud.serviceName this = Gcloud.name this).
Proof.
  unfold Gcloud.serviceName.
  assert (Hne : JS.chr_underscore <> JS.chr_hyphen) by discriminate.
  split; [apply replace_all_char_free; exact Hne|].
  split; [apply replace_all_char_length|].
  split; [intros i; apply replace_all_char_get|].
  split; [|apply replace_all_char_absent].
  apply replace_all_char_absent, replace_all_char_free. exact Hne.
Qed.

Lemma serviceName_canonical_witness :
  Gcloud.serviceName
    (Gcloud.new_ServiceConfiguration "my-svc" "europe-west1" "{}" None None None None)
  = "my-svc".
Proof.
  refine (proj2 (proj2 (proj2 (proj2 (serviceName_canonical
            (Gcloud.new_ServiceConfiguration "my-svc" "europe-west1" "{}"
               None None None None))))) _).
  reflexivity.
Defined.

(** ** The variables of the process meant for the service *)

Lemma replace_first_prefix (s pat : string) :
  String.prefix pat s = true ->
  JS.replace_first s pat ""
  = String.substring (String.length pat) (String.length s - String.length pat) s.
Proof.
  intros H. unfold JS.replace_first. simpl. rewrite H. reflexivity.
Qed.

Lemma prefix_split (p s : string) :
  String.prefix p s = true ->
  p +:+ String.substring (String.length p) (String.length s - String.length p) s = s.
Proof.
  revert s. induction p as [|a p IH]; intros s H.
  - simpl. rewrite Nat.sub_0_r. apply substring_all.
  - destruct s as [|b s]; simpl in H; [discriminate|].
    destruct (Ascii.ascii_dec a b) as [->|]; [|discriminate].
    rewrite append_cons. simpl. rewrite IH by exact H. reflexivity.
Qed.

Lemma getCloudRunEnvironmentVariables_acc (env : list (string * string)) (acc : list EnvVar) :
  fold_left
    (fun entries kv =>
       if String.prefix Gcloud.CLOUDRUN_ACTION_ (fst kv)
       then (entries ++ [ {| ev_name := JS.replace_first (fst kv) Gcloud.CLOUDRUN_ACTION_ "";
                             ev_value := Some (snd kv) |} ])%list
       else entries)
    env acc
  = (acc ++ map (fun kv => {| ev_name := JS.replace_first (fst kv) Gcloud.CLOUDRUN_ACTION_ "";
                              ev_value := Some (snd kv) |})
              (List.filter (fun kv => String.prefix Gcloud.CLOUDRUN_ACTION_ (fst kv)) env))%list.
Proof.
  revert acc. induction env as [|kv env IH]; intros acc; simpl.
  - rewrite app_nil_r. reflexivity.
  - rewrite IH. destruct (String.prefix Gcloud.CLOUDRUN_ACTION_ (fst kv)); simpl.
    + rewrite <- app_assoc. reflexivity.
    + reflexivity.
Qed.

(** X2. [getCloudRunEnvironmentVariables] returns one entry for each
    variable of the process whose name starts with [CLOUDRUN_ACTION_],
    in the order of the process environment and with its value
    unchanged, and no other entry; the name of an entry is the name of
    the variable without that prefix: putting the prefix back gives the
    variables again. *)
Theorem getCloudRunEnvironmentVariables_round_trip (env : list (string * string)) :
  map (fun e => (Gcloud.CLOUDRUN_ACTION_ +:+ ev_name e, ev_value e))
    (Gcloud.getCloudRunEnvironmentVariables env)
  = map (fun kv => (fst kv, Some (snd kv)))
      (List.filter (fun kv => String.prefix Gcloud.CLOUDRUN_ACTION_ (fst kv)) env).
Proof.
  unfold Gcloud.getCloudRunEnvironmentVariables.
  rewrite getCloudRunEnvironmentVariables_acc. simpl app.
  induction env as [|kv env IH]; [reflexivity|].
  simpl List.filter.
  destruct (String.prefix Gcloud.CLOUDRUN_ACTION_ (fst kv)) eqn:Hp; [|exact IH].
  simpl map. rewrite IH. f_equal. f_equal.
  rewrite replace_first_prefix by exact Hp. apply prefix_split. exact Hp.
Qed.

(** ** Reading [NAME=value] *)

Lemma append_nil_r (s : string) : s +:+ "" = s.
Proof.
  induction s as [|a s IH]; [reflexivity|].
  rewrite append_cons, IH. reflexivity.
Qed.

Lemma rev_app_rev_app (k a b : string) :
  String.rev_app (String.rev_app k a) b = String.rev_app a (k +:+ b).
Proof.
  revert a b. induction k as [|x k IH]; intros a b; [reflexivity|].
  simpl String.rev_app. rewrite IH, append_cons. reflexivity.
Qed.

Lemma rev_rev_app (k : string) : String.rev (String.rev_app k "") = k.
Proof.
  unfold String.rev. rewrite rev_app_rev_app. simpl. apply append_nil_r.
Qed.

(** Characters that are not the separator gather in the current part. *)
Lemma split_acc_skip (c : ascii) (k rest cur : string) :
  includes_char k c = false ->
  JS.split_acc c (k +:+ rest) cur = JS.split_acc c rest (String.rev_app k cur).
Proof.
  revert cur. induction k as [|x k IH]; intros cur H; [reflexivity|].
  simpl in H. apply orb_false_iff in H. destruct H as [Hx Hk].
  rewrite append_cons. simpl. rewrite Hx. apply IH. exact Hk.
Qed.

Lemma split_first (c : ascii) (k rest : string) :
  includes_char k c = false ->
  JS.split (k +:+ String c rest) c = k :: JS.split rest c.
Proof.
  intros H. unfold JS.split. rewrite split_acc_skip by exact H.
  simpl. rewrite Ascii.eqb_refl, rev_rev_app. reflexivity.
Qed.

Lemma split_last (c : ascii) (k : string) :
  includes_char k c = false -> JS.split k c = [k].
Proof.
  intros H. unfold JS.split.
  rewrite <- (append_nil_r k) at 1. rewrite split_acc_skip by exact H.
  simpl. rewrite rev_rev_app. reflexivity.
Qed.

(** X3. An entry [NAME=value] of the image environment is read as the
    name [NAME] and the value [value]; when the value itself holds an
    equals sign, only its part before that sign is kept; an entry
    without equals sign has an undefined value. *)
Theorem env_entry_reads (k v tail : string) :
  includes_char k JS.chr_equals = false ->
  includes_char v JS.chr_equals = false ->
  Docker.env_entry (k +:+ "=" +:+ v) = {| ev_name := k; ev_value := Some v |}
  /\ Docker.env_entry (k +:+ "=" +:+ v +:+ "=" +:+ tail)
     = {| ev_name := k; ev_value := Some v |}
  /\ Docker.env_entry k = {| ev_name := k; ev_value := None |}.
Proof.
  intros Hk Hv. unfold Docker.env_entry. repeat split.
  - change (k +:+ "=" +:+ v) with (k +:+ String JS.chr_equals v).
    rewrite split_first, split_last by assumption. reflexivity.
  - change (k +:+ "=" +:+ v +:+ "=" +:+ tail)
      with (k +:+ String JS.chr_equals (v +:+ String JS.chr_equals tail)).
    rewrite !split_first by assumption. reflexivity.
  - rewrite split_last by assumption. reflexivity.
Qed.

Lemma env_entry_reads_witness :
  Docker.env_entry "JAVA_OPTS=-Xmx1g=fast"
  = {| ev_name := "JAVA_OPTS"; ev_value := Some "-Xmx1g" |}.
Proof.
  refine (proj1 (proj2 (env_entry_reads "JAVA_OPTS" "-Xmx1g" "fast" _ _)));
    reflexivity.
Defined.

(** ** Deleting a service *)

(** X4. Once signed in, [delete] makes one Delete call. When the
    call succeeds it logs the deletion; when the service is not found
    it logs that and returns as well, without failing the step; any
    other error is passed to [core.setFailed] and thrown again. *)
Theorem delete_outcomes (P : Platform) (this : Gcloud.ServiceConfiguration) (w : World)
    (p : string) :
  authenticated P (Gcloud.serviceAccountKey this) w p ->
  let reply := services_delete P (count is_ServicesDelete (trace w)) in
  let request :=
    EvServicesDelete ("namespaces/" +:+ p +:+ "/services/" +:+ Gcloud.serviceName this)
      (Gcloud.rootUrl this) in
  let w0 := signed_in P (Gcloud.serviceAccountKey this) w in
  (reply = Ok tt ->
     Gcloud.delete P this w
     = (Ret tt,
        extend [request; EvInfo ("Service " +:+ Gcloud.serviceName this +:+ " deleted")] w0))
  /\ (not_found reply = true ->
     Gcloud.delete P this w
     = (Ret tt,
        extend [request;
                EvInfo ("Service " +:+ Gcloud.serviceName this
                          +:+ " does not exist, unable to delete")] w0))
  /\ (forall e, reply = Fail e -> not_found reply = false ->
     Gcloud.delete P this w
     = (Throw e, extend [request; EvSetFailed (FailJson e)] w0)).
Proof.
  intros Ha reply request w0.
  assert (Hd : count is_ServicesDelete (trace w0) = count is_ServicesDelete (trace w))
    by (apply count_signed_in; kinds).
  assert (E : Gcloud.delete P this w
              = match reply with
                | Ok _ =>
                    (Ret tt,
                     extend [request;
                             EvInfo ("Service " +:+ Gcloud.serviceName this +:+ " deleted")] w0)
                | Fail e =>
                    if not_found reply
                    then (Ret tt,
                          extend [request;
                                  EvInfo ("Service " +:+ Gcloud.serviceName this
                                            +:+ " does not exist, unable to delete")] w0)
                    else (Throw e, extend [request; EvSetFailed (FailJson e)] w0)
                end).
  { unfold Gcloud.delete. unfold try_catch at 1.
    rewrite (sign_in P _ p _ w Ha). fold w0.
    rewrite try_catch_bind_call, Hd. fold reply request.
    destruct reply as [[]|e] eqn:Er.
    - unfold try_catch, Core.info, emit. rewrite !record_extend, extend_extend. reflexivity.
    - unfold not_found.
      destruct (instanceof_GaxiosError e && bool_decide (response_status e = Some 404)).
      + unfold Core.info, emit. rewrite !record_extend, extend_extend. reflexivity.
      + unfold throw, Gcloud.report_and_rethrow, Core.setFailed.
        rewrite bind_emit. unfold throw. rewrite !record_extend, extend_extend. reflexivity. }
  split; [|split].
  - intros Hr. rewrite E, Hr. reflexivity.
  - intros Hnf. rewrite E. destruct reply; [discriminate Hnf|]. rewrite Hnf. reflexivity.
  - intros e Hr Hnf. rewrite E. rewrite Hr in *. rewrite Hnf. reflexivity.
Qed.

Lemma delete_outcomes_witness :
  result (Gcloud.delete Example.nothing_to_delete Example.service empty_World) = Ret tt
  /\ count is_SetFailed
       (trace_of (Gcloud.delete Example.nothing_to_delete Example.service empty_World)) = 0%nat.
Proof.
  pose proof (proj1 (proj2 (delete_outcomes Example.nothing_to_delete Example.service
                              empty_World "p" (conj eq_refl eq_refl))) eq_refl) as E.
  rewrite E. split; reflexivity.
Defined.

(** ** The credentials file is written once *)

(** X5. When the temporary file has a name, a second call of
    [setGoogleApplicationCredentials] changes nothing, whatever secret
    it is given; a call made when [GOOGLE_APPLICATION_CREDENTIALS] is
    already set changes nothing either; so a run writes the credentials
    file at most once. *)
Theorem setGoogleApplicationCredentials_once (P : Platform) (key key' : string) (w : World) :
  uniqueFilename P (count is_WriteFile (trace w)) <> "" ->
  provisioned P key' (provisioned P key w) = provisioned P key w
  /\ (JS.truthy_opt (penv w !! Gcloud.GOOGLE_APPLICATION_CREDENTIALS) = true ->
      provisioned P key w = w)
  /\ (count is_WriteFile (trace (provisioned P key' (provisioned P key w)))
      <= count is_WriteFile (trace w) + 1)%nat.
Proof.
  intros Hname.
  assert (Hset : JS.truthy_opt (penv w !! Gcloud.GOOGLE_APPLICATION_CREDENTIALS) = true ->
                 forall k, provisioned P k w = w).
  { intros H k. unfold provisioned, Gcloud.setGoogleApplicationCredentials.
    rewrite H. reflexivity. }
  assert (Hagain : provisioned P key' (provisioned P key w) = provisioned P key w).
  { destruct (JS.truthy_opt (penv w !! Gcloud.GOOGLE_APPLICATION_CREDENTIALS)) eqn:He.
    - rewrite !(Hset eq_refl). reflexivity.
    - unfold provisioned at 1. unfold Gcloud.setGoogleApplicationCredentials at 1.
      replace (JS.truthy_opt (penv (provisioned P key w) !! Gcloud.GOOGLE_APPLICATION_CREDENTIALS))
        with true; [reflexivity|].
      unfold provisioned, Gcloud.setGoogleApplicationCredentials. rewrite He. simpl.
      rewrite lookup_insert_eq. simpl. symmetry. apply truthy_nonempty. exact Hname. }
  split; [exact Hagain|]. split; [intros H; apply Hset; exact H|].
  rewrite Hagain.
  unfold provisioned, Gcloud.setGoogleApplicationCredentials.
  destruct (negb _); simpl; rewrite ?count_app; simpl; lia.
Qed.

Lemma setGoogleApplicationCredentials_once_witness :
  provisioned Example.absent "other" (provisioned Example.absent "{}" empty_World)
  = provisioned Example.absent "{}" empty_World.
Proof.
  refine (proj1 (setGoogleApplicationCredentials_once Example.absent "{}" "other"
                   empty_World _)).
  discriminate.
Defined.

(** ** When signing in fails *)

Section SignInFails.
Context (P : Platform) (key : string) (w : World) (e : Exn).

Lemma sign_in_fails_client {B} (k : unit -> M B) :
  auth_getClient P (Gcloud.credentials_seen (provisioned P key w)) = Fail e ->
  (do! Gcloud.setGoogleApplicationCredentials P key in
   let! x := Gcloud.getClient P in
   k x) w
  = (Throw e,
     extend [EvGetClient (Gcloud.credentials_seen (provisioned P key w))]
       (provisioned P key w)).
Proof.
  intros Hc. unfold bind at 1. rewrite setGoogleApplicationCredentials_returns.
  unfold bind, Gcloud.getClient. rewrite Hc. reflexivity.
Qed.

Lemma sign_in_fails_project {B} (k : string -> M B) :
  auth_getClient P (Gcloud.credentials_seen (provisioned P key w)) = Ok tt ->
  auth_getProjectId P (Gcloud.credentials_seen (provisioned P key w)) = Fail e ->
  (do! Gcloud.setGoogleApplicationCredentials P key in
   do! Gcloud.getClient P in
   let! project := Gcloud.getProjectId P in
   k project) w
  = (Throw e,
     extend [EvGetClient (Gcloud.credentials_seen (provisioned P key w));
             EvGetProjectId (Gcloud.credentials_seen (provisioned P key w))]
       (provisioned P key w)).
Proof.
  intros Hc Hp. unfold bind at 1. rewrite setGoogleApplicationCredentials_returns.
  unfold bind at 1, Gcloud.getClient at 1. rewrite Hc. simpl.
  unfold bind at 1, Gcloud.getProjectId at 1. simpl.
  change (Gcloud.credentials_seen (record _ (provisioned P key w)))
    with (Gcloud.credentials_seen (provisioned P key w)).
  rewrite Hp. simpl. rewrite !record_extend, extend_extend. reflexivity.
Qed.

End SignInFails.

(** X6. When the google client cannot be made from the credentials, or
    cannot name the project, [createOrUpdate] and [delete] stop there:
    the error goes to [core.setFailed] and is thrown again, and no call
    reaches the service. *)
Theorem sign_in_failure_is_fatal (P : Platform) (this : Gcloud.ServiceConfiguration)
    (w : World) (e : Exn) :
  let w1 := provisioned P (Gcloud.serviceAccountKey this) w in
  let c := Gcloud.credentials_seen w1 in
  (auth_getClient P c = Fail e ->
     Gcloud.createOrUpdate P this w
     = (Throw e, extend [EvGetClient c; EvSetFailed (FailJson e)] w1)
     /\ Gcloud.delete P this w
        = (Throw e, extend [EvGetClient c; EvSetFailed (FailJson e)] w1))
  /\ (auth_getClient P c = Ok tt -> auth_getProjectId P c = Fail e ->
     Gcloud.createOrUpdate P this w
     = (Throw e, extend [EvGetClient c; EvGetProjectId c; EvSetFailed (FailJson e)] w1)
     /\ Gcloud.delete P this w
        = (Throw e, extend [EvGetClient c; EvGetProjectId c; EvSetFailed (FailJson e)] w1)).
Proof.
  intros w1 c. split.
  - intros Hc. split.
    + unfold Gcloud.createOrUpdate, try_catch.
      rewrite (sign_in_fails_client P _ w e _ Hc).
      unfold Gcloud.report_and_rethrow, Core.setFailed. rewrite bind_emit.
      unfold throw. rewrite record_extend, extend_extend. reflexivity.
    + unfold Gcloud.delete. unfold try_catch at 1.
      rewrite (sign_in_fails_client P _ w e _ Hc).
      unfold Gcloud.report_and_rethrow, Core.setFailed. rewrite bind_emit.
      unfold throw. rewrite record_extend, extend_extend. reflexivity.
  - intros Hc Hp. split.
    + unfold Gcloud.createOrUpdate, try_catch.
      rewrite (sign_in_fails_project P _ w e _ Hc Hp).
      unfold Gcloud.report_and_rethrow, Core.setFailed. rewrite bind_emit.
      unfold throw. rewrite record_extend, extend_extend. reflexivity.
    + unfold Gcloud.delete. unfold try_catch at 1.
      rewrite (sign_in_fails_project P _ w e _ Hc Hp).
      unfold Gcloud.report_and_rethrow, Core.setFailed. rewrite bind_emit.
      unfold throw. rewrite record_extend, extend_extend. reflexivity.
Qed.

Lemma sign_in_failure_is_fatal_witness :
  result (Gcloud.createOrUpdate Example.bad_credentials Example.service empty_World)
  = Throw (JsError "Error" "invalid_grant")
  /\ count deploys
       (trace_of (Gcloud.createOrUpdate Example.bad_credentials Example.service empty_World))
     = 0%nat.
Proof.
  pose proof (proj1 (proj1 (sign_in_failure_is_fatal Example.bad_credentials Example.service
                              empty_World (JsError "Error" "invalid_grant")) eq_refl)) as E.
  rewrite E. split; reflexivity.
Defined.

(** X7. [waitForDockerImage] asks the registry nothing when the google
    client cannot be made, when it cannot name the project, or when the
    image string does not make a URL: it throws that error, with no
    HEAD request and no pause. *)
Theorem waitForDockerImage_fails_before_any_check (P : Platform) (fuel : nat)
    (image key : string) (w : World) (e : Exn) :
  let w1 := provisioned P key w in
  let c := Gcloud.credentials_seen w1 in
  (auth_getClient P c = Fail e ->
     Gcloud.waitForDockerImage P fuel image key w = (Throw e, extend [EvGetClient c] w1))
  /\ (auth_getClient P c = Ok tt -> auth_getProjectId P c = Fail e ->
     Gcloud.waitForDockerImage P fuel image key w
     = (Throw e, extend [EvGetClient c; EvGetProjectId c] w1))
  /\ (forall p, authenticated P key w p -> new_URL P ("https://" +:+ image) = Fail e ->
     Gcloud.waitForDockerImage P fuel image key w
     = (Throw e, extend [EvGetClient c; EvGetProjectId c] w1)).
Proof.
  intros w1 c. split; [|split].
  - intros Hc. unfold Gcloud.waitForDockerImage.
    apply (sign_in_fails_client P key w e _ Hc).
  - intros Hc Hp. unfold Gcloud.waitForDockerImage.
    apply (sign_in_fails_project P key w e _ Hc Hp).
  - intros p Ha Hu. unfold Gcloud.waitForDockerImage.
    rewrite (sign_in P key p _ w Ha), Hu. unfold throw, signed_in.
    rewrite !record_extend, extend_extend. reflexivity.
Qed.

Lemma waitForDockerImage_fails_before_any_check_witness :
  result (Gcloud.waitForDockerImage Example.absent 10 "" "{}" empty_World)
  = Throw (JsError "TypeError" "Invalid URL")
  /\ count is_AuthRequest
       (trace_of (Gcloud.waitForDockerImage Example.absent 10 "" "{}" empty_World)) = 0%nat.
Proof.
  pose proof (proj2 (proj2 (waitForDockerImage_fails_before_any_check Example.absent 10 ""
                              "{}" empty_World (JsError "TypeError" "Invalid URL")))
                "p" (conj eq_refl eq_refl) eq_refl) as E.
  rewrite E. split; reflexivity.
Defined.

(** ** More on create or update *)

(** The inner [try]/[catch] makes one Get call and nothing but Get,
    Replace and Create calls. *)
Lemma mutation_counts (P : Platform) (this : Gcloud.ServiceConfiguration) (w : World)
    (k : Event -> bool) :
  (forall a b c, k (EvReplaceService a b c) = false) ->
  (forall a b c, k (EvServicesCreate a b c) = false) ->
  count k (mutation P this w)
  = if k (EvServicesGet (Gcloud.service_path this) (Gcloud.rootUrl this)) then 1%nat else O.
Proof.
  intros Hr Hc. unfold mutation.
  destruct (services_get P _); destruct (not_found _); simpl;
    rewrite ?Hr, ?Hc; destruct (k (EvServicesGet _ _)); reflexivity.
Qed.

(** X8. When the IAM policy cannot be set, [createOrUpdate] stops
    there: after the probe and the Replace or Create call that
    followed it, if any, the policy call is the last call on the
    service; its error goes to [core.setFailed] and is thrown again,
    and the status is never polled. After a probe that failed with
    another error than "not found" this happens with no service
    created or replaced at all. *)
Theorem createOrUpdate_iam_failure (P : Platform) (this : Gcloud.ServiceConfiguration)
    (w : World) (p : string) (e : Exn) :
  authenticated P (Gcloud.serviceAccountKey this) w p ->
  JS.truthy (Core.getInput P "allow_unauthenticated") = true ->
  services_setIamPolicy P (count is_SetIamPolicy (trace w)) = Fail e ->
  let run := Gcloud.createOrUpdate P this w in
  let w0 := signed_in P (Gcloud.serviceAccountKey this) w in
  let probe := services_get P (count is_ServicesGet (trace w)) in
  let replace := services_replaceService P (count is_ReplaceService (trace w)) in
  let name := "namespaces/" +:+ p +:+ "/services/" +:+ Gcloud.serviceName this in
  let root := "https://" +:+ Gcloud.runRegion this +:+ "-run.googleapis.com" in
  let document := Gcloud.cloudRunCreateService (Gcloud.set_project this p) in
  let policy :=
    EvSetIamPolicy
      ("projects/" +:+ p +:+ "/locations/" +:+ Gcloud.runRegion this
         +:+ "/services/" +:+ Gcloud.serviceName this)
      [ {| members := ["allUsers"]; role := "roles/run.invoker" |} ] in
  let before :=
    match probe with
    | Ok _ =>
        if not_found replace
        then [EvServicesGet name root; EvReplaceService name document root;
              EvServicesCreate ("namespaces/" +:+ p) document root]
        else [EvServicesGet name root; EvReplaceService name document root]
    | Fail _ =>
        if not_found probe
        then [EvServicesGet name root;
              EvServicesCreate ("namespaces/" +:+ p) document root]
        else [EvServicesGet name root]
    end in
  run = (Throw e, extend (before ++ [policy; EvSetFailed (FailJson e)]) w0)
  /\ count is_Delay (trace_of run) = count is_Delay (trace w)
  /\ count is_ServicesGet (trace_of run) = S (count is_ServicesGet (trace w))
  /\ count is_SetFailed (trace_of run) = S (count is_SetFailed (trace w))
  /\ (forall x, probe = Fail x -> not_found probe = false ->
      count is_ReplaceService (trace_of run) = count is_ReplaceService (trace w)
      /\ count is_ServicesCreate (trace_of run) = count is_ServicesCreate (trace w)).
Proof.
  intros Ha Hpub Hiam run w0 probe replace name root document policy before.
  set (this' := Gcloud.set_project this p).
  assert (Hk : forall k, (forall a b, k (EvWriteFile a b) = false) ->
                         (forall a b, k (EvExportVariable a b) = false) ->
                         (forall c, k (EvGetClient c) = false) ->
                         (forall c, k (EvGetProjectId c) = false) ->
                         count k (trace w0) = count k (trace w)).
  { intros k H1 H2 H3 H4. unfold w0. apply (count_signed_in P k _ w H1 H2 H3 H4). }
  assert (Hbefore : mutation P this' w0 = before).
  { unfold mutation, before, probe, replace.
    rewrite !Hk by kinds. reflexivity. }
  assert (Hrun : run = (Throw e, extend (before ++ [policy; EvSetFailed (FailJson e)]) w0)).
  { unfold run. rewrite (createOrUpdate_signed_in P this w p Ha).
    fold this' w0. rewrite Hbefore.
    unfold Gcloud.authorize_and_poll, Gcloud.setCloudRunServiceIAMPolicy.
    rewrite Hpub, try_catch_bind_call.
    assert (Hi : count is_SetIamPolicy (trace (extend before w0))
                 = count is_SetIamPolicy (trace w)).
    { rewrite trace_extend, count_app, Hk by kinds.
      unfold before. destruct probe; destruct (not_found _); simpl; lia. }
    rewrite Hi, Hiam.
    unfold Gcloud.report_and_rethrow, Core.setFailed. rewrite bind_emit.
    unfold throw. rewrite !record_extend, !extend_extend. reflexivity. }
  split; [exact Hrun|].
  rewrite Hrun. unfold trace_of. cbn [snd].
  rewrite !trace_extend, !count_app, !Hk by kinds.
  split; [|split; [|split]];
    try (unfold before; destruct probe; destruct (not_found _); simpl; lia).
  intros x Hx Hnf. unfold before. rewrite Hnf, Hx. simpl. split; lia.
Qed.

Lemma createOrUpdate_iam_failure_witness :
  (result (Gcloud.createOrUpdate Example.iam_denied Example.service empty_World)
   = Throw (GaxiosError "Forbidden" (Some 403))
   /\ count is_Delay
        (trace_of (Gcloud.createOrUpdate Example.iam_denied Example.service empty_World))
      = 0%nat)
  /\ count is_ServicesCreate
       (trace_of (Gcloud.createOrUpdate Example.denied_after_probe_error Example.service
                    empty_World))
     = 0%nat.
Proof.
  split.
  - destruct (createOrUpdate_iam_failure Example.iam_denied Example.service empty_World "p"
                (GaxiosError "Forbidden" (Some 403)))
      as (Hr & Hd & _); [split; reflexivity | reflexivity | reflexivity |].
    split; [rewrite Hr; reflexivity | exact Hd].
  - destruct (createOrUpdate_iam_failure Example.denied_after_probe_error Example.service
                empty_World "p" (GaxiosError "Forbidden" (Some 403)))
      as (_ & _ & _ & _ & Hm); [split; reflexivity | reflexivity | reflexivity |].
    exact (proj2 (Hm Example.server_error eq_refl eq_refl)).
Defined.

Lemma bind_ext {A B} (m : M A) (k k' : A -> M B) (w : World) :
  (forall a w', k a w' = k' a w') -> bind m k w = bind m k' w.
Proof.
  intros H. unfold bind. destruct (m w) as [[a|e|] w1]; [apply H | reflexivity | reflexivity].
Qed.

Lemma try_catch_ext {A} (m m' : M A) (h : Exn -> M A) (w : World) :
  m w = m' w -> try_catch m h w = try_catch m' h w.
Proof. intros H. unfold try_catch. rewrite H. reflexivity. Qed.

(** X9. What [createOrUpdate] returns and calls does not depend on the
    reply to the Create call: an error of that call is dropped. Of the
    reply to the Replace call it only depends on whether it is "not
    found": every other error of that call is dropped as well. *)
Theorem createOrUpdate_drops_mutation_errors (P : Platform)
    (this : Gcloud.ServiceConfiguration) (w : World) :
  (forall create, Gcloud.createOrUpdate (with_create create P) this w
                  = Gcloud.createOrUpdate P this w)
  /\ (forall replace,
        (forall n, not_found (replace n) = not_found (services_replaceService P n)) ->
        Gcloud.createOrUpdate (with_replace replace P) this w
        = Gcloud.createOrUpdate P this w).
Proof.
  split.
  - intros create. unfold Gcloud.createOrUpdate.
    apply try_catch_ext.
    apply bind_ext; intros _ w1. apply bind_ext; intros _ w2.
    apply bind_ext; intros p w3.
    unfold bind. rewrite !probe_and_mutate_spec. reflexivity.
  - intros replace Hnf. unfold Gcloud.createOrUpdate.
    apply try_catch_ext.
    apply bind_ext; intros _ w1. apply bind_ext; intros _ w2.
    apply bind_ext; intros p w3.
    unfold bind. rewrite !probe_and_mutate_spec.
    replace (mutation (with_replace replace P) (Gcloud.set_project this p) w3)
      with (mutation P (Gcloud.set_project this p) w3); [reflexivity|].
    unfold mutation. simpl. rewrite Hnf. reflexivity.
Qed.

Lemma createOrUpdate_drops_mutation_errors_witness :
  Gcloud.createOrUpdate
    (with_replace (Example.always (Fail Example.server_error)) Example.late_image)
    Example.service empty_World
  = Gcloud.createOrUpdate Example.late_image Example.service empty_World.
Proof.
  refine (proj2 (createOrUpdate_drops_mutation_errors Example.late_image Example.service
                   empty_World) _ _).
  intros n. reflexivity.
Defined.

(** ** Failures are reported once *)

Lemma reported_once {A} (body : M A) (w : World) :
  emits (fun ev => is_SetFailed ev = false) body ->
  let run := try_catch body Gcloud.report_and_rethrow w in
  count is_SetFailed (trace_of run)
  = (count is_SetFailed (trace w)
     + match result run with Throw _ => 1 | _ => 0 end)%nat
  /\ (forall e, result run = Throw e ->
        exists t, trace_of run = (t ++ [EvSetFailed (FailJson e)])%list).
Proof.
  intros Hb run. subst run.
  pose proof (emits_count is_SetFailed body w Hb) as Hc.
  unfold try_catch, result, trace_of.
  destruct (body w) as [[a|e|] w1]; simpl in *.
  - split; [lia | discriminate].
  - rewrite count_app, Hc. simpl. split; [lia|].
    intros e' He. injection He as <-. eauto.
  - split; [lia | discriminate].
Qed.

(** X10. [createOrUpdate] and [delete] call [core.setFailed] exactly
    when they throw, once, with the error they throw, as their last
    call; a run that returns has not failed the step. *)
Theorem failures_are_reported_once (P : Platform) (this : Gcloud.ServiceConfiguration)
    (w : World) :
  (let run := Gcloud.createOrUpdate P this w in
   count is_SetFailed (trace_of run)
   = (count is_SetFailed (trace w)
      + match result run with Throw _ => 1 | _ => 0 end)%nat
   /\ (forall e, result run = Throw e ->
         exists t, trace_of run = (t ++ [EvSetFailed (FailJson e)])%list))
  /\ (let run := Gcloud.delete P this w in
      count is_SetFailed (trace_of run)
      = (count is_SetFailed (trace w)
         + match result run with Throw _ => 1 | _ => 0 end)%nat
      /\ (forall e, result run = Throw e ->
            exists t, trace_of run = (t ++ [EvSetFailed (FailJson e)])%list)).
Proof.
  split.
  - unfold Gcloud.createOrUpdate. apply reported_once.
    apply emits_bind; [apply emits_setGoogleApplicationCredentials; kinds|intros _].
    apply emits_bind; [apply emits_getClient; kinds|intros _].
    apply emits_bind; [apply emits_getProjectId; kinds|intros p].
    apply emits_bind; [apply emits_probe_and_mutate; kinds|intros _].
    apply emits_authorize_and_poll; kinds.
  - unfold Gcloud.delete. apply reported_once.
    apply emits_bind; [apply emits_setGoogleApplicationCredentials; kinds|intros _].
    apply emits_bind; [apply emits_getClient; kinds|intros _].
    apply emits_bind; [apply emits_getProjectId; kinds|intros p].
    unfold Core.info. emits_auto.
Qed.

(** ** The readiness poller, whatever the service answers *)

Lemma getStatus_loop_polls (P : Platform) (this : Gcloud.ServiceConfiguration)
    (fuel : nat) (attempt : Z) (w : World) :
  0 <= attempt ->
  let w' := snd (Gcloud.getStatus_loop P this fuel attempt w) in
  (count is_ServicesGet (trace w')
   <= count is_ServicesGet (trace w) + Z.to_nat (100 - attempt))%nat
  /\ (count is_Delay (trace w') + count is_ServicesGet (trace w)
      = count is_ServicesGet (trace w') + count is_Delay (trace w))%nat.
Proof.
  revert attempt w. induction fuel as [|fuel IH]; intros attempt w Ha; simpl.
  - destruct (Z.ltb_spec attempt 100); simpl; lia.
  - destruct (Z.ltb_spec attempt 100) as [Hlt|Hge]; [|simpl; lia].
    unfold Gcloud.delay. rewrite bind_emit, bind_call.
    set (w2 := record (EvServicesGet (Gcloud.service_path this) (Gcloud.rootUrl this))
                 (record (EvDelay (JS.of_Z 500)) w)).
    assert (Hg : count is_ServicesGet (trace w2) = S (count is_ServicesGet (trace w)))
      by (unfold w2; rewrite !count_record; simpl; lia).
    assert (Hd : count is_Delay (trace w2) = S (count is_Delay (trace w)))
      by (unfold w2; rewrite !count_record; simpl; lia).
    clearbody w2.
    destruct (services_get P _) as [st|e]; [|cbn [snd]; lia].
    destruct (conditions st) as [|c0 rest]; [unfold throw; cbn [snd]; lia|].
    destruct (negb _).
    + destruct (JS.truthy_opt _).
      * unfold Core.setOutput. rewrite bind_emit. unfold ret. cbn [snd].
        rewrite !count_record. simpl. lia.
      * unfold throw. cbn [snd]. lia.
    + specialize (IH (attempt + 1) w2 ltac:(lia)). cbv zeta in IH.
      destruct IH as [IH1 IH2]. split; lia.
Qed.

(** X11. Whatever the service answers, [getStatus] ends: it polls at
    least once and at most 100 times, and pauses once before each
    poll. *)
Theorem getStatus_bounded (P : Platform) (this : Gcloud.ServiceConfiguration) (w : World) :
  let run := Gcloud.getStatus P this w in
  result run <> OutOfFuel
  /\ (count is_ServicesGet (trace w) + 1 <= count is_ServicesGet (trace_of run))%nat
  /\ (count is_ServicesGet (trace_of run) <= count is_ServicesGet (trace w) + 100)%nat
  /\ (count is_Delay (trace_of run) - count is_Delay (trace w)
      = count is_ServicesGet (trace_of run) - count is_ServicesGet (trace w))%nat.
Proof.
  intros run. subst run.
  split; [apply getStatus_total|].
  destruct (getStatus_first_poll P this w) as (evs & Ht).
  pose proof (getStatus_loop_polls P this 100 0 w ltac:(lia)) as Hb.
  cbv zeta in Hb. fold (Gcloud.getStatus P this) in Hb. destruct Hb as [Hb1 Hb2].
  unfold trace_of. split; [|split].
  - rewrite Ht, !count_app. simpl. lia.
  - change (Z.to_nat (100 - 0)) with 100%nat in Hb1. exact Hb1.
  - lia.
Qed.

(** X12. When a poll itself fails, [getStatus] throws that error at
    once; when the service reports no condition at all, it throws a
    [TypeError]; in both cases no further poll is made. *)
Theorem getStatus_poll_failure (P : Platform) (this : Gcloud.ServiceConfiguration)
    (w : World) (n : nat) :
  (n < 100)%nat ->
  (forall k, (k < n)%nat ->
     still_unknown (services_get P (count is_ServicesGet (trace w) + k)) = true) ->
  (forall e, services_get P (count is_ServicesGet (trace w) + n) = Fail e ->
     Gcloud.getStatus P this w = (Throw e, extend (rounds (S n) (poll this)) w))
  /\ (forall st, services_get P (count is_ServicesGet (trace w) + n) = Ok st ->
        conditions st = [] ->
        Gcloud.getStatus P this w
        = (Throw (JsError "TypeError" "Cannot read property 'status' of undefined"),
           extend (rounds (S n) (poll this)) w)).
Proof.
  intros Hn Hu.
  assert (Hstep : Gcloud.getStatus P this w
                  = Gcloud.getStatus_loop P this (S (99 - n)) (Z.of_nat n)
                      (extend (rounds n (poll this)) w)).
  { unfold Gcloud.getStatus. replace 100%nat with (n + S (99 - n))%nat by lia.
    rewrite getStatus_loop_unknowns by (try lia; assumption). reflexivity. }
  assert (Hidx : count is_ServicesGet
                   (trace (record (EvDelay (JS.of_Z 500)) (extend (rounds n (poll this)) w)))
                 = (count is_ServicesGet (trace w) + n)%nat).
  { rewrite count_record, trace_extend, count_app, count_rounds, count_get_poll. simpl. lia. }
  split.
  - intros e He. rewrite Hstep. simpl.
    destruct (Z.ltb_spec (Z.of_nat n) 100) as [_|]; [|lia].
    unfold Gcloud.delay. rewrite bind_emit, bind_call, Hidx, He.
    rewrite !record_extend, !extend_extend. do 2 f_equal.
    exact (rounds_snoc n (poll this)).
  - intros st Hst Hc. rewrite Hstep. simpl.
    destruct (Z.ltb_spec (Z.of_nat n) 100) as [_|]; [|lia].
    unfold Gcloud.delay. rewrite bind_emit, bind_call, Hidx, Hst, Hc.
    unfold throw. rewrite !record_extend, !extend_extend. do 2 f_equal.
    exact (rounds_snoc n (poll this)).
Qed.

Lemma getStatus_poll_failure_witness :
  Gcloud.getStatus Example.absent Example.service empty_World
  = (Throw Example.not_found_error, extend (rounds 1 (poll Example.service)) empty_World).
Proof.
  refine (proj1 (getStatus_poll_failure Example.absent Example.service empty_World 0 _ _)
            _ _).
  - lia.
  - intros k Hk. lia.
  - reflexivity.
Defined.

(** ** The shape of a wait for the image *)



(** ** Nothing is deployed before the image is there *)

Lemma emits_bind_ret {A B} (Q : Event -> Prop) (m : M A) (k : A -> M B) :
  emits Q m ->
  (forall a, (exists w, fst (m w) = Ret a) -> emits Q (k a)) ->
  emits Q (bind m k).
Proof.
  intros Hm Hk w. unfold bind.
  destruct (Hm w) as (evs & Ht & Hq).
  destruct (m w) as [[a| e |] w1] eqn:E; simpl in *; eauto.
  assert (Ha : exists w0, fst (m w0) = Ret a) by (exists w; rewrite E; reflexivity).
  destruct (Hk a Ha w1) as (evs' & Ht' & Hq').
  exists (evs ++ evs')%list. split.
  - rewrite Ht', Ht, app_assoc. reflexivity.
  - apply Forall_app; auto.
Qed.

Lemma bind_Ret_inv {A B} (m : M A) (k : A -> M B) (w : World) (b : B) :
  fst (bind m k w) = Ret b ->
  exists a w1, m w = (Ret a, w1) /\ fst (k a w1) = Ret b.
Proof.
  unfold bind. destruct (m w) as [[a|e|] w1]; simpl; try discriminate. eauto.
Qed.

(** A wait only returns [true] after the registry has answered a
    request with success. *)
Lemma waitForDockerImage_true_inv (P : Platform) (fuel : nat) (image key : string)
    (w : World) :
  fst (Gcloud.waitForDockerImage P fuel image key w) = Ret true ->
  exists n, auth_request P n = Ok tt.
Proof.
  unfold Gcloud.waitForDockerImage. intros H.
  apply bind_Ret_inv in H. destruct H as (_ & w1 & _ & H).
  apply bind_Ret_inv in H. destruct H as (_ & w2 & _ & H).
  apply bind_Ret_inv in H. destruct H as (p & w3 & _ & H).
  destruct (new_URL P _) as [u|e]; [|discriminate H].
  destruct (Gcloud.waitForDockerImage_loop P (Gcloud.manifest_url u p) fuel 0 w3)
    as [r w4] eqn:E.
  simpl in H. subst r. apply loop_true_inv in E. destruct E as (n & _ & _ & He).
  exists (count is_AuthRequest (trace w3) + n)%nat.
  unfold verdict in He.
  destruct (auth_request P _) as [[]|x]; [reflexivity|].
  destruct x as [m st| |]; try discriminate.
  destruct (bool_decide _); discriminate.
Qed.

(** X14. When the registry never answers a manifest request with
    success, [create] calls neither the docker daemon nor the service:
    no inspection, no Get, Replace, Create or IAM call, whatever else
    happens; and so does [main] on the create-or-update path. *)
Theorem create_needs_the_image (P : Platform) (fuel : nat) (w : World) :
  (forall n, auth_request P n <> Ok tt) ->
  count after_image (trace_of (Main.create P fuel w)) = count after_image (trace w)
  /\ (Core.getInput P "delete_service" = "false" ->
      count after_image (trace_of (Main.main P fuel w)) = count after_image (trace w)).
Proof.
  intros Hnever.
  assert (Hc : emits (fun ev => after_image ev = false) (Main.create P fuel)).
  { unfold Main.create.
    repeat (apply emits_bind; [apply emits_getInput_required|intros ?]).
    apply emits_bind; [apply emits_emit; reflexivity|intros _].
    unfold Main.addPullRequestComment, Main.updatePullRequestComment.
    apply emits_bind; [apply emits_call; reflexivity|intros comment_id].
    apply emits_bind; [apply emits_call; reflexivity|intros _].
    apply emits_bind_ret; [apply emits_waitForDockerImage; kinds|].
    intros found (w1 & Hw1). destruct found.
    - apply waitForDockerImage_true_inv in Hw1. destruct Hw1 as (n & Hn).
      exfalso. exact (Hnever n Hn).
    - simpl. apply emits_bind; [apply emits_call; reflexivity|intros _].
      apply emits_emit. reflexivity. }
  split.
  - unfold trace_of. apply emits_count. exact Hc.
  - intros Hv. unfold Main.main. rewrite Hv. simpl String.eqb. cbv iota.
    unfold trace_of. apply emits_count.
    apply emits_try_catch; [exact Hc|]. intros e. apply emits_emit. reflexivity.
Qed.

Lemma create_needs_the_image_witness :
  count after_image (trace_of (Main.create (Example.never_there "1" "30") 10 empty_World))
  = 0%nat.
Proof.
  refine (proj1 (create_needs_the_image (Example.never_there "1" "30") 10 empty_World _)).
  intros n. discriminate.
Defined.

(** ** Required inputs *)

Lemma getInput_required_supplied (P : Platform) (name : string) :
  supplied P name = true ->
  Core.getInput_required P name = ret (Core.getInput P name).
Proof. unfold supplied, Core.getInput_required. intros ->. reflexivity. Qed.

Lemma getInput_required_missing (P : Platform) (name : string) :
  supplied P name = false ->
  Core.getInput_required P name = throw (not_supplied name).
Proof. unfold supplied, Core.getInput_required. intros ->. reflexivity. Qed.

Lemma bind_ret_l {A B} (a : A) (k : A -> M B) : bind (ret a) k = k a.
Proof. reflexivity. Qed.

Lemma bind_throw_l {A B} (e : Exn) (k : A -> M B) : bind (throw e) k = throw e.
Proof. reflexivity. Qed.

Ltac read_inputs :=
  repeat match goal with
    | H : supplied _ _ = true |- _ =>
        rewrite (getInput_required_supplied _ _ H), bind_ret_l; clear H
    | H : supplied _ _ = false |- _ =>
        rewrite (getInput_required_missing _ _ H), bind_throw_l; clear H
    end.

(** X15. A run reads its required inputs before anything else, in a
    fixed order: [create] reads name, service_account_key, run_region,
    image and service_account_name, [destroy] the first three. The
    first one that is not supplied ends the run: [create] throws the
    error of that input without a single call, and [main] and [destroy]
    fail the step with it, once, and return. *)
Theorem required_inputs_come_first (P : Platform) (fuel : nat) (w : World) (r : string) :
  (first_missing P create_inputs = Some r ->
     Main.create P fuel w = (Throw (not_supplied r), w)
     /\ (Core.getInput P "delete_service" = "false" ->
         Main.main P fuel w
         = (Ret tt, extend [EvSetFailed (FailJson (not_supplied r))] w)))
  /\ (first_missing P destroy_inputs = Some r ->
     Main.destroy P w = (Ret tt, extend [EvSetFailed (FailJson (not_supplied r))] w)
     /\ (Core.getInput P "delete_service" <> "false" ->
         Main.main P fuel w
         = (Ret tt, extend [EvSetFailed (FailJson (not_supplied r))] w))).
Proof.
  split; intros Hr.
  - assert (Hc : Main.create P fuel w = (Throw (not_supplied r), w)).
    { unfold first_missing, create_inputs in Hr. cbn [List.find] in Hr. unfold Main.create.
      destruct (supplied P "name") eqn:H1; cbn [negb] in Hr;
        [|injection Hr as <-; read_inputs; reflexivity].
      destruct (supplied P "service_account_key") eqn:H2; cbn [negb] in Hr;
        [|injection Hr as <-; read_inputs; reflexivity].
      destruct (supplied P "run_region") eqn:H3; cbn [negb] in Hr;
        [|injection Hr as <-; read_inputs; reflexivity].
      destruct (supplied P "image") eqn:H4; cbn [negb] in Hr;
        [|injection Hr as <-; read_inputs; reflexivity].
      destruct (supplied P "service_account_name") eqn:H5; cbn [negb] in Hr;
        [discriminate Hr|injection Hr as <-; read_inputs; reflexivity]. }
    split; [exact Hc|].
    intros Hv. unfold Main.main. rewrite Hv. simpl String.eqb. cbv iota.
    unfold try_catch. rewrite Hc. reflexivity.
  - assert (Hd : Main.destroy P w
                 = (Ret tt, extend [EvSetFailed (FailJson (not_supplied r))] w)).
    { unfold first_missing, destroy_inputs in Hr. cbn [List.find] in Hr. unfold Main.destroy.
      destruct (supplied P "name") eqn:H1; cbn [negb] in Hr;
        [|injection Hr as <-; read_inputs; reflexivity].
      destruct (supplied P "service_account_key") eqn:H2; cbn [negb] in Hr;
        [|injection Hr as <-; read_inputs; reflexivity].
      destruct (supplied P "run_region") eqn:H3; cbn [negb] in Hr;
        [discriminate Hr|injection Hr as <-; read_inputs; reflexivity]. }
    split; [exact Hd|].
    intros Hv. unfold Main.main. rewrite (proj2 (String.eqb_neq _ _) Hv).
    unfold try_catch at 1. rewrite Hd. reflexivity.
Qed.

Lemma required_inputs_come_first_witness :
  Main.main Example.no_service_account 10 empty_World
  = (Ret tt,
     extend [EvSetFailed (FailJson (not_supplied "service_account_name"))] empty_World).
Proof.
  exact (proj2 (proj1 (required_inputs_come_first Example.no_service_account 10 empty_World
                         "service_account_name") eq_refl) eq_refl).
Defined.

(** ** Errors of the docker daemon *)

(** X16. With the key supplied and an image that parses,
    [getEnvVarsFromImage] first reads the key: when the key names a
    file, the password is the contents of the file, and when it names
    nothing on the disk, the key itself. When it names something that
    cannot be read as a file, a directory for one, the error of the
    read is thrown, before the [try] block and so before any call to
    the docker daemon. Once the key is read the function does not
    throw. It pulls the image with the user [_json_key] and inspects it
    only when the pull succeeded. A failed pull or inspection is
    dropped: the empty configuration is returned, and the step is
    failed only when the error is a [RequestError]. *)
Theorem getEnvVarsFromImage_drops_errors (P : Platform) (name : string) (w : World)
    (u : URL) :
  supplied P "service_account_key" = true ->
  new_URL P ("https://" +:+ name) = Ok u ->
  let key := Core.getInput P "service_account_key" in
  let auth password := {| da_username := "_json_key";
                          da_password := password;
                          da_serveraddress := host u |} in
  let run := Docker.getEnvVarsFromImage P name w in
  (forall contents, fs w !! key = Some contents ->
     run = (Ret (docker_configuration P), extend (docker_calls P name (auth contents)) w))
  /\ (fs w !! key = None -> unreadable w !! key = None ->
      run = (Ret (docker_configuration P), extend (docker_calls P name (auth key)) w))
  /\ (forall e, fs w !! key = None -> unreadable w !! key = Some e ->
      run = (Throw e, w))
  /\ (docker_pull P = Ok tt -> docker_inspect P = Ok {| Env := None; Labels := None |} ->
      docker_configuration P = new_ContainerConfiguration)
  /\ (forall env, docker_pull P = Ok tt ->
      docker_inspect P = Ok {| Env := Some env; Labels := None |} ->
      docker_configuration P
      = {| envVars := map Docker.env_entry env; arguments := [] |}).
Proof.
  intros Hk Hu key auth run.
  assert (Hrun : run = match Docker.serviceAccountKeyContents key w with
                       | (Ret password, _) =>
                           (Ret (docker_configuration P),
                            extend (docker_calls P name (auth password)) w)
                       | (Throw e, _) => (Throw e, w)
                       | (OutOfFuel, _) => (OutOfFuel, w)
                       end).
  { unfold run, Docker.getEnvVarsFromImage.
    rewrite (getInput_required_supplied _ _ Hk), bind_ret_l, Hu. fold key.
    unfold bind at 1. unfold Docker.serviceAccountKeyContents.
    destruct (fs w !! key) as [contents|]; [|destruct (unreadable w !! key) as [e|]];
      try reflexivity.
    - fold (auth contents). unfold docker_configuration, docker_calls.
      unfold try_catch, bind, call, of_Reply, Core.setFailed, emit, ret. cbn [fst snd].
      destruct (docker_pull P) as [[]|e]; cbn [fst snd];
        [destruct (docker_inspect P) as [config|e]; cbn [fst snd]|];
        try (destruct (instanceof_RequestError e); cbn [fst snd]);
        rewrite !record_extend, ?extend_extend; reflexivity.
    - fold (auth key). unfold docker_configuration, docker_calls.
      unfold try_catch, bind, call, of_Reply, Core.setFailed, emit, ret. cbn [fst snd].
      destruct (docker_pull P) as [[]|e]; cbn [fst snd];
        [destruct (docker_inspect P) as [config|e]; cbn [fst snd]|];
        try (destruct (instanceof_RequestError e); cbn [fst snd]);
        rewrite !record_extend, ?extend_extend; reflexivity. }
  split; [|split; [|split; [|split]]].
  - intros contents Hf. rewrite Hrun. unfold Docker.serviceAccountKeyContents.
    rewrite Hf. reflexivity.
  - intros Hf Hn. rewrite Hrun. unfold Docker.serviceAccountKeyContents.
    rewrite Hf, Hn. reflexivity.
  - intros e Hf Hn. rewrite Hrun. unfold Docker.serviceAccountKeyContents.
    rewrite Hf, Hn. reflexivity.
  - intros Hp Hi. unfold docker_configuration. rewrite Hp, Hi. reflexivity.
  - intros env Hp Hi. unfold docker_configuration. rewrite Hp, Hi. reflexivity.
Qed.

Lemma getEnvVarsFromImage_drops_errors_witness :
  Docker.getEnvVarsFromImage Example.daemon_down "gcr.io/p/x:v1" empty_World
  = (Ret new_ContainerConfiguration,
     extend [EvDockerPull "gcr.io/p/x:v1"
               {| da_username := "_json_key"; da_password := "{}";
                  da_serveraddress := "gcr.io" |};
             EvSetFailed (FailError (RequestError "connect ENOENT /var/run/docker.sock"))]
       empty_World)
  /\ Docker.getEnvVarsFromImage (with_input "service_account_key" "/secrets" Example.absent)
       "gcr.io/p/x:v1" Example.key_is_a_directory
     = (Throw (JsError "Error" "EISDIR: illegal operation on a directory, read"),
        Example.key_is_a_directory).
Proof.
  split.
  - exact (proj1 (proj2 (getEnvVarsFromImage_drops_errors Example.daemon_down "gcr.io/p/x:v1"
                           empty_World {| host := "gcr.io"; pathname := "/p/x:v1" |}
                           eq_refl eq_refl)) eq_refl eq_refl).
  - exact (proj1 (proj2 (proj2 (getEnvVarsFromImage_drops_errors
                                  (with_input "service_account_key" "/secrets" Example.absent)
                                  "gcr.io/p/x:v1" Example.key_is_a_directory
                                  {| host := "gcr.io"; pathname := "/p/x:v1" |}
                                  eq_refl eq_refl)))
             (JsError "Error" "EISDIR: illegal operation on a directory, read")
             eq_refl eq_refl).
Defined.

(** ** The two versions of [docker.ts] *)

(** X17. The older [getEnvVarsFromImage] differs from the current one
    in the credentials. It signs in as [oauth2accesstoken] with the
    [registry_access_token] input, which it does not require, and reads
    no file. For an image that parses, a supplied key and a key that
    can be read (or names nothing on the disk) both return the same
    configuration and fail the step in the same cases. The older one
    runs all the same when the key is missing or names a directory,
    where the current one throws before any call. *)
Theorem getEnvVarsFromImage_versions (P : Platform) (name : string) (w : World) (u : URL) :
  new_URL P ("https://" +:+ name) = Ok u ->
  let key := Core.getInput P "service_account_key" in
  let token := {| da_username := "oauth2accesstoken";
                  da_password := Core.getInput P "registry_access_token";
                  da_serveraddress := host u |} in
  DockerOld.getEnvVarsFromImage P name w
  = (Ret (docker_configuration P), extend (docker_calls P name token) w)
  /\ (supplied P "service_account_key" = true ->
      (fs w !! key = None -> unreadable w !! key = None) ->
      result (Docker.getEnvVarsFromImage P name w)
      = result (DockerOld.getEnvVarsFromImage P name w)
      /\ count is_SetFailed (trace_of (Docker.getEnvVarsFromImage P name w))
         = count is_SetFailed (trace_of (DockerOld.getEnvVarsFromImage P name w)))
  /\ (supplied P "service_account_key" = false ->
      Docker.getEnvVarsFromImage P name w
      = (Throw (not_supplied "service_account_key"), w))
  /\ (forall e, supplied P "service_account_key" = true ->
      fs w !! key = None -> unreadable w !! key = Some e ->
      Docker.getEnvVarsFromImage P name w = (Throw e, w)).
Proof.
  intros Hu key token.
  assert (Hcalls : forall auth k, (forall n a, k (EvDockerPull n a) = false) ->
                     (forall n, k (EvDockerInspect n) = false) ->
                     count k (docker_calls P name auth) = count k (docker_calls P name token)).
  { intros auth k H1 H2. unfold docker_calls.
    destruct (docker_pull P) as [[]|e];
      [destruct (docker_inspect P) as [config|e]|];
      try (destruct (instanceof_RequestError e)); simpl; rewrite ?H1, ?H2; reflexivity. }
  assert (Hold : DockerOld.getEnvVarsFromImage P name w
                 = (Ret (docker_configuration P), extend (docker_calls P name token) w)).
  { unfold DockerOld.getEnvVarsFromImage. rewrite Hu. fold token.
    unfold docker_configuration, docker_calls.
    unfold try_catch, bind, call, of_Reply, Core.setFailed, emit, ret. cbn [fst snd].
    destruct (docker_pull P) as [[]|e]; cbn [fst snd];
      [destruct (docker_inspect P) as [config|e]; cbn [fst snd]|];
      try (destruct (instanceof_RequestError e); cbn [fst snd]);
      rewrite !record_extend, ?extend_extend; reflexivity. }
  assert (Hnew : supplied P "service_account_key" = true ->
                 Docker.getEnvVarsFromImage P name w
                 = match Docker.serviceAccountKeyContents key w with
                   | (Ret password, _) =>
                       (Ret (docker_configuration P),
                        extend (docker_calls P name
                                  {| da_username := "_json_key";
                                     da_password := password;
                                     da_serveraddress := host u |}) w)
                   | (Throw e, _) => (Throw e, w)
                   | (OutOfFuel, _) => (OutOfFuel, w)
                   end).
  { intros Hk. unfold Docker.getEnvVarsFromImage.
    rewrite (getInput_required_supplied _ _ Hk), bind_ret_l, Hu. fold key.
    unfold bind at 1. unfold Docker.serviceAccountKeyContents.
    destruct (fs w !! key) as [contents|]; [|destruct (unreadable w !! key) as [e|]];
      try reflexivity;
      unfold docker_configuration, docker_calls;
      unfold try_catch, bind, call, of_Reply, Core.setFailed, emit, ret; cbn [fst snd];
      (destruct (docker_pull P) as [[]|e]; cbn [fst snd];
        [destruct (docker_inspect P) as [config|e]; cbn [fst snd]|];
        try (destruct (instanceof_RequestError e); cbn [fst snd]);
        rewrite !record_extend, ?extend_extend; reflexivity). }
  split; [exact Hold|]. split; [|split].
  - intros Hk Hread. rewrite Hold, (Hnew Hk).
    unfold Docker.serviceAccountKeyContents.
    destruct (fs w !! key) as [contents|];
      [|rewrite (Hread eq_refl)];
      unfold result, trace_of; cbn [fst snd];
      rewrite !trace_extend, !count_app, (Hcalls _ is_SetFailed) by kinds;
      split; reflexivity.
  - intros Hk. unfold Docker.getEnvVarsFromImage.
    rewrite (getInput_required_missing _ _ Hk), bind_throw_l. reflexivity.
  - intros e Hk Hf Hn. rewrite (Hnew Hk). unfold Docker.serviceAccountKeyContents.
    rewrite Hf, Hn. reflexivity.
Qed.

Lemma getEnvVarsFromImage_versions_witness :
  DockerOld.getEnvVarsFromImage Example.no_labels "gcr.io/p/x:v1" empty_World
  = (Ret {| envVars := [ {| ev_name := "PORT"; ev_value := Some "8080" |} ];
            arguments := [] |},
     extend [EvDockerPull "gcr.io/p/x:v1"
               {| da_username := "oauth2accesstoken"; da_password := "";
                  da_serveraddress := "gcr.io" |};
             EvDockerInspect "gcr.io/p/x:v1"] empty_World)
  /\ result (Docker.getEnvVarsFromImage Example.no_labels "gcr.io/p/x:v1" empty_World)
     = result (DockerOld.getEnvVarsFromImage Example.no_labels "gcr.io/p/x:v1" empty_World).
Proof.
  split.
  - exact (proj1 (getEnvVarsFromImage_versions Example.no_labels "gcr.io/p/x:v1"
                    empty_World {| host := "gcr.io"; pathname := "/p/x:v1" |} eq_refl)).
  - exact (proj1 (proj1 (proj2 (getEnvVarsFromImage_versions Example.no_labels
                                  "gcr.io/p/x:v1" empty_World
                                  {| host := "gcr.io"; pathname := "/p/x:v1" |} eq_refl))
                    eq_refl (fun _ => eq_refl))).
Defined.

(** ** One service, one document *)

Lemma emits_on_service_getStatus_loop (P : Platform) (this : Gcloud.ServiceConfiguration)
    (p : string) (fuel : nat) (attempt : Z) :
  emits (on_service this p) (Gcloud.getStatus_loop P (Gcloud.set_project this p) fuel attempt).
Proof.
  revert attempt. induction fuel as [|fuel IH]; intros attempt; simpl;
    unfold Gcloud.delay, Core.setOutput; emits_auto;
    try (apply emits_emit; simpl; auto);
    try (apply emits_call; simpl; auto).
Qed.

Lemma mutation_on_service (P : Platform) (this : Gcloud.ServiceConfiguration) (p : string)
    (w : World) :
  Forall (on_service this p) (mutation P (Gcloud.set_project this p) w).
Proof.
  unfold mutation.
  destruct (services_get P _); destruct (not_found _);
    repeat constructor.
Qed.

(** X18. Once signed in to project [p], every call [createOrUpdate]
    makes on the service names the same service: the name of the
    configuration with every underscore turned into a hyphen, in
    project [p]. Get, Replace and Create go to the endpoint of the
    region; Replace and Create carry the same document, whose name is
    that canonical name and whose namespace is [p], with the image, the
    service account, the connector, the variables and the arguments of
    the configuration. The only policy ever set gives
    [roles/run.invoker] to [allUsers], on the service of that name in
    the region. Besides these calls there are only pauses of 500 ms,
    the [url] output and the failure of the step. *)
Theorem createOrUpdate_addresses_one_service (P : Platform)
    (this : Gcloud.ServiceConfiguration) (w : World) (p : string) :
  authenticated P (Gcloud.serviceAccountKey this) w p ->
  exists calls,
    trace_of (Gcloud.createOrUpdate P this w)
    = (trace (signed_in P (Gcloud.serviceAccountKey this) w) ++ calls)%list
    /\ Forall (on_service this p) calls
    /\ List.Exists (fun e => is_ServicesGet e = true) calls.
Proof.
  intros Ha. rewrite (createOrUpdate_signed_in P this w p Ha).
  set (w0 := signed_in P (Gcloud.serviceAccountKey this) w).
  assert (He : emits (on_service this p)
                 (try_catch (Gcloud.authorize_and_poll P (Gcloud.set_project this p))
                    Gcloud.report_and_rethrow)).
  { apply emits_try_catch.
    - unfold Gcloud.authorize_and_poll, Gcloud.setCloudRunServiceIAMPolicy.
      apply emits_bind.
      + destruct (JS.truthy _); [apply emits_call | apply emits_ret].
        split; reflexivity.
      + intros _. apply emits_bind; [apply emits_on_service_getStatus_loop|].
        intros st. apply emits_ret.
    - intros e. unfold Gcloud.report_and_rethrow, Core.setFailed.
      apply emits_bind; [apply emits_emit; exact I|]. intros _. apply emits_throw. }
  destruct (He (extend (mutation P (Gcloud.set_project this p) w0) w0)) as (evs & Ht & Hq).
  exists (mutation P (Gcloud.set_project this p) w0 ++ evs)%list. split; [|split].
  - unfold trace_of. rewrite Ht, trace_extend, app_assoc. reflexivity.
  - apply Forall_app. split; [apply mutation_on_service | exact Hq].
  - apply List.Exists_app. left. unfold mutation.
    destruct (services_get P _); destruct (not_found _);
      apply List.Exists_cons_hd; reflexivity.
Qed.

Lemma createOrUpdate_addresses_one_service_witness :
  exists calls,
    trace_of (Gcloud.createOrUpdate Example.absent Example.service empty_World)
    = (trace (signed_in Example.absent "{}" empty_World) ++ calls)%list
    /\ Forall (on_service Example.service "p") calls
    /\ List.Exists (fun e => is_ServicesGet e = true) calls.
Proof.
  exact (createOrUpdate_addresses_one_service Example.absent Example.service empty_World "p"
           (conj eq_refl eq_refl)).
Defined.

(** ** The run always ends without an exception *)

Section Settles.
Context {A B : Type}.

Lemma settles_ret (a : A) : settles (ret a).
Proof. intros w. discriminate. Qed.

Lemma settles_throw (e : Exn) : settles (@throw A e).
Proof. intros w. discriminate. Qed.

Lemma settles_emit (ev : Event) : settles (emit ev).
Proof. intros w. discriminate. Qed.

Lemma settles_call (kind : Event -> bool) (ev : Event) (answer : nat -> Reply A) :
  settles (call kind ev answer).
Proof. intros w. unfold call, of_Reply. simpl. destruct (answer _); discriminate. Qed.

Lemma settles_bind (m : M A) (k : A -> M B) :
  settles m -> (forall a, settles (k a)) -> settles (bind m k).
Proof.
  intros Hm Hk w. unfold bind. specialize (Hm w).
  destruct (m w) as [[a|e|] w1]; simpl in *; [apply Hk | discriminate | congruence].
Qed.

Lemma settles_try_catch (m : M A) (h : Exn -> M A) :
  settles m -> (forall e, settles (h e)) -> settles (try_catch m h).
Proof.
  intros Hm Hh w. unfold try_catch. specialize (Hm w).
  destruct (m w) as [[a|e|] w1]; simpl in *; [discriminate | apply Hh | congruence].
Qed.

End Settles.

Ltac settles_step :=
  match goal with
  | |- settles (bind _ _) => apply settles_bind; [| intros ?]
  | |- settles (try_catch _ _) => apply settles_try_catch; [| intros ?]
  | |- settles (if ?b then _ else _) => destruct b
  | |- settles (match ?x with _ => _ end) => destruct x
  | |- settles (ret _) => apply settles_ret
  | |- settles (throw _) => apply settles_throw
  | |- settles (emit _) => apply settles_emit
  | |- settles (call _ _ _) => apply settles_call
  | |- settles (call_detached _) => apply settles_emit
  end.

Section SettlesCode.
Context (P : Platform).

Lemma settles_getInput_required (name : string) : settles (Core.getInput_required P name).
Proof. unfold Core.getInput_required. repeat settles_step. Qed.

Lemma settles_setGoogleApplicationCredentials (key : string) :
  settles (Gcloud.setGoogleApplicationCredentials P key).
Proof.
  intros w. unfold Gcloud.setGoogleApplicationCredentials.
  destruct (negb _); simpl; discriminate.
Qed.

Lemma settles_getClient : settles (Gcloud.getClient P).
Proof.
  intros w. unfold Gcloud.getClient, of_Reply. simpl.
  destruct (auth_getClient P _); discriminate.
Qed.

Lemma settles_getProjectId : settles (Gcloud.getProjectId P).
Proof.
  intros w. unfold Gcloud.getProjectId, of_Reply. simpl.
  destruct (auth_getProjectId P _); discriminate.
Qed.

Lemma settles_report_and_rethrow {A} (e : Exn) : settles (@Gcloud.report_and_rethrow A e).
Proof. unfold Gcloud.report_and_rethrow, Core.setFailed. repeat settles_step. Qed.

Lemma settles_delete (this : Gcloud.ServiceConfiguration) : settles (Gcloud.delete P this).
Proof.
  unfold Gcloud.delete.
  apply settles_try_catch; [|intros e; apply settles_report_and_rethrow].
  apply settles_bind; [apply settles_setGoogleApplicationCredentials|intros _].
  apply settles_bind; [apply settles_getClient|intros _].
  apply settles_bind; [apply settles_getProjectId|intros p].
  unfold Core.info. repeat settles_step.
Qed.

Lemma settles_createOrUpdate (this : Gcloud.ServiceConfiguration) :
  settles (Gcloud.createOrUpdate P this).
Proof.
  unfold Gcloud.createOrUpdate.
  apply settles_try_catch; [|intros e; apply settles_report_and_rethrow].
  apply settles_bind; [apply settles_setGoogleApplicationCredentials|intros _].
  apply settles_bind; [apply settles_getClient|intros _].
  apply settles_bind; [apply settles_getProjectId|intros p].
  apply settles_bind.
  - unfold Gcloud.probe_and_mutate. repeat settles_step.
  - intros _. unfold Gcloud.authorize_and_poll, Gcloud.setCloudRunServiceIAMPolicy.
    apply settles_bind; [repeat settles_step|intros _].
    apply settles_bind; [|intros st; apply settles_ret].
    intros w. apply getStatus_total.
Qed.

Lemma settles_getEnvVarsFromImage (name : string) :
  settles (Docker.getEnvVarsFromImage P name).
Proof.
  unfold Docker.getEnvVarsFromImage.
  apply settles_bind; [apply settles_getInput_required|intros key].
  destruct (new_URL P _); [|apply settles_throw].
  apply settles_bind; [|intros contents].
  - intros w. unfold Docker.serviceAccountKeyContents.
    destruct (fs w !! key); [|destruct (unreadable w !! key)]; discriminate.
  - unfold Core.setFailed. repeat settles_step.
Qed.

Lemma settles_destroy_body :
  settles
    (let! name := Core.getInput_required P "name" in
     let! serviceAccountKey := Core.getInput_required P "service_account_key" in
     let! runRegion := Core.getInput_required P "run_region" in
     do! Core.info ("Deleting Cloud Run deployment " +:+ name +:+ "...") in
     let comment := "🤖  Cloud Run Deployment: Deleting" +:+ Main.nl in
     let! comment_id := Main.addPullRequestComment P comment in
     try_catch
       (let serviceConfig :=
          Gcloud.new_ServiceConfiguration name runRegion serviceAccountKey
            None None None None in
        do! Gcloud.delete P serviceConfig in
        let comment := comment
                         +:+ "🤖  Cloud Run Deployment: Deployment succesfully deleted."
                         +:+ Main.nl in
        call_detached (EvUpdatePullRequestComment comment_id comment))
       (fun error =>
          let comment := comment
                           +:+ "🤖  Cloud Run Deployment: Deployment deletion failed: "
                           +:+ Exn_toString error +:+ "." +:+ Main.nl in
          do! call_detached (EvUpdatePullRequestComment comment_id comment) in
          throw error)).
Proof.
  repeat (apply settles_bind; [apply settles_getInput_required|intros ?]).
  unfold Core.info, Main.addPullRequestComment.
  apply settles_bind; [apply settles_emit|intros _].
  apply settles_bind; [apply settles_call|intros id].
  apply settles_try_catch.
  - apply settles_bind; [apply settles_delete|intros _]. apply settles_emit.
  - intros e. repeat settles_step.
Qed.

(** With the loop condition false at some count that the fuel reaches,
    the wait for the image ends. *)
Lemma waitForDockerImage_loop_settles (url : string) (k : Z) (fuel : nat) (attempt : Z)
    (w : World) :
  0 <= attempt <= k ->
  JS.lt (JS.of_Z k) (Gcloud.maxAttempts P) = false ->
  k - attempt <= Z.of_nat fuel ->
  fst (Gcloud.waitForDockerImage_loop P url fuel attempt w) <> OutOfFuel.
Proof.
  intros Ha Hk. revert attempt w Ha.
  induction fuel as [|fuel IH]; intros attempt w Ha Hf.
  - assert (attempt = k) as -> by lia. rewrite loop_stop by exact Hk. discriminate.
  - destruct (JS.lt (JS.of_Z attempt) (Gcloud.maxAttempts P)) eqn:Hlt;
      [|rewrite loop_stop by exact Hlt; discriminate].
    assert (attempt <> k) by (intros ->; congruence).
    rewrite loop_step by exact Hlt.
    destruct (verdict _); [discriminate| |discriminate].
    apply IH; lia.
Qed.

Lemma settles_waitForDockerImage (k : Z) (fuel : nat) (image key : string) :
  0 <= k <= Z.of_nat fuel ->
  JS.lt (JS.of_Z k) (Gcloud.maxAttempts P) = false ->
  settles (Gcloud.waitForDockerImage P fuel image key).
Proof.
  intros Hk Hlt. unfold Gcloud.waitForDockerImage.
  apply settles_bind; [apply settles_setGoogleApplicationCredentials|intros _].
  apply settles_bind; [apply settles_getClient|intros _].
  apply settles_bind; [apply settles_getProjectId|intros p].
  destruct (new_URL P _) as [u|e]; [|apply settles_throw].
  intros w. apply (waitForDockerImage_loop_settles _ k); [lia | exact Hlt | lia].
Qed.

Lemma settles_create (k : Z) (fuel : nat) :
  0 <= k <= Z.of_nat fuel ->
  JS.lt (JS.of_Z k) (Gcloud.maxAttempts P) = false ->
  settles (Main.create P fuel).
Proof.
  intros Hk Hlt. unfold Main.create.
  repeat (apply settles_bind; [apply settles_getInput_required|intros ?]).
  unfold Core.info, Core.setFailed, Main.addPullRequestComment, Main.updatePullRequestComment,
    Main.getContainerConfiguration.
  apply settles_bind; [apply settles_emit|intros _].
  apply settles_bind; [apply settles_call|intros id].
  apply settles_bind; [apply settles_call|intros _].
  apply settles_bind; [apply (settles_waitForDockerImage k); assumption|intros found].
  destruct (negb found); [repeat settles_step|].
  apply settles_bind; [apply settles_call|intros _].
  apply settles_bind; [apply settles_getEnvVarsFromImage|intros cfg].
  apply settles_bind; [apply settles_call|intros _].
  apply settles_bind; [apply settles_call|intros cc].
  apply settles_bind; [apply settles_call|intros _].
  unfold Main.deploy, Main.report_failure, Main.updatePullRequestComment.
  apply settles_bind.
  - apply settles_try_catch; [|intros e; apply settles_ret].
    apply settles_bind; [apply settles_createOrUpdate|intros d; apply settles_ret].
  - intros [e|d]; repeat settles_step.
Qed.

End SettlesCode.

Lemma caught_returns (m : M unit) (w : World) :
  fst (m w) <> OutOfFuel ->
  fst (try_catch m (fun error => Core.setFailed (FailJson error)) w) = Ret tt.
Proof.
  unfold try_catch. destruct (m w) as [[[]|e|] w1]; simpl; congruence.
Qed.

(** X19. [destroy] always returns normally, and so does [main]: an
    exception of either path ends in the failure of the step, never in
    a rejection. On the create-or-update path this needs the wait for
    the image to end, which it does as soon as the attempt counter
    reaches a value [k] that is not below [maxAttempts]. *)
Theorem main_always_returns (P : Platform) (fuel : nat) (w : World) (k : Z) :
  result (Main.destroy P w) = Ret tt
  /\ (Core.getInput P "delete_service" <> "false" -> result (Main.main P fuel w) = Ret tt)
  /\ (0 <= k <= Z.of_nat fuel ->
      JS.lt (JS.of_Z k) (Gcloud.maxAttempts P) = false ->
      result (Main.main P fuel w) = Ret tt)
  /\ (forall e, result (Main.main P fuel w) <> Throw e).
Proof.
  assert (Hd : forall w', fst (Main.destroy P w') = Ret tt).
  { intros w'. unfold Main.destroy. apply caught_returns. apply settles_destroy_body. }
  split; [apply Hd|]. split; [|split].
  - intros Hv. unfold Main.main, result. rewrite (proj2 (String.eqb_neq _ _) Hv).
    apply caught_returns. rewrite Hd. discriminate.
  - intros Hk Hlt. unfold Main.main, result. apply caught_returns.
    destruct (String.eqb _ _).
    + apply (settles_create P k); assumption.
    + rewrite Hd. discriminate.
  - intros e. unfold Main.main, result, try_catch.
    destruct (String.eqb _ _);
      [destruct (Main.create P fuel w) as [[[]|e'|] w1]
      |destruct (Main.destroy P w) as [[[]|e'|] w1]]; simpl; discriminate.
Qed.

Lemma main_always_returns_witness :
  result (Main.main (Example.never_there "1" "30") 5 empty_World) = Ret tt.
Proof.
  refine (proj1 (proj2 (proj2 (main_always_returns (Example.never_there "1" "30") 5
                                 empty_World 2))) _ _).
  - lia.
  - vm_compute. reflexivity.
Defined.

(** ** The table of arguments in the comment *)

Lemma rows_acc {A} (row : A -> string) (l : list A) (comment : string) :
  fold_left (fun comment a => comment +:+ row a) l comment
  = comment +:+ fold_left (fun comment a => comment +:+ row a) l "".
Proof.
  revert comment. induction l as [|a l IH]; intros comment; simpl.
  - rewrite append_nil_r. reflexivity.
  - rewrite IH, (IH ("" +:+ row a)), append_nil, append_assoc. reflexivity.
Qed.

Lemma argument_pass (args : list string) (comment : string) :
  fold_left (fun comment argument => comment +:+ "| " +:+ argument +:+ " |" +:+ Main.nl)
    args comment
  = comment +:+ argument_block args.
Proof. apply (rows_acc (fun argument => "| " +:+ argument +:+ " |" +:+ Main.nl)). Qed.

Lemma argument_passes (args outer : list string) (comment : string) :
  fold_left (fun comment (_ : string) =>
               fold_left (fun comment argument =>
                            comment +:+ "| " +:+ argument +:+ " |" +:+ Main.nl)
                 args comment)
    outer comment
  = comment +:+ copies (length outer) (argument_block args).
Proof.
  revert comment. induction outer as [|x outer IH]; intros comment; simpl.
  - rewrite append_nil_r. reflexivity.
  - rewrite IH, argument_pass, append_assoc. reflexivity.
Qed.

Lemma count_char_app (c : ascii) (a b : string) :
  count_char c (a +:+ b) = (count_char c a + count_char c b)%nat.
Proof.
  induction a as [|x a IH]; [reflexivity|].
  rewrite append_cons. simpl. rewrite IH. lia.
Qed.

Lemma count_char_copies (c : ascii) (n : nat) (s : string) :
  count_char c (copies n s) = (n * count_char c s)%nat.
Proof.
  induction n as [|n IH]; [reflexivity|].
  simpl copies. rewrite count_char_app, IH. lia.
Qed.

Lemma count_char_argument_block (args : list string) :
  Forall (fun argument => count_char JS.chr_newline argument = 0%nat) args ->
  count_char JS.chr_newline (argument_block args) = length args.
Proof.
  unfold argument_block. induction 1 as [|a l Ha _ IH]; [reflexivity|].
  simpl fold_left. rewrite argument_pass, append_nil, !count_char_app.
  fold (argument_block l). unfold argument_block at 1. rewrite IH, Ha.
  reflexivity.
Qed.

(** X20. The table of arguments that [create] writes into the comment
    is the list of the arguments of the image repeated once per
    argument: with [n] arguments it is [n] copies of the [n] rows, so
    it has [n * n] rows when no argument spans lines. *)
Theorem argument_rows_repeat (args : list string) :
  Main.argument_rows args = copies (length args) (argument_block args)
  /\ (Forall (fun argument => count_char JS.chr_newline argument = 0%nat) args ->
      count_char JS.chr_newline (Main.argument_rows args)
      = (length args * length args)%nat).
Proof.
  assert (H : Main.argument_rows args = copies (length args) (argument_block args)).
  { unfold Main.argument_rows. rewrite argument_passes, append_nil. reflexivity. }
  split; [exact H|].
  intros Hn. rewrite H, count_char_copies, (count_char_argument_block args Hn).
  reflexivity.
Qed.

Lemma argument_rows_repeat_witness :
  count_char JS.chr_newline (Main.argument_rows ["serve"; "migrate"; "worker"]) = 9%nat.
Proof.
  refine (proj2 (argument_rows_repeat ["serve"; "migrate"; "worker"]) _).
  repeat constructor.
Defined.

(** ** The paths of [create] and [destroy] that stop early *)

Lemma all_supplied_create (P : Platform) :
  first_missing P create_inputs = None ->
  supplied P "name" = true /\ supplied P "service_account_key" = true
  /\ supplied P "run_region" = true /\ supplied P "image" = true
  /\ supplied P "service_account_name" = true.
Proof.
  unfold first_missing, create_inputs. cbn [List.find].
  destruct (supplied P "name"); [|discriminate].
  destruct (supplied P "service_account_key"); [|discriminate].
  destruct (supplied P "run_region"); [|discriminate].
  destruct (supplied P "image"); [|discriminate].
  destruct (supplied P "service_account_name"); [|discriminate].
  auto.
Qed.

Lemma all_supplied_destroy (P : Platform) :
  first_missing P destroy_inputs = None ->
  supplied P "name" = true /\ supplied P "service_account_key" = true
  /\ supplied P "run_region" = true.
Proof.
  unfold first_missing, destroy_inputs. cbn [List.find].
  destruct (supplied P "name"); [|discriminate].
  destruct (supplied P "service_account_key"); [|discriminate].
  destruct (supplied P "run_region"); [|discriminate].
  auto.
Qed.



(** X22. Nothing is deployed or deleted when the comment on the pull
    request cannot be added: [create] throws the error of that call
    right after its log line, and [destroy] fails the step with it,
    before either has signed in or called the registry or the
    service. *)
Theorem comment_failure_stops_the_run (P : Platform) (fuel : nat) (w : World) (e : Exn) :
  github_addPullRequestComment P = Fail e ->
  (first_missing P create_inputs = None ->
     Main.create P fuel w = (Throw e, extend (announced P) w)
     /\ (Core.getInput P "delete_service" = "false" ->
         Main.main P fuel w
         = (Ret tt, extend (announced P ++ [EvSetFailed (FailJson e)]) w)))
  /\ (first_missing P destroy_inputs = None ->
     Main.destroy P w
     = (Ret tt, extend (announced_deletion P ++ [EvSetFailed (FailJson e)]) w)).
Proof.
  intros Hadd. split; intros Hin.
  - destruct (all_supplied_create P Hin) as (H1 & H2 & H3 & H4 & H5).
    assert (Hc : Main.create P fuel w = (Throw e, extend (announced P) w)).
    { unfold Main.create. read_inputs.
      unfold Core.info, Main.addPullRequestComment.
      rewrite bind_emit, bind_call, Hadd.
      rewrite !record_extend, !extend_extend. reflexivity. }
    split; [exact Hc|].
    intros Hv. unfold Main.main. rewrite Hv. simpl String.eqb. cbv iota.
    unfold try_catch. rewrite Hc. unfold Core.setFailed, emit.
    rewrite record_extend, extend_extend. reflexivity.
  - destruct (all_supplied_destroy P Hin) as (H1 & H2 & H3).
    unfold Main.destroy. unfold try_catch at 1. read_inputs.
    unfold Core.info, Main.addPullRequestComment.
    rewrite bind_emit, bind_call, Hadd.
    unfold Core.setFailed, emit.
    rewrite !record_extend, !extend_extend. reflexivity.
Qed.

Lemma comment_failure_stops_the_run_witness :
  Main.create Example.no_pull_request 10 empty_World
  = (Throw (JsError "Error" "No pull request found."),
     extend (announced Example.no_pull_request) empty_World).
Proof.
  exact (proj1 (proj1 (comment_failure_stops_the_run Example.no_pull_request 10 empty_World
                         (JsError "Error" "No pull request found.") eq_refl) eq_refl)).
Defined.

Lemma delete_fails_once (P : Platform) (this : Gcloud.ServiceConfiguration) (w : World) :
  count is_SetFailed (trace_of (Gcloud.delete P this w))
  = (count is_SetFailed (trace w)
     + match result (Gcloud.delete P this w) with Throw _ => 1 | _ => 0 end)%nat.
Proof.
  unfold Gcloud.delete. apply reported_once.
  apply emits_bind; [apply emits_setGoogleApplicationCredentials; kinds|intros _].
  apply emits_bind; [apply emits_getClient; kinds|intros _].
  apply emits_bind; [apply emits_getProjectId; kinds|intros p].
  unfold Core.info. emits_auto.
Qed.

(** X23. [destroy] deletes the service named by the inputs, with no
    image, account or connector. When the deletion throws, [destroy]
    writes the error into the comment, without waiting for that call,
    and fails the step with the error; as [delete] has failed the step
    already, the failure is reported twice. When the deletion returns,
    also for a service that is not there, the comment says that the
    deployment was deleted and the step is not failed. *)
Theorem destroy_reports (P : Platform) (w : World) (comment_id : Z) :
  first_missing P destroy_inputs = None ->
  github_addPullRequestComment P = Ok comment_id ->
  let deletion := Gcloud.delete P (to_delete P) (extend (announced_deletion P) w) in
  (forall e, result deletion = Throw e ->
     Main.destroy P w
     = (Ret tt,
        extend [EvUpdatePullRequestComment comment_id
                  (deleting +:+ "🤖  Cloud Run Deployment: Deployment deletion failed: "
                     +:+ Exn_toString e +:+ "." +:+ Main.nl);
                EvSetFailed (FailJson e)] (snd deletion))
     /\ count is_SetFailed (trace_of (Main.destroy P w))
        = (count is_SetFailed (trace w) + 2)%nat)
  /\ (result deletion = Ret tt ->
     Main.destroy P w
     = (Ret tt,
        extend [EvUpdatePullRequestComment comment_id
                  (deleting +:+ "🤖  Cloud Run Deployment: Deployment succesfully deleted."
                     +:+ Main.nl)] (snd deletion))
     /\ count is_SetFailed (trace_of (Main.destroy P w)) = count is_SetFailed (trace w)).
Proof.
  intros Hin Hadd deletion.
  destruct (all_supplied_destroy P Hin) as (H1 & H2 & H3).
  assert (Hd : Main.destroy P w
               = try_catch
                   (try_catch
                      (do! Gcloud.delete P (to_delete P) in
                       call_detached
                         (EvUpdatePullRequestComment comment_id
                            (deleting
                               +:+ "🤖  Cloud Run Deployment: Deployment succesfully deleted."
                               +:+ Main.nl)))
                      (fun error =>
                         do! call_detached
                               (EvUpdatePullRequestComment comment_id
                                  (deleting
                                     +:+ "🤖  Cloud Run Deployment: Deployment deletion failed: "
                                     +:+ Exn_toString error +:+ "." +:+ Main.nl)) in
                         throw error))
                   (fun error => Core.setFailed (FailJson error))
                   (extend (announced_deletion P) w)).
  { unfold Main.destroy. unfold try_catch at 1. read_inputs.
    unfold Core.info, Main.addPullRequestComment.
    rewrite bind_emit, bind_call, Hadd.
    rewrite !record_extend, !extend_extend. reflexivity. }
  pose proof (delete_fails_once P (to_delete P) (extend (announced_deletion P) w)) as Hn.
  fold deletion in Hn. rewrite trace_extend, count_app in Hn. simpl in Hn.
  split.
  - intros e He. rewrite He in Hn.
    assert (E : Main.destroy P w
                = (Ret tt,
                   extend [EvUpdatePullRequestComment comment_id
                             (deleting
                                +:+ "🤖  Cloud Run Deployment: Deployment deletion failed: "
                                +:+ Exn_toString e +:+ "." +:+ Main.nl);
                           EvSetFailed (FailJson e)] (snd deletion))).
    { rewrite Hd. unfold try_catch, bind. fold deletion.
      unfold result in He. destruct deletion as [r w2]. simpl in He. subst r.
      unfold call_detached, Core.setFailed, emit, throw. cbn [fst snd].
      rewrite !record_extend, !extend_extend. reflexivity. }
    split; [exact E|].
    rewrite E. unfold trace_of. cbn [snd]. rewrite trace_extend, count_app.
    unfold trace_of in Hn. rewrite Hn. simpl. lia.
  - intros He. rewrite He in Hn.
    assert (E : Main.destroy P w
                = (Ret tt,
                   extend [EvUpdatePullRequestComment comment_id
                             (deleting
                                +:+ "🤖  Cloud Run Deployment: Deployment succesfully deleted."
                                +:+ Main.nl)] (snd deletion))).
    { rewrite Hd. unfold try_catch, bind. fold deletion.
      unfold result in He. destruct deletion as [r w2]. simpl in He. subst r.
      unfold call_detached, emit. cbn [fst snd].
      rewrite !record_extend. reflexivity. }
    split; [exact E|].
    rewrite E. unfold trace_of. cbn [snd]. rewrite trace_extend, count_app.
    unfold trace_of in Hn. rewrite Hn. simpl. lia.
Qed.

Lemma destroy_reports_witness :
  count is_SetFailed (trace_of (Main.destroy Example.delete_denied empty_World)) = 2%nat.
Proof.
  exact (proj2 (proj1 (destroy_reports Example.delete_denied empty_World 1 eq_refl eq_refl)
                  (GaxiosError "Forbidden" (Some 403)) eq_refl)).
Defined.

(** ** The report of a deployment *)

(** X24. The end of [create] reports the deployment in the comment.
    When [createOrUpdate] throws, the comment gets the error and the
    failure heading, from the text it had before, and the error is
    thrown again. When it returns, the comment gets the date, the URL
    and the logs and the success heading. An error of the update of the
    comment takes the place of the outcome: after a failed deployment
    it is thrown instead of the error of the deployment, and after a
    deployment that went well the run still ends in the failure report,
    with the success text marked as failed. *)
Theorem deploy_outcomes (P : Platform) (comment_id : Z) (comment : string)
    (serviceConfig : Gcloud.ServiceConfiguration) (w : World) :
  let run := Gcloud.createOrUpdate P serviceConfig w in
  let n := count is_UpdatePullRequestComment (trace_of run) in
  let update := EvUpdatePullRequestComment comment_id in
  (forall e, result run = Throw e ->
     Main.deploy P comment_id comment serviceConfig w
     = (match github_updatePullRequestComment P n with
        | Ok _ => Throw e
        | Fail e' => Throw e'
        end,
        extend [update (failure_comment comment e)] (snd run)))
  /\ (forall d, result run = Ret d ->
     Main.deploy P comment_id comment serviceConfig w
     = match github_updatePullRequestComment P n with
       | Ok _ => (Ret tt, extend [update (success_comment comment d)] (snd run))
       | Fail e' =>
           (match github_updatePullRequestComment P (S n) with
            | Ok _ => Throw e'
            | Fail e'' => Throw e''
            end,
            extend [update (success_comment comment d);
                    update (failure_comment (success_comment comment d) e')] (snd run))
       end).
Proof.
  intros run n update. subst n. unfold trace_of, result.
  split.
  - intros e He. unfold Main.deploy. unfold bind at 1. unfold try_catch at 1.
    unfold bind at 1. fold run. destruct run as [r w1]. simpl in He. subst r.
    cbn [fst snd]. unfold ret at 1. cbn iota.
    unfold Main.report_failure, Main.updatePullRequestComment.
    rewrite bind_call. fold (failure_comment comment e).
    destruct (github_updatePullRequestComment P _) as [[]|e'];
      rewrite record_extend; reflexivity.
  - intros d He. unfold Main.deploy. unfold bind at 1. unfold try_catch at 1.
    unfold bind at 1. fold run. destruct run as [r w1]. simpl in He. subst r.
    cbn [fst snd]. unfold ret at 1 2. cbn iota.
    fold (success_comment comment d).
    unfold Main.updatePullRequestComment at 1. unfold try_catch at 1. unfold call at 1.
    cbn [fst snd].
    destruct (github_updatePullRequestComment P _) as [[]|e']; cbn [of_Reply].
    + rewrite record_extend. reflexivity.
    + unfold Main.report_failure, Main.updatePullRequestComment.
      rewrite bind_call, count_record. cbn [is_UpdatePullRequestComment].
      fold (failure_comment (success_comment comment d) e').
      replace (count is_UpdatePullRequestComment (trace w1) + 1)%nat
        with (S (count is_UpdatePullRequestComment (trace w1))) by lia.
      destruct (github_updatePullRequestComment P (S _)) as [[]|e''];
        rewrite !record_extend, !extend_extend; reflexivity.
Qed.

Lemma deploy_outcomes_witness :
  Main.deploy Example.iam_denied 1 Main.in_progress Example.service empty_World
  = (Throw (GaxiosError "Forbidden" (Some 403)),
     extend [EvUpdatePullRequestComment 1
               (failure_comment Main.in_progress (GaxiosError "Forbidden" (Some 403)))]
       (snd (Gcloud.createOrUpdate Example.iam_denied Example.service empty_World))).
Proof.
  exact (proj1 (deploy_outcomes Example.iam_denied 1 Main.in_progress Example.service
                  empty_World) (GaxiosError "Forbidden" (Some 403)) eq_refl).
Defined.
